(** * OptiMeal Engine: recipe selection, weekly scheduling, grocery optimisation

    A shallow embedding of the algorithmic core of the backend
    ([services/optimization_service.py], [services/meal_planner_service.py],
    [services/grocery_optimizer_service.py], [services/recipe_service.py],
    the validation half of [services/recipe_generator_service.py],
    [utils/ingredient_utils.py] and the pydantic models they use), followed
    by the properties established about it.

    Conventions of the embedding:
    - Python [float] values are exact rationals ([Q]); identities between
      prices and totals are stated with [==] and hold up to the rounding the
      real program performs.  Python [int] values are [Z].
    - Python [str] is [string]; [str.lower] is modelled on ASCII letters.
    - A Python [dict] whose iteration order is observable (the grocery basket,
      [items_by_store], [items_by_section]) is an association list in
      insertion order; the ingredient usage tracker, which is only queried by
      key, is a [gmap].
    - [print] and [solver.Solve] are recorded as events next to the value a
      function returns; a raised exception is an outcome: the [ValueError]s
      the services raise themselves, the [TypeError] of [abs] applied to a
      solver expression, the [ValidationError] of a pydantic constructor.
    - The linear solver is an interface ([pywraplp.Solver]).  Properties that
      depend on its answers take it to be exact ([pywraplp.ExactSolver]); an
      exhaustive search ([ReferenceSolver.exhaustive]) is such a solver and
      runs the examples. *)

From Stdlib Require Import QArith Qabs Qround Lqa ZArith Ascii String.
From stdpp Require Import gmap strings list sorting pretty.

Open Scope Q_scope.

(** ** Python helpers *)

Module Py.

(** Strict comparison on floats, as a boolean. *)
Definition Qltb (x y : Q) : bool := negb (Qle_bool y x).

(** [c.lower()] for one ASCII character. *)
Definition lower_ascii (c : ascii) : ascii :=
  let n := nat_of_ascii c in
  if ((65 <=? n) && (n <=? 90))%nat then ascii_of_nat (n + 32) else c.

(** [s.lower()]. *)
Fixpoint lower (s : string) : string :=
  match s with
  | EmptyString => EmptyString
  | String c s' => String (lower_ascii c) (lower s')
  end.

(** [s.split(sep)[0]]: the part of [s] before the first occurrence of
    [sep], all of [s] when [sep] does not occur. *)
Fixpoint split_head (sep s : string) : string :=
  match s with
  | EmptyString => EmptyString
  | String c s' =>
      if String.prefix sep s then EmptyString else String c (split_head sep s')
  end.

(** [int(x)] on a float: truncation towards zero. *)
Definition int (x : Q) : Z := Z.quot (Qnum x) (Zpos (Qden x)).

(** [sum(xs)] on floats: left to right from the integer [0]. *)
Definition sum (xs : list Q) : Q := fold_left Qplus xs 0.

(** Ordered dictionaries: [key in d], [d[key]], [d[key] = v]. *)
Section Dict.
Context {V : Type}.

Fixpoint dict_get (d : list (string * V)) (k : string) : option V :=
  match d with
  | [] => None
  | (k', v) :: d' => if String.eqb k' k then Some v else dict_get d' k
  end.

Definition dict_mem (d : list (string * V)) (k : string) : bool :=
  match dict_get d k with Some _ => true | None => false end.

(** Assignment keeps the position of an existing key and appends a new
    one, as Python dictionaries do. *)
Fixpoint dict_set (d : list (string * V)) (k : string) (v : V)
  : list (string * V) :=
  match d with
  | [] => [(k, v)]
  | (k', v') :: d' =>
      if String.eqb k' k then (k', v) :: d' else (k', v') :: dict_set d' k v
  end.
End Dict.

(** [c.isspace()] for one ASCII character: tab, line feed, vertical tab,
    form feed, carriage return, the separators 28 to 31 and the space. *)
Definition isspace (c : ascii) : bool :=
  let n := nat_of_ascii c in
  (((9 <=? n) && (n <=? 13)) || ((28 <=? n) && (n <=? 32)))%nat.

Fixpoint lstrip (s : string) : string :=
  match s with
  | EmptyString => EmptyString
  | String c s' => if isspace c then lstrip s' else s
  end.

Fixpoint rstrip (s : string) : string :=
  match s with
  | EmptyString => EmptyString
  | String c s' =>
      match rstrip s' with
      | EmptyString => if isspace c then EmptyString else String c EmptyString
      | r => String c r
      end
  end.

(** [s.strip()] *)
Definition strip (s : string) : string := rstrip (lstrip s).

End Py.

(** ** Raised exceptions

    What a call ends with: the value it returns or the exception it
    raises. *)

Inductive Exception :=
| ValueError (msg : string)
| TypeError (msg : string)
| ValidationError (msg : string).

Inductive Outcome (A : Type) :=
| Returned (a : A)
| Raised (e : Exception).
Arguments Returned {A} a.
Arguments Raised {A} e.

(** ** models/recipe.py, models/user_preferences.py, models/meal_plan.py *)

Module Ingredient.
Record t := mk {
  name : string;
  amount : Q;
  unit : string;
  cost_per_unit : Q;
  calories_per_unit : Q;
  protein_per_unit : Q;
  carbs_per_unit : Q;
  fat_per_unit : Q
}.
End Ingredient.

Module Recipe.
Record t := mk {
  id : string;
  name : string;
  description : string;
  ingredients : list Ingredient.t;
  steps : list string;
  cooking_time_min : Z;
  difficulty_level : string;
  cuisine_type : string;
  dietary_restrictions : list string;
  allergens : list string;
  total_calories : Q;
  total_protein_g : Q;
  total_carbs_g : Q;
  total_fat_g : Q;
  total_cost : Q
}.
End Recipe.

Inductive DietaryRestriction :=
| VEGETARIAN | VEGAN | KETO | PALEO | HALAL | KOSHER | GLUTEN_FREE | DAIRY_FREE.

(** The string value of the [str]-based enumeration. *)
Definition DietaryRestriction_value (d : DietaryRestriction) : string :=
  match d with
  | VEGETARIAN => "vegetarian"
  | VEGAN => "vegan"
  | KETO => "keto"
  | PALEO => "paleo"
  | HALAL => "halal"
  | KOSHER => "kosher"
  | GLUTEN_FREE => "gluten_free"
  | DAIRY_FREE => "dairy_free"
  end.

Inductive CookingSkillLevel := BEGINNER | INTERMEDIATE | ADVANCED.

Module UserPreferences.
Record t := mk {
  dietary_restrictions : list DietaryRestriction;
  allergies : list string;
  dislikes : list string;
  target_protein_g : option Z;
  target_carbs_g : option Z;
  target_fat_g : option Z;
  target_calories : option Z;
  preferred_cuisines : list string;
  cooking_skill_level : CookingSkillLevel;
  max_cooking_time_min : Z;
  weekly_budget : Q;
  max_repeats_per_week : Z
}.
End UserPreferences.

Module Meal.
Record t := mk {
  day : string;
  meal_type : string;
  recipe : Recipe.t
}.
End Meal.

Module DailyMeals.
(** [date] is kept as a number of days counted from today. *)
Record t := mk {
  date : Z;
  meals : list Meal.t
}.
End DailyMeals.

(** ** utils/ingredient_utils.py *)

Module ingredient_utils.

Definition str_in (s : string) (l : list string) : bool :=
  existsb (String.eqb s) l.

Definition standardize_units (ingredient_name : string) (amount : Q)
    (unit : string) : Q * string :=
  if str_in unit ["kg"; "mg"; "lb"; "oz"] then
    if String.eqb unit "kg" then (amount * 1000, "g")
    else if String.eqb unit "mg" then (amount / 1000, "g")
    else if String.eqb unit "lb" then (amount * 453.592, "g")
    else if String.eqb unit "oz" then (amount * 28.35, "g")
    else (amount, unit)
  else if str_in unit ["l"; "tbsp"; "tsp"; "cup"] then
    if String.eqb unit "l" then (amount * 1000, "ml")
    else if String.eqb unit "cup" then (amount * 240, "ml")
    else if String.eqb unit "tbsp" then (amount * 15, "ml")
    else if String.eqb unit "tsp" then (amount * 5, "ml")
    else (amount, unit)
  else (amount, unit).

Definition INGREDIENT_VARIATIONS : list (string * list string) :=
  [ ("bell pepper", ["bell pepper"; "red pepper"; "capsicum"; "pepper"]);
    ("chicken breast", ["chicken breast"; "chicken"; "chicken fillet"]);
    ("broccoli", ["broccoli"; "brocolli"]);
    ("spinach", ["spinach"; "spinage"]);
    ("rice", ["rice"; "white rice"; "long grain rice"]);
    ("quinoa", ["quinoa"; "quinoia"]);
    ("olive oil", ["olive oil"; "extra virgin olive oil"; "evoo"]);
    ("tofu", ["tofu"; "bean curd"]);
    ("salmon", ["salmon"; "salmon fillet"]);
    ("avocado", ["avocado"; "avacado"]);
    ("banana", ["banana"; "bananas"]);
    ("almonds", ["almonds"; "almond"]) ].

(** The reverse mapping, filled by the two nested loops at module level. *)
Definition VARIATION_TO_STANDARD : list (string * string) :=
  fold_left
    (fun table '(standard, variations) =>
       fold_left
         (fun table variation => Py.dict_set table (Py.lower variation) standard)
         variations table)
    INGREDIENT_VARIATIONS [].

Definition normalize_ingredient_name (name : string) : string :=
  let name_lower := Py.strip (Py.lower name) in
  match Py.dict_get VARIATION_TO_STANDARD name_lower with
  | Some standard => standard
  | None => name_lower
  end.

Definition get_standard_ingredient_names : list string :=
  map fst INGREDIENT_VARIATIONS.

Definition is_valid_ingredient (name : string) : bool :=
  str_in (normalize_ingredient_name name) get_standard_ingredient_names.

Definition UNIT_CONVERSIONS : list (string * list (string * Q)) :=
  [ ("kg", [("g", 1000)]);
    ("g", [("kg", 0.001); ("mg", 1000)]);
    ("mg", [("g", 0.001)]);
    ("l", [("ml", 1000)]);
    ("ml", [("l", 0.001)]);
    ("cup", [("ml", 240); ("g", 240)]);
    ("tbsp", [("ml", 15); ("g", 15)]);
    ("tsp", [("ml", 5); ("g", 5)]);
    ("oz", [("g", 28.35)]);
    ("lb", [("g", 453.592)]) ].

Definition convert_units (amount : Q) (from_unit to_unit : string)
    : Outcome Q :=
  if String.eqb from_unit to_unit then Returned amount
  else
    let conversions :=
      match Py.dict_get UNIT_CONVERSIONS from_unit with
      | Some conversions => conversions
      | None => []
      end in
    match Py.dict_get conversions to_unit with
    | Some factor => Returned (amount * factor)
    | None =>
        Raised
          (ValueError
             ("Cannot convert from " +:+ from_unit +:+ " to " +:+ to_unit))
    end.

End ingredient_utils.

(** ** services/grocery_optimizer_service.py *)

Module Store.
Record t := mk {
  id : string;
  name : string;
  location : string
}.
End Store.

Module PriceEntry.
Record t := mk {
  ingredient : string;
  store_id : string;
  unit : string;
  price_per_unit : Q;
  section : string
}.
End PriceEntry.

(** The loaded JSON document [_price_database].  A missing ["stores"] or
    ["prices"] key reads as the empty list ([.get(key, [])]), and the empty
    document is the record with both lists empty. *)
Module PriceDatabase.
Record t := mk {
  stores : list Store.t;
  prices : list PriceEntry.t
}.
End PriceDatabase.

(** One line item of a store's shopping list. *)
Module Item.
Record t := mk {
  name : string;
  quantity : Q;
  unit : string;
  unit_price : Q;
  total_price : Q;
  section : string
}.
End Item.

Module Substitution.
Record t := mk {
  original_item : string;
  alternative_store : string;
  original_price : Q;
  alternative_price : Q;
  savings_per_unit : Q;
  estimated_savings : Q
}.
End Substitution.

(** [stores_used] holds store records in single-store mode and the keys of
    [items_by_store] in multi-store mode. *)
Inductive StoresUsed :=
| UsedStores (stores : list Store.t)
| UsedStoreIds (ids : list string).

(** The dictionary returned by [optimize_grocery_list], key by key. *)
Module GroceryPlan.
Record t := mk {
  single_store_mode : bool;
  selected_store : option Store.t;
  stores_used : StoresUsed;
  total_cost : Q;
  items_by_store : list (string * list Item.t);
  items_by_section : list (string * list Item.t);
  substitutions : list Substitution.t;
  cost_savings : Q
}.
End GroceryPlan.

Module GroceryOptimizerService.

Import Py.

(** The grocery basket: ["name (unit)"] keys to quantities. *)
Abbreviation GroceryList := (list (string * Q)).

(** The catalogue written by [_create_default_prices]. *)
Definition default_prices : PriceDatabase.t :=
  PriceDatabase.mk
    [ Store.mk "store_1" "FreshMart" "Downtown";
      Store.mk "store_2" "ValueGrocer" "Uptown";
      Store.mk "store_3" "Organic Plus" "Midtown" ]
    [ PriceEntry.mk "Chicken Breast" "store_1" "g" 0.11 "meat";
      PriceEntry.mk "Chicken Breast" "store_2" "g" 0.13 "meat";
      PriceEntry.mk "Chicken Breast" "store_3" "g" 0.15 "meat";
      PriceEntry.mk "Broccoli" "store_1" "g" 0.012 "produce";
      PriceEntry.mk "Broccoli" "store_2" "g" 0.009 "produce";
      PriceEntry.mk "Broccoli" "store_3" "g" 0.015 "produce";
      PriceEntry.mk "Rice" "store_1" "g" 0.018 "pantry";
      PriceEntry.mk "Rice" "store_2" "g" 0.022 "pantry";
      PriceEntry.mk "Rice" "store_3" "g" 0.020 "pantry" ].

Definition default_store : Store.t := Store.mk "default" "Default Store" "N/A".

(** [item_name.split(' (')[0]] *)
Definition ingredient_of (item_name : string) : string :=
  split_head " (" item_name.

Definition same_ingredient (price_entry : PriceEntry.t) (ingredient : string)
    : bool :=
  String.eqb (lower (PriceEntry.ingredient price_entry)) (lower ingredient).

Section WithDatabase.
Variable db : PriceDatabase.t.

Definition _find_lowest_price_for_ingredient_in_store
    (ingredient store_id : string) : option PriceEntry.t :=
  List.find
    (fun price_entry =>
       same_ingredient price_entry ingredient
       && String.eqb (PriceEntry.store_id price_entry) store_id)
    (PriceDatabase.prices db).

(** The inner loop of [_find_best_single_store] for one store: the running
    [total_cost] and the flag [can_supply_all]; the loop stops at the first
    item the store does not sell. *)
Fixpoint store_total (grocery_list : GroceryList) (store_id : string)
    (total_cost : Q) : Q * bool :=
  match grocery_list with
  | [] => (total_cost, true)
  | (item_name, quantity) :: rest =>
      let ingredient_name := ingredient_of item_name in
      match _find_lowest_price_for_ingredient_in_store ingredient_name store_id with
      | Some price_info =>
          store_total rest store_id
            (total_cost + PriceEntry.price_per_unit price_info * quantity)
      | None => (total_cost, false)
      end
  end.

(** The outer loop of [_find_best_single_store]; [lowest_total_cost] is
    [None] while it is still [float('inf')]. *)
Fixpoint best_store_loop (grocery_list : GroceryList) (stores : list Store.t)
    (best_store : option Store.t) (lowest_total_cost : option Q)
    : option Store.t :=
  match stores with
  | [] => best_store
  | store :: rest =>
      let '(total_cost, can_supply_all) :=
        store_total grocery_list (Store.id store) 0 in
      let below :=
        match lowest_total_cost with
        | None => true
        | Some lowest => Qltb total_cost lowest
        end in
      if can_supply_all && below
      then best_store_loop grocery_list rest (Some store) (Some total_cost)
      else best_store_loop grocery_list rest best_store lowest_total_cost
  end.

Definition _find_best_single_store (grocery_list : GroceryList) : Store.t :=
  match PriceDatabase.stores db with
  | [] => default_store
  | first :: _ =>
      match best_store_loop grocery_list (PriceDatabase.stores db) None None with
      | Some best_store => best_store
      | None => first
      end
  end.

(** The loop body of [_calculate_store_items] for one basket entry. *)
Definition store_item (store_id item_name : string) (quantity : Q) : Item.t :=
  let ingredient_name := ingredient_of item_name in
  match _find_lowest_price_for_ingredient_in_store ingredient_name store_id with
  | Some price_info =>
      let item_cost := PriceEntry.price_per_unit price_info * quantity in
      Item.mk ingredient_name quantity (PriceEntry.unit price_info)
        (PriceEntry.price_per_unit price_info) item_cost
        (PriceEntry.section price_info)
  | None =>
      Item.mk ingredient_name quantity "g" 0.10 (0.10 * quantity) "unknown"
  end.

Definition _calculate_store_items (grocery_list : GroceryList)
    (store_id : string) : list Item.t * Q :=
  fold_left
    (fun '(items, total_cost) '(item_name, quantity) =>
       let item := store_item store_id item_name quantity in
       (items ++ [item], total_cost + Item.total_price item))
    grocery_list ([], 0).

Definition _group_by_section (items : list Item.t)
    : list (string * list Item.t) :=
  fold_left
    (fun grouped item =>
       let section := Item.section item in
       let grouped :=
         if dict_mem grouped section then grouped
         else dict_set grouped section [] in
       match dict_get grouped section with
       | Some l => dict_set grouped section (l ++ [item])
       | None => grouped
       end)
    items [].

Definition _find_lowest_price_for_ingredient (ingredient : string)
    : option PriceEntry.t :=
  snd
    (fold_left
       (fun '(lowest_price, lowest_price_info) price_entry =>
          if same_ingredient price_entry ingredient then
            match lowest_price with
            | None =>
                (Some (PriceEntry.price_per_unit price_entry), Some price_entry)
            | Some lowest =>
                if Qltb (PriceEntry.price_per_unit price_entry) lowest
                then (Some (PriceEntry.price_per_unit price_entry),
                      Some price_entry)
                else (lowest_price, lowest_price_info)
            end
          else (lowest_price, lowest_price_info))
       (PriceDatabase.prices db) (None, None)).

(** [items_by_store[store_id].append(item_details)] *)
Definition append_item (items_by_store : list (string * list Item.t))
    (store_id : string) (item : Item.t) : list (string * list Item.t) :=
  match dict_get items_by_store store_id with
  | Some l => dict_set items_by_store store_id (l ++ [item])
  | None => items_by_store
  end.

Definition _optimize_multi_store (grocery_list : GroceryList)
    : list (string * list Item.t) * Q :=
  fold_left
    (fun '(items_by_store, total_cost) '(item_name, quantity) =>
       let ingredient_name := ingredient_of item_name in
       match _find_lowest_price_for_ingredient ingredient_name with
       | Some best_price_info =>
           let store_id := PriceEntry.store_id best_price_info in
           let items_by_store :=
             if dict_mem items_by_store store_id then items_by_store
             else dict_set items_by_store store_id [] in
           let item_cost :=
             PriceEntry.price_per_unit best_price_info * quantity in
           let item_details :=
             Item.mk ingredient_name quantity (PriceEntry.unit best_price_info)
               (PriceEntry.price_per_unit best_price_info) item_cost
               (PriceEntry.section best_price_info) in
           (append_item items_by_store store_id item_details,
            total_cost + item_cost)
       | None =>
           let items_by_store :=
             match items_by_store with
             | [] => dict_set items_by_store "default" []
             | _ => items_by_store
             end in
           let store_id :=
             match items_by_store with
             | (k, _) :: _ => k
             | [] => "default"
             end in
           let item_cost := 0.10 * quantity in
           let item_details :=
             Item.mk ingredient_name quantity "g" 0.10 item_cost "unknown" in
           (append_item items_by_store store_id item_details,
            total_cost + item_cost)
       end)
    grocery_list ([], 0).

Definition _find_all_prices_for_ingredient (ingredient : string)
    : list PriceEntry.t :=
  fold_left
    (fun matches price_entry =>
       if same_ingredient price_entry ingredient
       then matches ++ [price_entry] else matches)
    (PriceDatabase.prices db) [].

Definition _get_store_name (store_id : string) : string :=
  match List.find (fun store => String.eqb (Store.id store) store_id)
          (PriceDatabase.stores db) with
  | Some store => Store.name store
  | None => "Unknown Store"
  end.

(** [all_prices.sort(key=lambda x: x["price_per_unit"])]: Python's sort is
    stable, so entries of equal price keep their order.  Insertion of [x]
    in front of an ascending list places it before the first entry that
    is not cheaper. *)
Fixpoint insert_by_price (x : PriceEntry.t) (l : list PriceEntry.t)
    : list PriceEntry.t :=
  match l with
  | [] => [x]
  | y :: l' =>
      if Qle_bool (PriceEntry.price_per_unit x) (PriceEntry.price_per_unit y)
      then x :: y :: l'
      else y :: insert_by_price x l'
  end.

Definition sort_by_price (l : list PriceEntry.t) : list PriceEntry.t :=
  foldr insert_by_price [] l.

(** The loop body of [_find_substitutions] for one basket entry: the
    records it appends. *)
Definition substitutions_for (item_name : string) (quantity : Q)
    : list Substitution.t :=
  let ingredient_name := ingredient_of item_name in
  let all_prices := _find_all_prices_for_ingredient ingredient_name in
  if (1 <? length all_prices)%nat then
    match sort_by_price all_prices with
    | first :: second :: _ =>
        let current_price := PriceEntry.price_per_unit first in
        let next_cheapest := PriceEntry.price_per_unit second in
        if Qltb next_cheapest (current_price * 0.9) then
          [ Substitution.mk ingredient_name
              (_get_store_name (PriceEntry.store_id second))
              current_price next_cheapest
              (current_price - next_cheapest)
              ((current_price - next_cheapest) * quantity) ]
        else []
    | _ => []
    end
  else [].

Definition _find_substitutions (grocery_list : GroceryList)
    : list Substitution.t :=
  fold_left
    (fun substitutions '(item_name, quantity) =>
       substitutions ++ substitutions_for item_name quantity)
    grocery_list [].

Definition optimize_grocery_list (grocery_list : GroceryList)
    (user_preferences : UserPreferences.t) (single_store_mode : bool)
    : GroceryPlan.t :=
  let substitutions := _find_substitutions grocery_list in
  if single_store_mode then
    let best_store := _find_best_single_store grocery_list in
    let '(store_items, total_cost) :=
      _calculate_store_items grocery_list (Store.id best_store) in
    GroceryPlan.mk single_store_mode (Some best_store)
      (UsedStores [best_store]) total_cost
      [(Store.id best_store, store_items)]
      (_group_by_section store_items) substitutions 0
  else
    let '(items_by_store, total_cost) := _optimize_multi_store grocery_list in
    GroceryPlan.mk single_store_mode None
      (UsedStoreIds (map fst items_by_store)) total_cost
      items_by_store [] substitutions 0.

End WithDatabase.

End GroceryOptimizerService.

(** ** The linear solver interface (ortools [pywraplp])

    The solver is an external library.  The embedding keeps the model the
    program builds (integer variables with bounds, linear constraints, a
    linear objective) and takes [Solve] as an interface: a status together
    with the [solution_value] of every variable. *)

Module pywraplp.

Inductive ResultStatus :=
| OPTIMAL | FEASIBLE | INFEASIBLE | UNBOUNDED | ABNORMAL | MODEL_INVALID
| NOT_SOLVED.

(** [solver.IntVar(lb, ub, name)] *)
Record IntVar := mkIntVar {
  var_lb : Q;
  var_ub : Q;
  var_name : string
}.

(** A linear expression: terms [coefficient * x[index]]. *)
Definition LinearExpr := list (nat * Q).

Inductive Sense := GE | LE.

(** [expr >= bound] or [expr <= bound] *)
Record Constraint := mkConstraint {
  expr : LinearExpr;
  sense : Sense;
  bound : Q
}.

Record Model := mkModel {
  variables : list IntVar;
  constraints : list Constraint;
  objective : LinearExpr;
  minimization : bool
}.

(** [solver.Add(c)] *)
Definition Add (c : Constraint) (m : Model) : Model :=
  mkModel (variables m) (constraints m ++ [c]) (objective m) (minimization m).

Definition NumConstraints (m : Model) : nat := length (constraints m).

(** [x[i].solution_value()] in an assignment of values to the variables. *)
Definition solution_value (solution : list Q) (i : nat) : Q :=
  nth i solution 0.

Fixpoint eval (e : LinearExpr) (solution : list Q) : Q :=
  match e with
  | [] => 0
  | (i, c) :: e' => solution_value solution i * c + eval e' solution
  end.

Definition holds (c : Constraint) (solution : list Q) : Prop :=
  match sense c with
  | GE => bound c <= eval (expr c) solution
  | LE => eval (expr c) solution <= bound c
  end.

Definition holdsb (c : Constraint) (solution : list Q) : bool :=
  match sense c with
  | GE => Qle_bool (bound c) (eval (expr c) solution)
  | LE => Qle_bool (eval (expr c) solution) (bound c)
  end.

Definition integral (v : Q) : Prop := exists z : Z, v == inject_Z z.

(** The values of the arithmetic the program does with variables.  Python's
    [sum] starts from the number [0], so over an empty range it is a number;
    as soon as a variable takes part the value is an expression object of
    the library: its terms and a constant. *)
Inductive Operand :=
| Number (v : Q)
| Expression (terms : LinearExpr) (offset : Q).

(** [x[i] * c] *)
Definition term (i : nat) (c : Q) : Operand := Expression [(i, c)] 0.

(** [a + b] *)
Definition add (a b : Operand) : Operand :=
  match a, b with
  | Number v, Number w => Number (v + w)
  | Number v, Expression terms offset => Expression terms (v + offset)
  | Expression terms offset, Number w => Expression terms (offset + w)
  | Expression terms offset, Expression terms' offset' =>
      Expression (terms ++ terms') (offset + offset')
  end.

(** [a - c] and [a * c] for a number [c] *)
Definition sub_number (a : Operand) (c : Q) : Operand := add a (Number (- c)).

Definition mul_number (a : Operand) (c : Q) : Operand :=
  match a with
  | Number v => Number (v * c)
  | Expression terms offset =>
      Expression (map (fun '(i, k) => (i, k * c)) terms) (offset * c)
  end.

(** [sum(terms)] *)
Definition sum_operands (terms : list Operand) : Operand :=
  fold_left add terms (Number 0).

(** [abs(a)]: the built-in is defined on numbers; the expression classes of
    the library have no [__abs__], and Python raises [TypeError].  The
    message names the class of the operand, [SumArray] for a sum or a
    difference in the current releases of the library. *)
Definition bad_operand : Exception :=
  TypeError "bad operand type for abs(): 'SumArray'".

Definition abs (a : Operand) : Outcome Operand :=
  match a with
  | Number v => Returned (Number (Qabs v))
  | Expression _ _ => Raised bad_operand
  end.

(** The assignments the model allows: one integral value per variable,
    within its bounds, satisfying every constraint. *)
Definition feasible (m : Model) (solution : list Q) : Prop :=
  Forall2 (fun x v => integral v /\ var_lb x <= v <= var_ub x)
    (variables m) solution
  /\ Forall (fun c => holds c solution) (constraints m).

Definition solved (status : ResultStatus) : bool :=
  match status with
  | OPTIMAL | FEASIBLE => true
  | _ => false
  end.

(** The solver interface. *)
Class Solver := Solve : Model -> ResultStatus * list Q.

(** What the program relies on: a reported solution is an assignment the
    model allows, and a model that allows an assignment is not reported
    unsolved.  (An exact solver; tolerances and time limits of the real
    one are outside the embedding.) *)
Class ExactSolver (backend : Solver) : Prop := {
  Solve_sound : forall m,
    solved (fst (Solve m)) = true -> feasible m (snd (Solve m));
  Solve_complete : forall m solution,
    feasible m solution -> solved (fst (Solve m)) = true
}.

End pywraplp.

(** ** Effects: solver calls, printed lines, raised exceptions *)

Inductive Event :=
| Solved (m : pywraplp.Model)
| Printed (line : string).

Definition Run (A : Type) : Type := list Event * Outcome A.

Definition ret {A} (a : A) : Run A := ([], Returned a).

Definition raise {A} (e : Exception) : Run A := ([], Raised e).

(** A call with no event of its own. *)
Definition call {A} (o : Outcome A) : Run A := ([], o).

Definition emit (ev : Event) : Run unit := ([ev], Returned tt).

Definition bind {A B} (k : A -> Run B) (c : Run A) : Run B :=
  match c with
  | (evs, Returned a) => let '(evs', r) := k a in (evs ++ evs', r)
  | (evs, Raised e) => (evs, Raised e)
  end.

#[export] Instance Run_ret : MRet Run := @ret.
#[export] Instance Run_bind : MBind Run := @bind.

Definition events {A} (c : Run A) : list Event := fst c.
Definition outcome {A} (c : Run A) : Outcome A := snd c.

(** ** services/optimization_service.py *)

Module OptimizationService.

Import Py pywraplp.

(** How many times the solver was invoked during a run. *)
Definition solve_count (evs : list Event) : nat :=
  length
    (List.filter (fun ev => match ev with Solved _ => true | _ => false end) evs).

(** [sum(x[i] * coeff(recipes[i]) for i in range(num_recipes))] *)
Definition weighted_sum (recipes : list Recipe.t) (coeff : Recipe.t -> Q)
    : LinearExpr :=
  imap (fun i recipe => (i, coeff recipe)) recipes.

(** [target * days if target else 0] *)
Definition weekly_target (target : option Z) (days : Z) : Z :=
  match target with
  | Some t => if (t =? 0)%Z then 0%Z else (t * days)%Z
  | None => 0%Z
  end.

(** One block of the nutritional constraints: the two bounds of a macro
    whose weekly target is positive. *)
Definition nutrition_band (recipes : list Recipe.t) (macro : Recipe.t -> Q)
    (weekly : Z) (m : Model) : Model :=
  if (0 <? weekly)%Z then
    Add (mkConstraint (weighted_sum recipes macro) LE (inject_Z weekly * 1.2))
      (Add (mkConstraint (weighted_sum recipes macro) GE (inject_Z weekly * 0.8)) m)
  else m.

(** The four weekly targets, in the order protein, carbohydrates, fat,
    calories. *)
Definition weekly_targets (user_preferences : UserPreferences.t) (days : Z)
    : Z * Z * Z * Z :=
  (weekly_target (UserPreferences.target_protein_g user_preferences) days,
   weekly_target (UserPreferences.target_carbs_g user_preferences) days,
   weekly_target (UserPreferences.target_fat_g user_preferences) days,
   weekly_target (UserPreferences.target_calories user_preferences) days).

(** Lines 29 to 93: the variables and the constraints handed to the solver;
    the solver is taken to have been created. *)
Definition add_constraints (recipes : list Recipe.t)
    (user_preferences : UserPreferences.t) (days : Z) : Model :=
  let num_recipes := length recipes in
  let x := map (fun i : nat => mkIntVar 0 10 ("x[" +:+ pretty i +:+ "]"))
             (seq 0 num_recipes) in
  let '(weekly_protein_target, weekly_carbs_target, weekly_fat_target,
        weekly_calories_target) := weekly_targets user_preferences days in
  let solver := mkModel x [] [] false in
  (* 1. Nutritional constraints *)
  let solver := nutrition_band recipes Recipe.total_protein_g weekly_protein_target solver in
  let solver := nutrition_band recipes Recipe.total_carbs_g weekly_carbs_target solver in
  let solver := nutrition_band recipes Recipe.total_fat_g weekly_fat_target solver in
  let solver := nutrition_band recipes Recipe.total_calories weekly_calories_target solver in
  (* 2. Budget constraint *)
  let solver :=
    Add (mkConstraint (weighted_sum recipes Recipe.total_cost) LE
           (UserPreferences.weekly_budget user_preferences)) solver in
  (* 3. Variety constraint *)
  let solver :=
    fold_left
      (fun solver i =>
         Add (mkConstraint [(i, 1)] LE
                (inject_Z (UserPreferences.max_repeats_per_week user_preferences)))
           solver)
      (seq 0 num_recipes) solver in
  (* 4. Meal frequency constraint *)
  let min_meals_per_day := 3%Z in
  let min_total_meals := (min_meals_per_day * days)%Z in
  let solver :=
    Add (mkConstraint (weighted_sum recipes (fun _ => 1)) GE
           (inject_Z min_total_meals)) solver in
  (* 5. Cooking time constraint *)
  Add (mkConstraint
         (weighted_sum recipes (fun r => inject_Z (Recipe.cooking_time_min r)))
         LE
         (inject_Z (min_meals_per_day * days
                    * UserPreferences.max_cooking_time_min user_preferences)))
    solver.

(** [sum(x[i] * coeff(recipes[i]) for i in range(num_recipes))] as the value
    Python computes: the number [0] for an empty pool, an expression
    otherwise. *)
Definition actual (recipes : list Recipe.t) (coeff : Recipe.t -> Q) : Operand :=
  sum_operands (imap (fun i recipe => term i (coeff recipe)) recipes).

(** One block of lines 106 to 120: the deviation of a macro whose weekly
    target is positive, [0] otherwise. *)
Definition deviation (recipes : list Recipe.t) (macro : Recipe.t -> Q)
    (weekly : Z) : Outcome Operand :=
  if (0 <? weekly)%Z then
    let actual := actual recipes macro in
    abs (sub_number actual (inject_Z weekly))
  else Returned (Number 0).

(** Lines 98 to 125: the weighted objective expression.  Its value is never
    handed to the solver, but computing it applies [abs] to an expression
    whenever a weekly target is positive and the pool has a recipe. *)
Definition objective_expr (recipes : list Recipe.t)
    (user_preferences : UserPreferences.t) (days : Z) : Outcome Operand :=
  let '(weekly_protein_target, weekly_carbs_target, weekly_fat_target,
        weekly_calories_target) := weekly_targets user_preferences days in
  let cost_component := actual recipes Recipe.total_cost in
  match deviation recipes Recipe.total_protein_g weekly_protein_target with
  | Raised e => Raised e
  | Returned protein_deviation =>
  match deviation recipes Recipe.total_carbs_g weekly_carbs_target with
  | Raised e => Raised e
  | Returned carbs_deviation =>
  match deviation recipes Recipe.total_fat_g weekly_fat_target with
  | Raised e => Raised e
  | Returned fat_deviation =>
  match deviation recipes Recipe.total_calories weekly_calories_target with
  | Raised e => Raised e
  | Returned calories_deviation =>
      let nutrition_penalty :=
        mul_number
          (add (add (add protein_deviation carbs_deviation) fat_deviation)
             calories_deviation) 0.1 in
      Returned (add cost_component nutrition_penalty)
  end end end end.

(** Lines 129 to 132: the objective handed to the solver, the cost alone. *)
Definition set_objective (recipes : list Recipe.t) (solver : Model) : Model :=
  mkModel (variables solver) (constraints solver)
    (weighted_sum recipes Recipe.total_cost) true.

(** The model [solver.Solve()] is called on, when the call is reached. *)
Definition build_model (recipes : list Recipe.t)
    (user_preferences : UserPreferences.t) (days : Z) : Model :=
  set_objective recipes (add_constraints recipes user_preferences days).

(** The loop collecting the result: the recipes with a positive solution
    value, each with [int(servings)]. *)
Fixpoint collect (recipes : list Recipe.t) (i : nat) (solution : list Q)
    : list (Recipe.t * Z) :=
  match recipes with
  | [] => []
  | recipe :: rest =>
      let servings := solution_value solution i in
      (if Qltb 0 servings then [(recipe, int servings)] else [])
        ++ collect rest (S i) solution
  end.

Section WithSolver.
Context {backend : Solver}.

(** [status = solver.Solve()] *)
Definition solve (m : Model) : Run (ResultStatus * list Q) :=
  _ ← emit (Solved m); mret (Solve m).

Definition _relax_and_solve (solver : Model) (recipes : list Recipe.t)
    (user_preferences : UserPreferences.t) (days : Z)
    : Run (list (Recipe.t * Z)) :=
  let original_constraints := NumConstraints solver in
  _ ← emit (Printed "Could not find solution with current constraints. Consider relaxing some requirements.");
  mret [].

Definition optimize_meal_plan (recipes : list Recipe.t)
    (user_preferences : UserPreferences.t) (days : Z)
    : Run (list (Recipe.t * Z)) :=
  let solver := add_constraints recipes user_preferences days in
  objective_expr ← call (objective_expr recipes user_preferences days);
  let solver := set_objective recipes solver in
  '(status, solution) ← solve solver;
  match status with
  | OPTIMAL | FEASIBLE => mret (collect recipes 0 solution)
  | _ => _relax_and_solve solver recipes user_preferences days
  end.

End WithSolver.

Definition ingredient_key (ingredient : Ingredient.t) : string :=
  Ingredient.name ingredient +:+ " (" +:+ Ingredient.unit ingredient +:+ ")".

(** The body of the inner loop of [calculate_grocery_list]: one ingredient
    of a recipe taken [servings] times is added to the basket. *)
Definition add_ingredient (servings : Z) (grocery_list : list (string * Q))
    (ingredient : Ingredient.t) : list (string * Q) :=
  let ingredient_key := ingredient_key ingredient in
  let total_amount := Ingredient.amount ingredient * inject_Z servings in
  match dict_get grocery_list ingredient_key with
  | Some current => dict_set grocery_list ingredient_key (current + total_amount)
  | None => dict_set grocery_list ingredient_key total_amount
  end.

Definition calculate_grocery_list (meal_plan : list (Recipe.t * Z))
    : list (string * Q) :=
  fold_left
    (fun grocery_list '(recipe, servings) =>
       fold_left (add_ingredient servings) (Recipe.ingredients recipe)
         grocery_list)
    meal_plan [].

End OptimizationService.

(** ** services/recipe_service.py: [filter_recipes], [get_recipe_by_id] *)

Module RecipeService.

Import ingredient_utils.

(** [req.issubset(have)] and [a.intersection(b)] being empty, on lists read
    as sets of strings. *)
Definition issubset (req have : list string) : bool :=
  forallb (fun s => str_in s have) req.

Definition disjoint (a b : list string) : bool :=
  forallb (fun s => negb (str_in s b)) a.

(** [filter_recipes] as [generate_meal_plan] calls it, with its four
    keyword filters; [_recipes] is the loaded recipe table. *)
Definition filter_recipes (_recipes : list Recipe.t)
    (dietary_restrictions : list DietaryRestriction) (allergens : list string)
    (max_cooking_time : Z) (cuisine_types : list string) : list Recipe.t :=
  let filtered_recipes := _recipes in
  let filtered_recipes :=
    match dietary_restrictions with
    | [] => filtered_recipes
    | _ =>
        List.filter
          (fun r =>
             issubset (map DietaryRestriction_value dietary_restrictions)
               (Recipe.dietary_restrictions r))
          filtered_recipes
    end in
  let filtered_recipes :=
    match allergens with
    | [] => filtered_recipes
    | _ =>
        List.filter (fun r => disjoint allergens (Recipe.allergens r))
          filtered_recipes
    end in
  let filtered_recipes :=
    List.filter (fun r => (Recipe.cooking_time_min r <=? max_cooking_time)%Z)
      filtered_recipes in
  match cuisine_types with
  | [] => filtered_recipes
  | _ =>
      List.filter (fun r => str_in (Recipe.cuisine_type r) cuisine_types)
        filtered_recipes
  end.

Definition get_recipe_by_id (_recipes : list Recipe.t) (recipe_id : string)
    : option Recipe.t :=
  List.find (fun recipe => String.eqb (Recipe.id recipe) recipe_id) _recipes.

End RecipeService.

(** ** services/recipe_generator_service.py: validation of a generated recipe *)

(** One entry of [data/ingredients.json], with the fields the generator
    reads. *)
Module IngredientInfo.
Record t := mk {
  name : string;
  avg_cost_per_unit : Q;
  calories_per_100g : Q;
  protein_per_100g : Q;
  carbs_per_100g : Q;
  fat_per_100g : Q
}.
End IngredientInfo.

(** One entry of the ["ingredients"] list of the parsed answer. *)
Module IngredientData.
Record t := mk {
  name : string;
  amount : Q;
  unit : string
}.
End IngredientData.

(** The parsed answer, a JSON object: every key the code reads with
    [.get(key, default)] is present or absent. *)
Module RecipeData.
Record t := mk {
  name : option string;
  description : option string;
  ingredients : option (list IngredientData.t);
  steps : option (list string);
  cooking_time_min : option Z;
  difficulty_level : option string;
  cuisine_type : option string;
  dietary_restrictions : option (list string);
  allergens : option (list string)
}.
End RecipeData.

Module RecipeGeneratorService.

Import Py ingredient_utils.

Section WithData.
(** The list read from [data/ingredients.json] (the file is taken to be
    readable and the same at every read) and the identifier drawn by
    [_generate_recipe_id]. *)
Variable ingredients_db : list IngredientInfo.t.
Variable recipe_id : string.

Definition _get_ingredient_from_db (ingredient_name : string)
    : IngredientInfo.t :=
  match
    List.find
      (fun ing =>
         String.eqb (normalize_ingredient_name (IngredientInfo.name ing))
           (normalize_ingredient_name ingredient_name))
      ingredients_db
  with
  | Some ing => ing
  | None => IngredientInfo.mk ingredient_name 0.1 100 5 10 5
  end.

(** The loop over the ingredients of the answer. *)
Fixpoint validate_ingredients (ingredients : list IngredientData.t)
    (validated_ingredients : list Ingredient.t) : Run (list Ingredient.t) :=
  match ingredients with
  | [] => mret validated_ingredients
  | ing_data :: rest =>
      let ingredient_name :=
        normalize_ingredient_name (IngredientData.name ing_data) in
      if is_valid_ingredient ingredient_name then
        let standard_ing := _get_ingredient_from_db ingredient_name in
        let '(amount, unit) :=
          standardize_units ingredient_name (IngredientData.amount ing_data)
            (IngredientData.unit ing_data) in
        validate_ingredients rest
          (validated_ingredients
           ++ [Ingredient.mk ingredient_name amount unit
                 (IngredientInfo.avg_cost_per_unit standard_ing)
                 (IngredientInfo.calories_per_100g standard_ing / 100)
                 (IngredientInfo.protein_per_100g standard_ing / 100)
                 (IngredientInfo.carbs_per_100g standard_ing / 100)
                 (IngredientInfo.fat_per_100g standard_ing / 100)])
      else
        _ ← emit (Printed ("Warning: Ingredient '" +:+ ingredient_name
                           +:+ "' not found in database. Skipping."));
        validate_ingredients rest validated_ingredients
  end.

(** [sum(per_unit(ing) * ing.amount for ing in ingredients)] *)
Definition total_of (per_unit : Ingredient.t -> Q)
    (ingredients : list Ingredient.t) : Q :=
  sum (map (fun ing => per_unit ing * Ingredient.amount ing) ingredients).

(** [recipe_data] is [None] for the empty object [{}]. *)
Definition _validate_and_correct_recipe (recipe_data : option RecipeData.t)
    : Run (option Recipe.t) :=
  match recipe_data with
  | None => mret None
  | Some recipe_data =>
      validated_ingredients ←
        validate_ingredients (default [] (RecipeData.ingredients recipe_data)) [];
      let total_calories := total_of Ingredient.calories_per_unit validated_ingredients in
      let total_protein := total_of Ingredient.protein_per_unit validated_ingredients in
      let total_carbs := total_of Ingredient.carbs_per_unit validated_ingredients in
      let total_fat := total_of Ingredient.fat_per_unit validated_ingredients in
      let total_cost := total_of Ingredient.cost_per_unit validated_ingredients in
      mret
        (Some
           (Recipe.mk recipe_id
              (default "Unnamed Recipe" (RecipeData.name recipe_data))
              (default "" (RecipeData.description recipe_data))
              validated_ingredients
              (default [] (RecipeData.steps recipe_data))
              (default 30%Z (RecipeData.cooking_time_min recipe_data))
              (default "intermediate" (RecipeData.difficulty_level recipe_data))
              (default "various" (RecipeData.cuisine_type recipe_data))
              (default [] (RecipeData.dietary_restrictions recipe_data))
              (default [] (RecipeData.allergens recipe_data))
              total_calories total_protein total_carbs total_fat total_cost))
  end.

Definition _create_mock_recipe (dish_name : string)
    (dietary_restrictions allergens : list string) (cuisine_type : string)
    (cooking_time : Z) : Recipe.t :=
  let ingredients :=
    [ Ingredient.mk "Salt" 5 "g" 0.01 0 0 0 0;
      Ingredient.mk "Pepper" 2 "g" 0.05 2.5 0.1 0.6 0.04 ] in
  let total_calories := total_of Ingredient.calories_per_unit ingredients in
  let total_protein := total_of Ingredient.protein_per_unit ingredients in
  let total_carbs := total_of Ingredient.carbs_per_unit ingredients in
  let total_fat := total_of Ingredient.fat_per_unit ingredients in
  let total_cost := total_of Ingredient.cost_per_unit ingredients in
  Recipe.mk recipe_id dish_name
    ("A delicious " +:+ cuisine_type +:+ " " +:+ dish_name)
    ingredients
    ["Follow standard preparation for this dish."]
    (Z.min cooking_time 60) "beginner"
    (if String.eqb cuisine_type "" then "various" else cuisine_type)
    dietary_restrictions allergens
    total_calories total_protein total_carbs total_fat total_cost.

End WithData.

End RecipeGeneratorService.

(** ** services/meal_planner_service.py *)

(** The pydantic model [MealPlan]; a date is a number of days counted from
    today. *)
Module MealPlan.
Record t := mk {
  week_start_date : Z;
  daily_meals : list DailyMeals.t;
  total_cost : Q;
  nutritional_summary : list (string * Q);
  grocery_list : list (list (string * Q))
}.

(** What a caller hands over as [grocery_list]: a list of dictionaries, as
    the field is declared, or the dictionary [optimize_grocery_list]
    returns. *)
Inductive GroceryArgument :=
| a_list (l : list (list (string * Q)))
| a_dict (d : GroceryPlan.t).

(** [MealPlan(week_start_date=..., daily_meals=..., total_cost=...,
    nutritional_summary=..., grocery_list=...)]: pydantic validates every
    argument against the declared type of its field.  A dictionary is no
    valid value of a field declared [List[Dict[str, float]]], and the
    constructor raises [ValidationError]; its message, which names the
    model and the field and whose wording depends on the release of
    pydantic, is cut down to these two names. *)
Definition init (week_start_date : Z) (daily_meals : list DailyMeals.t)
    (total_cost : Q) (nutritional_summary : list (string * Q))
    (grocery_list : GroceryArgument) : Outcome t :=
  match grocery_list with
  | a_list l =>
      Returned (mk week_start_date daily_meals total_cost nutritional_summary l)
  | a_dict _ =>
      Raised (ValidationError "1 validation error for MealPlan: grocery_list")
  end.
End MealPlan.

Module MealPlannerService.

Import Py.

Definition days : list string :=
  ["Monday"; "Tuesday"; "Wednesday"; "Thursday"; "Friday"; "Saturday"; "Sunday"].

Definition meal_types : list string := ["breakfast"; "lunch"; "dinner"].

(** The number of ingredients of the recipe whose name is already a key of
    the usage tracker. *)
Definition reuse_bonus (recipe : Recipe.t)
    (ingredient_usage_tracker : gmap string Z) : Z :=
  fold_left
    (fun reuse_bonus ingredient =>
       match ingredient_usage_tracker !! Ingredient.name ingredient with
       | Some _ => (reuse_bonus + 1)%Z
       | None => reuse_bonus
       end)
    (Recipe.ingredients recipe) 0%Z.

Definition _score_recipe_for_assignment (recipe : Recipe.t)
    (ingredient_usage_tracker : gmap string Z)
    (user_preferences : UserPreferences.t) : Z :=
  let reuse_bonus := reuse_bonus recipe ingredient_usage_tracker in
  let variety_penalty := 0%Z in
  let macro_alignment := 0%Z in
  (reuse_bonus * 10 - variety_penalty * 5 + macro_alignment * 2)%Z.

(** The three pieces of state the scheduling loops update. *)
Record State := mkState {
  recipe_assignments : list Recipe.t;
  assigned_recipes : list (option Recipe.t);
  ingredient_usage_tracker : gmap string Z
}.

(** One entry per serving, recipe after recipe. *)
Definition expand (optimized_plan : list (Recipe.t * Z)) : list Recipe.t :=
  fold_left
    (fun recipe_assignments '(recipe, servings) =>
       recipe_assignments ++ replicate (Z.to_nat servings) recipe)
    optimized_plan [].

(** [scored_recipes.sort(key=lambda x: x[0], reverse=True)]: a stable sort
    in descending score order; entries of equal score keep their order.
    Insertion of [x] in front of a descending list places it before the
    first entry whose score is not higher. *)
Definition Scored : Type := Z * nat * Recipe.t.

Definition score_of (x : Scored) : Z := fst (fst x).

Fixpoint insert_by_score (x : Scored) (l : list Scored) : list Scored :=
  match l with
  | [] => [x]
  | y :: l' =>
      if (score_of y <=? score_of x)%Z then x :: y :: l'
      else y :: insert_by_score x l'
  end.

Definition sort_by_score (l : list Scored) : list Scored :=
  foldr insert_by_score [] l.

(** The update of the usage tracker for the recipe placed in a slot. *)
Definition track (ingredients : list Ingredient.t) (tracker : gmap string Z)
    : gmap string Z :=
  fold_left
    (fun tracker ingredient =>
       let ing_name := Ingredient.name ingredient in
       match tracker !! ing_name with
       | Some n => <[ing_name := (n + 1)%Z]> tracker
       | None => <[ing_name := 1%Z]> tracker
       end)
    ingredients tracker.

(** The body of the inner loop, for the slot [meal_pos]. *)
Definition assign_slot (user_preferences : UserPreferences.t) (st : State)
    (meal_pos : nat) : State :=
  match recipe_assignments st with
  | [] => st
  | _ =>
      let scored_recipes :=
        imap
          (fun i recipe =>
             (_score_recipe_for_assignment recipe
                (ingredient_usage_tracker st) user_preferences, i, recipe))
          (recipe_assignments st) in
      match sort_by_score scored_recipes with
      | (_, recipe_idx, selected_recipe) :: _ =>
          mkState
            (delete recipe_idx (recipe_assignments st))
            (<[meal_pos := Some selected_recipe]> (assigned_recipes st))
            (track (Recipe.ingredients selected_recipe)
               (ingredient_usage_tracker st))
      | [] => st
      end
  end.

(** The two nested loops over days and meal positions. *)
Definition assign_day (user_preferences : UserPreferences.t) (st : State)
    (day_idx : nat) : State :=
  let day_start_idx := (day_idx * 3)%nat in
  fold_left (assign_slot user_preferences) (seq day_start_idx 3) st.

Definition schedule (optimized_plan : list (Recipe.t * Z))
    (user_preferences : UserPreferences.t) : State :=
  fold_left (assign_day user_preferences) (seq 0 (length days))
    (mkState (expand optimized_plan)
       (replicate (length days * 3) None) ∅).

(** The meals of one day in the returned format. *)
Definition day_meals (assigned_recipes : list (option Recipe.t))
    (day_idx : nat) (day : string) : list Meal.t :=
  let day_start_idx := (day_idx * 3)%nat in
  concat
    (imap
       (fun meal_pos_offset meal_type =>
          let meal_idx := (day_start_idx + meal_pos_offset)%nat in
          match assigned_recipes !! meal_idx with
          | Some (Some recipe) => [Meal.mk day meal_type recipe]
          | _ => []
          end)
       meal_types).

(** The loop converting the assigned slots to the returned format;
    [today_weekday] is [date.today().weekday()], Monday being 0. *)
Definition to_daily_meals (today_weekday : Z)
    (assigned_recipes : list (option Recipe.t)) : list DailyMeals.t :=
  imap
    (fun day_idx day =>
       DailyMeals.mk
         (Z.of_nat day_idx + (7 - today_weekday) mod 7)%Z
         (day_meals assigned_recipes day_idx day))
    days.

Definition _create_daily_meals (today_weekday : Z)
    (optimized_plan : list (Recipe.t * Z))
    (user_preferences : UserPreferences.t) : list DailyMeals.t :=
  to_daily_meals today_weekday
    (assigned_recipes (schedule optimized_plan user_preferences)).

Definition _calculate_nutritional_summary
    (optimized_plan : list (Recipe.t * Z)) : list (string * Q) :=
  let '(total_protein, total_carbs, total_fat, total_calories) :=
    fold_left
      (fun '(total_protein, total_carbs, total_fat, total_calories)
           '(recipe, servings) =>
         (total_protein + Recipe.total_protein_g recipe * inject_Z servings,
          total_carbs + Recipe.total_carbs_g recipe * inject_Z servings,
          total_fat + Recipe.total_fat_g recipe * inject_Z servings,
          total_calories + Recipe.total_calories recipe * inject_Z servings))
      optimized_plan (0, 0, 0, 0) in
  [ ("total_protein_g", total_protein);
    ("total_carbs_g", total_carbs);
    ("total_fat_g", total_fat);
    ("total_calories", total_calories) ].

(** Lines 66 to 71: the upcoming Monday, in days counted from today;
    [today_weekday] is [date.today().weekday()]. *)
Definition week_start_date (today_weekday : Z) : Z :=
  let days_until_monday := ((7 - today_weekday) mod 7)%Z in
  let days_until_monday :=
    if (days_until_monday =? 0)%Z then 7%Z else days_until_monday in
  days_until_monday.

Section WithServices.
Context {backend : pywraplp.Solver}.
(** [recipe_service._recipes] and [grocery_optimizer._price_database] *)
Variable recipes_table : list Recipe.t.
Variable price_database : PriceDatabase.t.

Definition generate_meal_plan (today_weekday : Z)
    (user_preferences : UserPreferences.t) : Run MealPlan.t :=
  let filtered_recipes :=
    RecipeService.filter_recipes recipes_table
      (UserPreferences.dietary_restrictions user_preferences)
      (UserPreferences.allergies user_preferences)
      (UserPreferences.max_cooking_time_min user_preferences)
      (UserPreferences.preferred_cuisines user_preferences) in
  match filtered_recipes with
  | [] => raise (ValueError "No recipes match your preferences and constraints")
  | _ =>
      optimized_plan ←
        OptimizationService.optimize_meal_plan filtered_recipes
          user_preferences 7;
      match optimized_plan with
      | [] =>
          raise (ValueError "Could not generate a meal plan within your constraints")
      | _ =>
          let daily_meals :=
            _create_daily_meals today_weekday optimized_plan user_preferences in
          let grocery_list :=
            OptimizationService.calculate_grocery_list optimized_plan in
          let total_cost :=
            sum (map (fun e => Recipe.total_cost e.1 * inject_Z e.2)
                   optimized_plan) in
          let nutritional_summary :=
            _calculate_nutritional_summary optimized_plan in
          let optimized_grocery :=
            GroceryOptimizerService.optimize_grocery_list price_database
              grocery_list user_preferences true in
          let week_start_date := week_start_date today_weekday in
          call
            (MealPlan.init week_start_date daily_meals
               (GroceryPlan.total_cost optimized_grocery)
               nutritional_summary (MealPlan.a_dict optimized_grocery))
      end
  end.

End WithServices.

End MealPlannerService.

(** ** A reference solver

    An exhaustive search over the integer points of the variables' bounds:
    an executable instance of the solver interface, exact by construction. *)

Module ReferenceSolver.

Import Py pywraplp.

(** The integers between the bounds of a variable. *)
Definition domain (x : IntVar) : list Q :=
  let lo := Qceiling (var_lb x) in
  let hi := Qfloor (var_ub x) in
  map (fun k : nat => inject_Z (lo + Z.of_nat k))
    (seq 0 (Z.to_nat (hi - lo + 1))).

Fixpoint assignments (xs : list IntVar) : list (list Q) :=
  match xs with
  | [] => [[]]
  | x :: xs' =>
      v ← domain x; rest ← assignments xs'; [v :: rest]
  end.

Definition satisfies_all (m : Model) (solution : list Q) : bool :=
  forallb (fun c => holdsb c solution) (constraints m).

(** [a] improves on [b] for the objective of [m]. *)
Definition improves (m : Model) (a b : list Q) : bool :=
  if minimization m
  then Qltb (eval (objective m) a) (eval (objective m) b)
  else Qltb (eval (objective m) b) (eval (objective m) a).

Definition exhaustive : Solver := fun m =>
  match List.filter (satisfies_all m) (assignments (variables m)) with
  | [] => (INFEASIBLE, [])
  | first :: others =>
      (OPTIMAL,
       fold_left (fun best a => if improves m a best then a else best)
         others first)
  end.

End ReferenceSolver.

(** ** Sample data *)

Module Samples.

(** The two recipes written by [_create_default_recipes]. *)
Definition vegetable_stir_fry : Recipe.t :=
  Recipe.mk "1" "Vegetable Stir Fry" "Quick and healthy vegetable stir fry"
    [ Ingredient.mk "Broccoli" 200 "g" 0.01 0.34 0.028 0.066 0.004;
      Ingredient.mk "Bell Pepper" 150 "g" 0.02 0.31 0.009 0.06 0.003;
      Ingredient.mk "Soy Sauce" 30 "ml" 0.05 1.02 0.082 0.05 0.001 ]
    [ "Chop vegetables"; "Heat oil in pan";
      "Add vegetables and stir fry for 5 minutes";
      "Add soy sauce and cook for another 2 minutes" ]
    15 "beginner" "Asian" ["vegetarian"; "vegan"] []
    320 15 35 5 4.50.

Definition grilled_chicken_salad : Recipe.t :=
  Recipe.mk "2" "Grilled Chicken Salad" "Fresh salad with grilled chicken"
    [ Ingredient.mk "Chicken Breast" 150 "g" 0.12 1.65 0.31 0 0.036;
      Ingredient.mk "Lettuce" 100 "g" 0.03 0.05 0.014 0.029 0.002;
      Ingredient.mk "Tomato" 120 "g" 0.04 0.18 0.009 0.039 0.002 ]
    [ "Season chicken breast and grill for 6-7 minutes each side";
      "Chop lettuce and tomatoes"; "Combine ingredients in a bowl";
      "Add dressing of choice" ]
    20 "beginner" "American" ["gluten_free"] []
    420 45 12 15 7.20.

(** A third recipe, so that 21 servings fit under the cap of 10 per recipe. *)
Definition rice_bowl : Recipe.t :=
  Recipe.mk "3" "Rice Bowl" "Rice with broccoli"
    [ Ingredient.mk "Rice" 1 "kg" 1.8 1300 27 280 3;
      Ingredient.mk "Broccoli" 100 "g" 0.01 0.34 0.028 0.066 0.004 ]
    [ "Cook rice"; "Steam broccoli" ]
    25 "beginner" "Asian" ["vegetarian"; "vegan"] []
    380 9 80 2 3.00.

Definition pool : list Recipe.t :=
  [vegetable_stir_fry; grilled_chicken_salad; rice_bowl].

(** Two recipes for the scoring examples: the first lists salt three times
    (for the dough, the filling and the crust), the second lists salt and
    rice once each. *)
Definition salt_crust_pie : Recipe.t :=
  Recipe.mk "4" "Salt Crust Pie" "Pie baked in a salt crust"
    [ Ingredient.mk "Salt" 5 "g" 0.001 0 0 0 0;
      Ingredient.mk "Salt" 2 "g" 0.001 0 0 0 0;
      Ingredient.mk "Salt" 300 "g" 0.001 0 0 0 0 ]
    [ "Make the dough"; "Season the filling"; "Bake in the crust" ]
    50 "intermediate" "French" ["vegetarian"] []
    450 8 60 12 3.20.

Definition salted_rice : Recipe.t :=
  Recipe.mk "5" "Salted Rice" "Plain rice"
    [ Ingredient.mk "Salt" 2 "g" 0.001 0 0 0 0;
      Ingredient.mk "Rice" 1 "kg" 1.8 1300 27 280 3 ]
    [ "Cook rice with salt" ]
    20 "beginner" "Asian" ["vegetarian"; "vegan"] []
    360 7 78 1 1.90.

(** Preferences with a weekly budget, no nutrition target, and at most
    [repeats] servings of a recipe. *)
Definition preferences (budget : Q) (repeats : Z) : UserPreferences.t :=
  UserPreferences.mk [] [] [] None None None None [] INTERMEDIATE 60
    budget repeats.

(** The same with a daily calorie target. *)
Definition preferences_calories (budget : Q) (repeats calories : Z)
    : UserPreferences.t :=
  UserPreferences.mk [] [] [] None None None (Some calories) [] INTERMEDIATE 60
    budget repeats.

End Samples.

(** ** Vocabulary of the statements *)

(** Ascending order of price entries. *)
Definition price_le (a b : PriceEntry.t) : Prop :=
  PriceEntry.price_per_unit a <= PriceEntry.price_per_unit b.


(** The line items of a per-store dictionary, and the sum of line totals. *)
Definition line_items (items_by_store : list (string * list Item.t))
    : list Item.t :=
  concat (map snd items_by_store).

Definition line_total (items : list Item.t) : Q :=
  Py.sum (map Item.total_price items).


(** Two catalogues over one store: the first has no price for saffron, the
    second sells it at 0.10 per gram in a section named ["unknown"]. *)
Definition catalogue_without_saffron : PriceDatabase.t :=
  PriceDatabase.mk [Store.mk "store_1" "FreshMart" "Downtown"] [].

Definition catalogue_with_saffron : PriceDatabase.t :=
  PriceDatabase.mk [Store.mk "store_1" "FreshMart" "Downtown"]
    [PriceEntry.mk "Saffron" "store_1" "g" 0.10 "unknown"].

(** The catalogue of scenario A: three stores and the three chicken prices. *)
Definition chicken_catalogue : PriceDatabase.t :=
  PriceDatabase.mk
    [ Store.mk "store_1" "FreshMart" "Downtown";
      Store.mk "store_2" "ValueGrocer" "Uptown";
      Store.mk "store_3" "Organic Plus" "Midtown" ]
    [ PriceEntry.mk "Chicken Breast" "store_1" "g" 0.11 "meat";
      PriceEntry.mk "Chicken Breast" "store_2" "g" 0.13 "meat";
      PriceEntry.mk "Chicken Breast" "store_3" "g" 0.15 "meat" ].

Definition chicken_basket : GroceryOptimizerService.GroceryList :=
  [("chicken breast (g)"%string, 300)].

(** The name a store id is reported under: the name of the first store of
    the catalogue with this id, ["Unknown Store"] when it lists none. *)
Definition store_named (stores : list Store.t) (store_id name : string)
    : Prop :=
  (exists before store after,
     stores = before ++ store :: after
     /\ Store.id store = store_id
     /\ Forall (fun s => Store.id s <> store_id) before
     /\ name = Store.name store)
  \/ (Forall (fun s => Store.id s <> store_id) stores
      /\ name = "Unknown Store"%string).

(** A catalogue in which two stores pay for returned crates: 10 a crate at
    the first store, 9.5 at the second, entered as negative prices. *)
Definition crate_catalogue : PriceDatabase.t :=
  PriceDatabase.mk
    [ Store.mk "store_1" "FreshMart" "Downtown";
      Store.mk "store_2" "ValueGrocer" "Uptown" ]
    [ PriceEntry.mk "Crate" "store_1" "piece" (-10 # 1) "returns";
      PriceEntry.mk "Crate" "store_2" "piece" (-19 # 2) "returns" ].

Definition crate_basket : GroceryOptimizerService.GroceryList :=
  [("Crate (piece)"%string, 2)].


(** *** The scheduler as the specification words it

    A slot is filled by the occurrence of maximal score, the earliest one
    among equals; with no occurrence left the slot stays empty. *)

Module SchedulerSpec.

Import MealPlannerService.

(** The number of ingredient entries of a recipe whose name is in the usage
    counter: a name the recipe lists twice counts twice. *)
Definition reused_entries (recipe : Recipe.t) (tracker : gmap string Z) : nat :=
  length
    (List.filter
       (fun ingredient =>
          bool_decide (is_Some (tracker !! Ingredient.name ingredient)))
       (Recipe.ingredients recipe)).

(** The reuse count of the specification: the number of distinct
    ingredients of a recipe already present in the usage counter. *)
Definition reuse_count (recipe : Recipe.t) (tracker : gmap string Z)
    : nat :=
  size
    (list_to_set
       (List.filter (fun name => bool_decide (is_Some (tracker !! name)))
          (map Ingredient.name (Recipe.ingredients recipe)))
     : gset string).

(** Position [i] holds a maximal score and every earlier score is
    strictly lower. *)
Definition first_max (scores : list Z) (i : nat) : Prop :=
  exists s,
    scores !! i = Some s
    /\ (forall j s', scores !! j = Some s' -> (s' <= s)%Z)
    /\ (forall j s', (j < i)%nat -> scores !! j = Some s' -> (s' < s)%Z).

Definition scores (prefs : UserPreferences.t) (st : State) : list Z :=
  map
    (fun recipe =>
       _score_recipe_for_assignment recipe (ingredient_usage_tracker st) prefs)
    (recipe_assignments st).

Inductive slot_step (prefs : UserPreferences.t)
    : State -> nat -> State -> Prop :=
| slot_left_empty st meal_pos :
    recipe_assignments st = [] ->
    slot_step prefs st meal_pos st
| slot_filled st meal_pos i recipe :
    recipe_assignments st !! i = Some recipe ->
    first_max (scores prefs st) i ->
    slot_step prefs st meal_pos
      (mkState
         (delete i (recipe_assignments st))
         (<[meal_pos := Some recipe]> (assigned_recipes st))
         (track (Recipe.ingredients recipe) (ingredient_usage_tracker st))).

(** A run over a sequence of slots. *)
Inductive run (prefs : UserPreferences.t)
    : State -> list nat -> State -> Prop :=
| run_done st : run prefs st [] st
| run_slot st meal_pos st' slots st'' :
    slot_step prefs st meal_pos st' ->
    run prefs st' slots st'' ->
    run prefs st (meal_pos :: slots) st''.

(** The state before the first slot: every serving of the selection is an
    occurrence, all 21 slots are empty, nothing has been used. *)
Definition initial (optimized_plan : list (Recipe.t * Z)) : State :=
  mkState (expand optimized_plan) (replicate 21 None) ∅.

(** Slot [p] in day-major, meal-type order. *)
Definition slot_day (p : nat) : option string := days !! (p / 3)%nat.
Definition slot_meal_type (p : nat) : option string :=
  meal_types !! (p mod 3)%nat.

(** The recipes of the filled slots, slot after slot. *)
Definition placed (assigned : list (option Recipe.t)) : list Recipe.t :=
  omap id assigned.

(** The recipes named by the returned daily meals, day after day. *)
Definition meals_recipes (daily_meals : list DailyMeals.t) : list Recipe.t :=
  map Meal.recipe (concat (map DailyMeals.meals daily_meals)).

Definition total_servings (optimized_plan : list (Recipe.t * Z)) : nat :=
  sum_list (map (fun e => Z.to_nat e.2) optimized_plan).

(** The invariant of the scheduling loop before slot [k]: the filled
    slots are a prefix holding [placed], the other slots are empty, and
    the placed recipes together with the remaining occurrences are the
    expanded selection. *)
Definition filled_prefix (pool0 : list Recipe.t) (k : nat) (st : State)
    : Prop :=
  exists placed,
    assigned_recipes st
    = (Some <$> placed) ++ replicate (21 - length placed) None
    /\ length placed = (k `min` length pool0)%nat
    /\ placed ++ recipe_assignments st ≡ₚ pool0.

End SchedulerSpec.

(** *** The grocery basket as the specification words it *)

Module BasketSpec.

Import OptimizationService.

(** An ingredient with its amount and unit standardised. *)
Definition normalized_ingredient (ingredient : Ingredient.t) : Ingredient.t :=
  let '(amount, unit) :=
    ingredient_utils.standardize_units (Ingredient.name ingredient)
      (Ingredient.amount ingredient) (Ingredient.unit ingredient) in
  Ingredient.mk (Ingredient.name ingredient) amount unit
    (Ingredient.cost_per_unit ingredient)
    (Ingredient.calories_per_unit ingredient)
    (Ingredient.protein_per_unit ingredient)
    (Ingredient.carbs_per_unit ingredient)
    (Ingredient.fat_per_unit ingredient).

Definition normalized_recipe (recipe : Recipe.t) : Recipe.t :=
  Recipe.mk (Recipe.id recipe) (Recipe.name recipe) (Recipe.description recipe)
    (map normalized_ingredient (Recipe.ingredients recipe))
    (Recipe.steps recipe) (Recipe.cooking_time_min recipe)
    (Recipe.difficulty_level recipe) (Recipe.cuisine_type recipe)
    (Recipe.dietary_restrictions recipe) (Recipe.allergens recipe)
    (Recipe.total_calories recipe) (Recipe.total_protein_g recipe)
    (Recipe.total_carbs_g recipe) (Recipe.total_fat_g recipe)
    (Recipe.total_cost recipe).

(** The basket of the specification: every ingredient amount is brought
    to its canonical unit before the amounts are added up. *)
Definition normalized_grocery_list (meal_plan : list (Recipe.t * Z))
    : list (string * Q) :=
  calculate_grocery_list (map (fun e => (normalized_recipe e.1, e.2)) meal_plan).

(** Already in the unit [standardize_units] gives. *)
Definition standardized (ingredient : Ingredient.t) : Prop :=
  ingredient_utils.standardize_units (Ingredient.name ingredient)
    (Ingredient.amount ingredient) (Ingredient.unit ingredient)
  = (Ingredient.amount ingredient, Ingredient.unit ingredient).

(** The key of the basket for an ingredient name and a unit:
    ["name (unit)"]. *)
Definition key_of (name unit : string) : string :=
  name +:+ " (" +:+ unit +:+ ")".

(** The ingredient falls under [key]: the key is made of its name and its
    unit as the recipe gives them. *)
Definition has_key (key : string) (ingredient : Ingredient.t) : bool :=
  String.eqb (key_of (Ingredient.name ingredient) (Ingredient.unit ingredient))
    key.

(** The amount of [key] one recipe asks for, over [servings] servings. *)
Fixpoint recipe_demand (ingredients : list Ingredient.t) (servings : Z)
    (key : string) : Q :=
  match ingredients with
  | [] => 0
  | ingredient :: rest =>
      (if has_key key ingredient
       then Ingredient.amount ingredient * inject_Z servings else 0)
      + recipe_demand rest servings key
  end.

(** The amount of [key] the whole selection asks for. *)
Fixpoint demand (meal_plan : list (Recipe.t * Z)) (key : string) : Q :=
  match meal_plan with
  | [] => 0
  | (recipe, servings) :: rest =>
      recipe_demand (Recipe.ingredients recipe) servings key + demand rest key
  end.

(** Some ingredient of the selection has this key. *)
Definition occurs (meal_plan : list (Recipe.t * Z)) (key : string) : bool :=
  existsb (fun e => existsb (has_key key) (Recipe.ingredients e.1)) meal_plan.

(** What a key holds: absent, or a quantity known up to [==]. *)
Definition holds_amount (o : option Q) (present : bool) (q : Q) : Prop :=
  match o with
  | Some v => present = true /\ v == q
  | None => present = false
  end.

End BasketSpec.

(** *** The selection as the specification words it *)

Module SelectionSpec.

Import OptimizationService pywraplp.

(** The sum of servings times a per-recipe quantity over a selection. *)
Fixpoint weighted_total (coeff : Recipe.t -> Q)
    (selection : list (Recipe.t * Z)) : Q :=
  match selection with
  | [] => 0
  | (recipe, servings) :: rest =>
      inject_Z servings * coeff recipe + weighted_total coeff rest
  end.

Fixpoint servings_total (selection : list (Recipe.t * Z)) : Z :=
  match selection with
  | [] => 0%Z
  | (_, servings) :: rest => (servings + servings_total rest)%Z
  end.

(** The 20% band around a weekly target. *)
Definition within_band (weekly : Z) (v : Q) : Prop :=
  inject_Z weekly * 0.8 <= v <= inject_Z weekly * 1.2.

(** A macro with a positive weekly target (seven times the daily one) lies
    in its band. *)
Definition macro_in_band (target : option Z) (macro : Recipe.t -> Q)
    (selection : list (Recipe.t * Z)) : Prop :=
  (0 < weekly_target target 7)%Z ->
  within_band (weekly_target target 7) (weighted_total macro selection).

(** A daily target that is set and positive. *)
Definition positive (target : option Z) : bool :=
  match target with
  | Some t => (0 <? t)%Z
  | None => false
  end.

(** The preferences set a nutrition target: the daily target of protein,
    carbohydrates, fat or calories is positive. *)
Definition targeted (prefs : UserPreferences.t) : bool :=
  positive (UserPreferences.target_protein_g prefs)
  || positive (UserPreferences.target_carbs_g prefs)
  || positive (UserPreferences.target_fat_g prefs)
  || positive (UserPreferences.target_calories prefs).

(** A deviation from a target is computed over a pool that has a recipe. *)
Definition deviation_of_expression (recipes : list Recipe.t)
    (prefs : UserPreferences.t) : bool :=
  match recipes with
  | [] => false
  | _ => targeted prefs
  end.

(** The two constraints of a macro. *)
Definition band_constraints (recipes : list Recipe.t) (macro : Recipe.t -> Q)
    (weekly : Z) : list Constraint :=
  if (0 <? weekly)%Z then
    [ mkConstraint (weighted_sum recipes macro) GE (inject_Z weekly * 0.8);
      mkConstraint (weighted_sum recipes macro) LE (inject_Z weekly * 1.2) ]
  else [].

Definition variety_constraint (prefs : UserPreferences.t) (i : nat)
    : Constraint :=
  mkConstraint [(i, 1)] LE (inject_Z (UserPreferences.max_repeats_per_week prefs)).

(** The integer program of the week has no feasible assignment. *)
Definition infeasible_program (recipes : list Recipe.t)
    (prefs : UserPreferences.t) : Prop :=
  forall solution, ~ feasible (build_model recipes prefs 7) solution.

(** A combination of servings of the pool, at most 10 of a recipe and at
    least 21 in all, whose cost the budget covers. *)
Definition affordable (recipes : list Recipe.t) (budget : Q)
    (servings : list Z) : Prop :=
  length servings = length recipes
  /\ Forall (fun s => (0 <= s <= 10)%Z) servings
  /\ (21 <= servings_total (zip recipes servings))%Z
  /\ weighted_total Recipe.total_cost (zip recipes servings) <= budget.

Definition budget_too_low (recipes : list Recipe.t) (prefs : UserPreferences.t)
    : Prop :=
  forall servings,
    ~ affordable recipes (UserPreferences.weekly_budget prefs) servings.

End SelectionSpec.

(** *** The recipe validator in terms of its input *)

Module GeneratorSpec.

Import ingredient_utils.

(** The entry of the answer names a known ingredient. *)
Definition accepted (ing_data : IngredientData.t) : bool :=
  is_valid_ingredient (IngredientData.name ing_data).

(** The ingredient built from an accepted entry: the standard name, the
    standardised amount and unit, the per-unit values of the database. *)
Definition corrected (ingredients_db : list IngredientInfo.t)
    (ing_data : IngredientData.t) : Ingredient.t :=
  let ingredient_name :=
    normalize_ingredient_name (IngredientData.name ing_data) in
  let standard_ing :=
    RecipeGeneratorService._get_ingredient_from_db ingredients_db
      ingredient_name in
  Ingredient.mk ingredient_name
    (standardize_units ingredient_name (IngredientData.amount ing_data)
       (IngredientData.unit ing_data)).1
    (standardize_units ingredient_name (IngredientData.amount ing_data)
       (IngredientData.unit ing_data)).2
    (IngredientInfo.avg_cost_per_unit standard_ing)
    (IngredientInfo.calories_per_100g standard_ing / 100)
    (IngredientInfo.protein_per_100g standard_ing / 100)
    (IngredientInfo.carbs_per_100g standard_ing / 100)
    (IngredientInfo.fat_per_100g standard_ing / 100).

(** The line printed for a rejected entry. *)
Definition warning (ing_data : IngredientData.t) : Event :=
  Printed ("Warning: Ingredient '"
           +:+ normalize_ingredient_name (IngredientData.name ing_data)
           +:+ "' not found in database. Skipping.").

(** The totals of a recipe are the sums over its ingredients of the
    per-unit value times the amount. *)
Definition consistent_totals (recipe : Recipe.t) : Prop :=
  let total per_unit :=
    Py.sum (map (fun ing => per_unit ing * Ingredient.amount ing)
              (Recipe.ingredients recipe)) in
  Recipe.total_calories recipe == total Ingredient.calories_per_unit
  /\ Recipe.total_protein_g recipe == total Ingredient.protein_per_unit
  /\ Recipe.total_carbs_g recipe == total Ingredient.carbs_per_unit
  /\ Recipe.total_fat_g recipe == total Ingredient.fat_per_unit
  /\ Recipe.total_cost recipe == total Ingredient.cost_per_unit.

(** An answer with three ingredients, one of them unknown. *)
Definition sample_answer : RecipeData.t :=
  RecipeData.mk (Some "Chicken and rice") None
    (Some [ IngredientData.mk " Chicken " 0.5 "kg";
            IngredientData.mk "Unicorn Tears" 3 "tbsp";
            IngredientData.mk "White Rice" 2 "cup" ])
    None (Some 25%Z) None None None None.

Definition sample_db : list IngredientInfo.t :=
  [ IngredientInfo.mk "Chicken Breast" 0.012 165 31 0 3.6 ].

End GeneratorSpec.

(** *** The recipe filter as one predicate *)

Module RecipeSpec.

Import ingredient_utils RecipeService.

(** The recipe passes the four filters [generate_meal_plan] applies. *)
Definition meets (dietary_restrictions : list DietaryRestriction)
    (allergens : list string) (max_cooking_time : Z)
    (cuisine_types : list string) (r : Recipe.t) : bool :=
  issubset (map DietaryRestriction_value dietary_restrictions)
    (Recipe.dietary_restrictions r)
  && disjoint allergens (Recipe.allergens r)
  && (Recipe.cooking_time_min r <=? max_cooking_time)%Z
  && match cuisine_types with
     | [] => true
     | _ => str_in (Recipe.cuisine_type r) cuisine_types
     end.

End RecipeSpec.

(** *** Store selection and grouping, as a shopper reads them *)

Module GrocerySpec.

Import GroceryOptimizerService.

(** The store has a price entry for the ingredient of the basket key. *)
Definition stocks (db : PriceDatabase.t) (store_id item_name : string)
    : bool :=
  match
    _find_lowest_price_for_ingredient_in_store db (ingredient_of item_name)
      store_id
  with
  | Some _ => true
  | None => false
  end.

Definition supplies_all (db : PriceDatabase.t) (grocery_list : GroceryList)
    (store_id : string) : bool :=
  forallb (fun e => stocks db store_id e.1) grocery_list.

(** The total the plan reports when the basket is bought at the store. *)
Definition store_cost (db : PriceDatabase.t) (grocery_list : GroceryList)
    (store_id : string) : Q :=
  (_calculate_store_items db grocery_list store_id).2.

(** [best] is the first of the eligible elements of least cost: eligible,
    strictly cheaper than every eligible element before it, and at most as
    expensive as every eligible element after it. *)
Definition first_cheapest {A} (eligible : A -> bool) (cost : A -> Q)
    (l : list A) (best : A) : Prop :=
  exists pre post,
    l = pre ++ best :: post
    /\ eligible best = true
    /\ (forall x, x ∈ pre -> eligible x = true -> cost best < cost x)
    /\ (forall x, x ∈ post -> eligible x = true -> cost best <= cost x).

(** The line item multi-store mode writes for a basket entry: priced at the
    lowest price of the catalogue, or at the default price. *)
Definition cheapest_item (db : PriceDatabase.t) (item_name : string)
    (quantity : Q) : Item.t :=
  let ingredient_name := ingredient_of item_name in
  match _find_lowest_price_for_ingredient db ingredient_name with
  | Some price_info =>
      Item.mk ingredient_name quantity (PriceEntry.unit price_info)
        (PriceEntry.price_per_unit price_info)
        (PriceEntry.price_per_unit price_info * quantity)
        (PriceEntry.section price_info)
  | None =>
      Item.mk ingredient_name quantity "g" 0.10 (0.10 * quantity) "unknown"
  end.

(** The store an entry is listed under in multi-store mode: the store of
    its lowest price, or the first store of the dictionary. *)
Definition bucket_of (db : PriceDatabase.t) (first_key item_name : string)
    : string :=
  match _find_lowest_price_for_ingredient db (ingredient_of item_name) with
  | Some price_info => PriceEntry.store_id price_info
  | None => first_key
  end.

(** The first key of the multi-store dictionary: the bucket of the first
    basket entry, ["default"] when that entry has no price. *)
Definition first_bucket (db : PriceDatabase.t) (grocery_list : GroceryList)
    : string :=
  match grocery_list with
  | [] => "default"
  | (item_name, _) :: _ => bucket_of db "default" item_name
  end.

(** The elements of [l] with key [k], in order, mapped to line items; no
    entry when there is none. *)
Definition grouped {A} (key : A -> string) (f : A -> Item.t) (l : list A)
    (k : string) : option (list Item.t) :=
  match List.filter (fun x => String.eqb (key x) k) l with
  | [] => None
  | xs => Some (map f xs)
  end.

(** One round of a grouping loop: create the list of the key when it is
    missing, then append. *)
Definition group_step {A} (key : A -> string) (f : A -> Item.t)
    (d : list (string * list Item.t)) (x : A) : list (string * list Item.t) :=
  append_item
    (if Py.dict_mem d (key x) then d else Py.dict_set d (key x) [])
    (key x) (f x).

End GrocerySpec.

(** *** The week as the user sees it *)

Module WeekSpec.

Import MealPlannerService.

(** How often an ingredient name occurs in a list of ingredients. *)
Definition name_count (name : string) (ingredients : list Ingredient.t) : Z :=
  Z.of_nat
    (length
       (List.filter (fun i => String.eqb (Ingredient.name i) name) ingredients)).

(** How often it occurs in the recipes placed so far. *)
Definition usage (name : string) (placed : list Recipe.t) : Z :=
  name_count name (concat (map Recipe.ingredients placed)).

(** A usage counter holds no entry for a count of zero. *)
Definition counter (n : Z) : option Z :=
  if (n =? 0)%Z then None else Some n.

(** The invariant of the usage tracker: it counts, name by name, the
    ingredient entries of the recipes placed so far. *)
Definition tracked (st : State) : Prop :=
  forall name,
    ingredient_usage_tracker st !! name
    = counter (usage name (SchedulerSpec.placed (assigned_recipes st))).

(** The number of meals of the week cooked from the recipe with this id. *)
Definition times_served (recipe_id : string) (recipes : list Recipe.t) : nat :=
  length (List.filter (fun r => String.eqb (Recipe.id r) recipe_id) recipes).

(** The selection the exhaustive solver returns for the sample pool with a
    budget of 200, no nutrition target and at most 10 repeats. *)
Definition sample_selection : list (Recipe.t * Z) :=
  [ (Samples.vegetable_stir_fry, 10%Z); (Samples.grilled_chicken_salad, 1%Z);
    (Samples.rice_bowl, 10%Z) ].

End WeekSpec.

(** * Properties *)

(** ** The embedding at work *)

Example split_head_item_name :
  Py.split_head " (" "Chicken Breast (g)" = "Chicken Breast"%string.
Proof. reflexivity. Qed.

Example split_head_without_separator :
  Py.split_head " (" "chicken breast|g" = "chicken breast|g"%string.
Proof. reflexivity. Qed.

Example lower_mixed_case : Py.lower "Chicken Breast" = "chicken breast"%string.
Proof. reflexivity. Qed.

Example int_truncates : Py.int 2.75 = 2%Z /\ Py.int (-2.75) = (-2)%Z.
Proof. split; reflexivity. Qed.

Example standardize_pounds :
  ingredient_utils.standardize_units "Rice" 2 "lb" = (2 * 453.592, "g"%string).
Proof. reflexivity. Qed.

Example standardize_unknown_unit :
  ingredient_utils.standardize_units "Milk" 2 "L" = (2, "L"%string).
Proof. reflexivity. Qed.

Example dict_set_keeps_position :
  Py.dict_set [("a"%string, 1%Z); ("b"%string, 2%Z)] "a" 5%Z
  = [("a"%string, 5%Z); ("b"%string, 2%Z)].
Proof. reflexivity. Qed.

(** Multi-store mode: chicken is cheapest at store_1, broccoli at store_2,
    and saffron, which nobody sells, joins the first store used. *)
Example multi_store_sample :
  let plan :=
    GroceryOptimizerService.optimize_grocery_list
      GroceryOptimizerService.default_prices
      [("Chicken Breast (g)"%string, 300); ("Broccoli (g)"%string, 200);
       ("Saffron (g)"%string, 2)]
      (Samples.preferences 100 2) false in
  GroceryPlan.stores_used plan = UsedStoreIds ["store_1"%string; "store_2"%string]
  /\ map (fun e => (e.1, map Item.name e.2)) (GroceryPlan.items_by_store plan)
     = [("store_1"%string, ["Chicken Breast"%string; "Saffron"%string]);
        ("store_2"%string, ["Broccoli"%string])]
  /\ GroceryPlan.total_cost plan == 35.
Proof. by vm_compute. Qed.

(** The exhaustive solver on the sample pool with a budget of 200: ten stir
    fries, ten rice bowls and one salad, 21 servings for 82.20. *)
Example optimize_sample :
  outcome
    (OptimizationService.optimize_meal_plan (backend := ReferenceSolver.exhaustive)
       Samples.pool (Samples.preferences 200 10) 7)
  = Returned
      [ (Samples.vegetable_stir_fry, 10%Z); (Samples.grilled_chicken_salad, 1%Z);
        (Samples.rice_bowl, 10%Z) ].
Proof. by vm_compute. Qed.

(** The same pool with a daily target of 1100 calories: the deviation from
    the target applies [abs] to an expression, and the run ends before the
    solver is called. *)
Example optimize_sample_with_target :
  OptimizationService.optimize_meal_plan (backend := ReferenceSolver.exhaustive)
    Samples.pool (Samples.preferences_calories 200 10 1100) 7
  = ([], Raised (TypeError "bad operand type for abs(): 'SumArray'")).
Proof. by vm_compute. Qed.

(** Over an empty pool the sums are the number 0, [abs] is applied to a
    number, and the solver is called on a program without solution. *)
Example optimize_empty_pool_with_target :
  let run :=
    OptimizationService.optimize_meal_plan (backend := ReferenceSolver.exhaustive)
      [] (Samples.preferences_calories 200 10 1100) 7 in
  outcome run = Returned []
  /\ OptimizationService.solve_count (events run) = 1%nat.
Proof. by vm_compute. Qed.

(** The planner on the sample pool, without nutrition target: the selection
    is found, the week is built, and the [MealPlan] constructor refuses the
    grocery list it is handed. *)
Example generate_sample :
  let run :=
    MealPlannerService.generate_meal_plan (backend := ReferenceSolver.exhaustive)
      Samples.pool GroceryOptimizerService.default_prices 0
      (Samples.preferences 200 10) in
  outcome run
  = Raised (ValidationError "1 validation error for MealPlan: grocery_list")
  /\ OptimizationService.solve_count (events run) = 1%nat.
Proof. by vm_compute. Qed.

(** Three stir fries and two rice bowls over the week: the first slot takes
    the first occurrence, a stir fry; the other stir fries then score 30 for
    their three ingredients already used and the rice bowls 10 for the
    broccoli, so the stir fries are placed first. *)
Example schedule_sample :
  map (fun d => map (fun m => (Meal.meal_type m, Recipe.name (Meal.recipe m)))
                 (DailyMeals.meals d))
    (MealPlannerService._create_daily_meals 2
       [(Samples.vegetable_stir_fry, 3%Z); (Samples.rice_bowl, 2%Z)]
       (Samples.preferences 100 2))
  = [ [("breakfast", "Vegetable Stir Fry"); ("lunch", "Vegetable Stir Fry");
       ("dinner", "Vegetable Stir Fry")];
      [("breakfast", "Rice Bowl"); ("lunch", "Rice Bowl")];
      []; []; []; []; [] ]%string.
Proof. by vm_compute. Qed.


(** ** Arithmetic and list facts shared by the proofs *)

Lemma Qltb_lt (x y : Q) : Py.Qltb x y = true <-> x < y.
Proof.
  unfold Py.Qltb. rewrite negb_true_iff.
  split.
  - intros H. apply Qnot_le_lt. intros Hle.
    apply Qle_bool_iff in Hle. congruence.
  - intros H. destruct (Qle_bool y x) eqn:E; [|done].
    apply Qle_bool_iff in E. exfalso. by apply (Qlt_not_le x y).
Qed.

Lemma Qltb_ge (x y : Q) : Py.Qltb x y = false <-> y <= x.
Proof.
  unfold Py.Qltb. rewrite negb_false_iff. apply Qle_bool_iff.
Qed.

Lemma fold_left_Qplus_acc (l : list Q) (a : Q) :
  fold_left Qplus l a == a + fold_left Qplus l 0.
Proof.
  revert a. induction l as [|x l IH]; intros a; simpl.
  - ring.
  - rewrite (IH (a + x)), (IH (0 + x)). ring.
Qed.

Lemma sum_nil : Py.sum [] == 0.
Proof. reflexivity. Qed.

Lemma sum_cons (x : Q) (l : list Q) : Py.sum (x :: l) == x + Py.sum l.
Proof.
  unfold Py.sum. simpl. rewrite fold_left_Qplus_acc. ring.
Qed.

Lemma sum_app (l1 l2 : list Q) : Py.sum (l1 ++ l2) == Py.sum l1 + Py.sum l2.
Proof.
  induction l1 as [|x l1 IH]; simpl.
  - rewrite sum_nil. ring.
  - rewrite !sum_cons, IH. ring.
Qed.

Lemma sum_snoc (l : list Q) (x : Q) : Py.sum (l ++ [x]) == Py.sum l + x.
Proof. rewrite sum_app, sum_cons, sum_nil. ring. Qed.

(** A loop that only appends to its accumulator. *)
Lemma fold_left_append {A B} (f : A -> list B) (l : list A) (acc : list B) :
  fold_left (fun acc x => acc ++ f x) l acc = acc ++ concat (map f l).
Proof.
  revert acc. induction l as [|x l IH]; intros acc; simpl.
  - by rewrite app_nil_r.
  - by rewrite IH, app_assoc.
Qed.

(** ** Ordered dictionaries *)

Section DictFacts.
Context {V : Type}.
Implicit Types (d : list (string * V)) (k : string) (v : V).

Lemma dict_get_set_eq d k v : Py.dict_get (Py.dict_set d k v) k = Some v.
Proof.
  induction d as [|[k' v'] d IH]; simpl.
  - by rewrite String.eqb_refl.
  - destruct (String.eqb k' k) eqn:E; simpl; rewrite E; [done | apply IH].
Qed.

Lemma dict_get_set_ne d k k' v :
  k <> k' -> Py.dict_get (Py.dict_set d k v) k' = Py.dict_get d k'.
Proof.
  intros Hne. induction d as [|[k0 v0] d IH]; simpl.
  - destruct (String.eqb k k') eqn:E; [|done].
    apply String.eqb_eq in E. congruence.
  - destruct (String.eqb k0 k) eqn:E; simpl.
    + apply String.eqb_eq in E. subst k0.
      destruct (String.eqb k k') eqn:E'; [|done].
      apply String.eqb_eq in E'. congruence.
    + by rewrite IH.
Qed.

Lemma dict_get_head d k v : Py.dict_get ((k, v) :: d) k = Some v.
Proof. simpl. by rewrite String.eqb_refl. Qed.

Lemma dict_mem_true d k :
  Py.dict_mem d k = true -> exists v, Py.dict_get d k = Some v.
Proof. unfold Py.dict_mem. destruct (Py.dict_get d k); [eauto | done]. Qed.

Lemma dict_mem_false d k : Py.dict_mem d k = false -> Py.dict_get d k = None.
Proof. unfold Py.dict_mem. by destruct (Py.dict_get d k). Qed.
End DictFacts.

(** ** Grocery optimisation *)

Section GroceryFacts.
Import GroceryOptimizerService.
Variable db : PriceDatabase.t.

Lemma insert_by_price_perm x l : insert_by_price x l ≡ₚ x :: l.
Proof.
  induction l as [|y l IH]; simpl; [done|].
  destruct (Qle_bool _ _); [done|].
  rewrite IH. apply Permutation_swap.
Qed.

Lemma sort_by_price_perm l : sort_by_price l ≡ₚ l.
Proof.
  induction l as [|x l IH]; simpl; [done|].
  unfold sort_by_price in *. simpl.
  by rewrite insert_by_price_perm, IH.
Qed.

Lemma insert_by_price_sorted x l :
  StronglySorted price_le l -> StronglySorted price_le (insert_by_price x l).
Proof.
  induction 1 as [|y l Hs IH Hall]; simpl.
  - repeat constructor.
  - destruct (Qle_bool _ _) eqn:E.
    + apply Qle_bool_iff in E.
      constructor; [by constructor|].
      constructor; [done|].
      eapply Forall_impl; [exact Hall|].
      intros z Hz. unfold price_le in *. by eapply Qle_trans.
    + assert (price_le y x) as Hyx.
      { unfold price_le. apply Qlt_le_weak, Qnot_le_lt.
        intros Hle. apply Qle_bool_iff in Hle. congruence. }
      constructor; [done|].
      rewrite insert_by_price_perm. by constructor.
Qed.

Lemma sort_by_price_sorted l : StronglySorted price_le (sort_by_price l).
Proof.
  induction l as [|x l IH]; [constructor|].
  by apply insert_by_price_sorted.
Qed.

(** The sort is stable: the entries of any one price keep their order. *)
Lemma insert_by_price_stable p x l :
  List.filter (fun e => Qeq_bool (PriceEntry.price_per_unit e) p)
    (insert_by_price x l)
  = List.filter (fun e => Qeq_bool (PriceEntry.price_per_unit e) p) (x :: l).
Proof.
  induction l as [|y l IH]; [done|]. cbn [insert_by_price].
  destruct (Qle_bool _ _) eqn:E; [done|].
  cbn [List.filter] in *. rewrite IH.
  destruct (Qeq_bool (PriceEntry.price_per_unit y) p) eqn:Ey; [|done].
  destruct (Qeq_bool (PriceEntry.price_per_unit x) p) eqn:Ex; [|done].
  apply Qeq_bool_iff in Ex, Ey.
  assert (Qle_bool (PriceEntry.price_per_unit x) (PriceEntry.price_per_unit y)
          = true) as Hle.
  { apply Qle_bool_iff. rewrite Ex, Ey. apply Qle_refl. }
  congruence.
Qed.

Lemma sort_by_price_stable p l :
  List.filter (fun e => Qeq_bool (PriceEntry.price_per_unit e) p)
    (sort_by_price l)
  = List.filter (fun e => Qeq_bool (PriceEntry.price_per_unit e) p) l.
Proof.
  induction l as [|x l IH]; [done|].
  unfold sort_by_price in *. cbn [foldr].
  rewrite insert_by_price_stable. cbn [List.filter]. by rewrite IH.
Qed.

(** The matches collected by [_find_all_prices_for_ingredient] are the
    catalogue entries for the ingredient, in catalogue order. *)
Lemma find_all_prices_filter ingredient :
  _find_all_prices_for_ingredient db ingredient
  = List.filter (fun e => same_ingredient e ingredient) (PriceDatabase.prices db).
Proof.
  unfold _find_all_prices_for_ingredient.
  enough (forall l acc,
    fold_left (fun matches e =>
                 if same_ingredient e ingredient then matches ++ [e] else matches)
      l acc
    = acc ++ List.filter (fun e => same_ingredient e ingredient) l) as H
    by apply (H _ []).
  induction l as [|e l IH]; intros acc; simpl.
  - by rewrite app_nil_r.
  - rewrite IH. destruct (same_ingredient e ingredient); [|done].
    by rewrite <- app_assoc.
Qed.

Lemma find_substitutions_concat grocery_list :
  _find_substitutions db grocery_list
  = concat (map (fun e => substitutions_for db e.1 e.2) grocery_list).
Proof.
  unfold _find_substitutions.
  enough (forall l acc,
    fold_left (fun substitutions '(item_name, quantity) =>
                 substitutions ++ substitutions_for db item_name quantity)
      l acc
    = acc ++ concat (map (fun e => substitutions_for db e.1 e.2) l)) as H
    by apply (H _ []).
  induction l as [|[n q] l IH]; intros acc; simpl.
  - by rewrite app_nil_r.
  - by rewrite IH, app_assoc.
Qed.

Lemma plan_substitutions grocery_list prefs mode :
  GroceryPlan.substitutions (optimize_grocery_list db grocery_list prefs mode)
  = _find_substitutions db grocery_list.
Proof.
  unfold optimize_grocery_list.
  destruct mode.
  - by destruct (_calculate_store_items _ _ _).
  - by destruct (_optimize_multi_store _ _).
Qed.

Lemma substitutions_for_spec item_name quantity s :
  s ∈ substitutions_for db item_name quantity <->
  exists cheapest second rest,
    let entries := _find_all_prices_for_ingredient db (ingredient_of item_name) in
    (2 <= length entries)%nat
    /\ sort_by_price entries = cheapest :: second :: rest
    /\ PriceEntry.price_per_unit second < PriceEntry.price_per_unit cheapest * 0.9
    /\ s = Substitution.mk (ingredient_of item_name)
             (_get_store_name db (PriceEntry.store_id second))
             (PriceEntry.price_per_unit cheapest)
             (PriceEntry.price_per_unit second)
             (PriceEntry.price_per_unit cheapest - PriceEntry.price_per_unit second)
             ((PriceEntry.price_per_unit cheapest
               - PriceEntry.price_per_unit second) * quantity).
Proof.
  unfold substitutions_for. cbv zeta.
  set (entries := _find_all_prices_for_ingredient db (ingredient_of item_name)).
  split.
  - destruct (1 <? length entries)%nat eqn:Hlen; [|by intros ?%elem_of_nil].
    apply Nat.ltb_lt in Hlen.
    destruct (sort_by_price entries) as [|c [|s' rest]] eqn:Hsort;
      [by intros ?%elem_of_nil | by intros ?%elem_of_nil |].
    destruct (Py.Qltb _ _) eqn:Hlt; [|by intros ?%elem_of_nil].
    apply Qltb_lt in Hlt.
    intros ->%list_elem_of_singleton.
    exists c, s', rest. repeat split; [lia | done].
  - intros (c & s' & rest & Hlen & Hsort & Hlt & ->).
    apply Nat.ltb_lt in Hlen. rewrite Hlen, Hsort.
    apply Qltb_lt in Hlt. rewrite Hlt.
    by apply list_elem_of_singleton.
Qed.

(** With non-negative prices the test never succeeds: on an ascending list
    the second price is not below nine tenths of the first. *)
Lemma no_substitution_for_nonnegative_prices grocery_list :
  (forall e, e ∈ PriceDatabase.prices db -> 0 <= PriceEntry.price_per_unit e) ->
  _find_substitutions db grocery_list = [].
Proof.
  intros Hnn. rewrite find_substitutions_concat.
  induction grocery_list as [|[n q] l IH]; [done|]. cbn [map concat].
  rewrite IH, app_nil_r. cbn [fst snd].
  destruct (substitutions_for db n q) as [|s ss] eqn:E; [done|]. exfalso.
  assert (s ∈ substitutions_for db n q) as Hs by (rewrite E; apply list_elem_of_here).
  apply substitutions_for_spec in Hs as (c & s' & rest & _ & Hsort & Hlt & _).
  pose proof (sort_by_price_sorted
                (_find_all_prices_for_ingredient db (ingredient_of n))) as Hsorted.
  rewrite Hsort in Hsorted.
  apply StronglySorted_inv in Hsorted as [_ Hall].
  apply Forall_cons in Hall as [Hle _]. unfold price_le in Hle.
  assert (c ∈ PriceDatabase.prices db) as Hc.
  { assert (c ∈ sort_by_price
                  (_find_all_prices_for_ingredient db (ingredient_of n))) as Hin
      by (rewrite Hsort; apply list_elem_of_here).
    rewrite sort_by_price_perm, find_all_prices_filter in Hin.
    apply list_elem_of_In, filter_In in Hin as [Hin _].
    by apply list_elem_of_In. }
  specialize (Hnn c Hc). lra.
Qed.

(** [_get_store_name] reports the first store of the catalogue with the
    id, and ["Unknown Store"] when there is none. *)
Lemma store_named_find stores store_id name :
  store_named stores store_id name ->
  name
  = match List.find (fun store => String.eqb (Store.id store) store_id) stores
    with
    | Some store => Store.name store
    | None => "Unknown Store"%string
    end.
Proof.
  intros [(before & store & after & -> & Hid & Hall & ->) | [Hall ->]].
  - induction before as [|s before IH]; simpl.
    + by rewrite Hid, String.eqb_refl.
    + apply Forall_cons in Hall as [Hs Hall].
      apply String.eqb_neq in Hs. rewrite Hs. by apply IH.
  - induction stores as [|s stores IH]; simpl; [done|].
    apply Forall_cons in Hall as [Hs Hall].
    apply String.eqb_neq in Hs. rewrite Hs. by apply IH.
Qed.

Lemma find_store_named stores store_id :
  store_named stores store_id
    match List.find (fun store => String.eqb (Store.id store) store_id) stores
    with
    | Some store => Store.name store
    | None => "Unknown Store"%string
    end.
Proof.
  induction stores as [|s stores IH]; simpl.
  - right. split; [constructor | done].
  - destruct (String.eqb (Store.id s) store_id) eqn:E.
    + apply String.eqb_eq in E. left. exists [], s, stores.
      split; [done|]. split; [done|]. split; [constructor | done].
    + apply String.eqb_neq in E.
      destruct IH as [(before & store & after & -> & Hid & Hall & ->) | [Hall ->]].
      * left. exists (s :: before), store, after.
        split; [done|]. split; [done|]. split; [by constructor | done].
      * right. split; [by constructor | done].
Qed.

Lemma get_store_name_named store_id name :
  store_named (PriceDatabase.stores db) store_id name <->
  name = _get_store_name db store_id.
Proof.
  unfold _get_store_name. split.
  - apply store_named_find.
  - intros ->. apply find_store_named.
Qed.

End GroceryFacts.

(** C4.  For every basket ingredient, a substitution record is emitted if and
    only if the ingredient has at least two price entries across stores and,
    once those entries are sorted ascending by price, the second-cheapest
    price is strictly below the cheapest price times 0.9.  The record names
    the store of the second-cheapest entry (by the name of the first store
    of the catalogue with the entry's store id, ["Unknown Store"] when the
    catalogue lists none), both prices, and the savings (cheapest minus
    second-cheapest) times the required quantity.  The records do not
    depend on the mode, and the sort returns an ascending permutation of
    the ingredient's catalogue entries in which entries of equal price keep
    their catalogue order. *)
Theorem substitution_emitted_iff (db : PriceDatabase.t)
    (grocery_list : GroceryOptimizerService.GroceryList)
    (prefs : UserPreferences.t) (single_store_mode : bool)
    (s : Substitution.t) :
  let plan :=
    GroceryOptimizerService.optimize_grocery_list db grocery_list prefs
      single_store_mode in
  let entries_of item_name :=
    List.filter
      (fun e => GroceryOptimizerService.same_ingredient e
                  (GroceryOptimizerService.ingredient_of item_name))
      (PriceDatabase.prices db) in
  (s ∈ GroceryPlan.substitutions plan <->
   exists item_name quantity cheapest second rest alternative_store,
     (item_name, quantity) ∈ grocery_list
     /\ (2 <= length (entries_of item_name))%nat
     /\ GroceryOptimizerService.sort_by_price (entries_of item_name)
        = cheapest :: second :: rest
     /\ PriceEntry.price_per_unit second < PriceEntry.price_per_unit cheapest * 0.9
     /\ store_named (PriceDatabase.stores db) (PriceEntry.store_id second)
          alternative_store
     /\ s = Substitution.mk (GroceryOptimizerService.ingredient_of item_name)
              alternative_store
              (PriceEntry.price_per_unit cheapest)
              (PriceEntry.price_per_unit second)
              (PriceEntry.price_per_unit cheapest - PriceEntry.price_per_unit second)
              ((PriceEntry.price_per_unit cheapest
                - PriceEntry.price_per_unit second) * quantity))
  /\ GroceryPlan.substitutions plan
     = GroceryPlan.substitutions
         (GroceryOptimizerService.optimize_grocery_list db grocery_list prefs
            (negb single_store_mode))
  /\ (forall item_name,
        GroceryOptimizerService.sort_by_price (entries_of item_name)
          ≡ₚ entries_of item_name
        /\ StronglySorted price_le
             (GroceryOptimizerService.sort_by_price (entries_of item_name))
        /\ forall p,
             List.filter (fun e => Qeq_bool (PriceEntry.price_per_unit e) p)
               (GroceryOptimizerService.sort_by_price (entries_of item_name))
             = List.filter (fun e => Qeq_bool (PriceEntry.price_per_unit e) p)
                 (entries_of item_name)).
Proof.
  intros plan entries_of. subst plan.
  split; [|split].
  - rewrite plan_substitutions, find_substitutions_concat.
    rewrite list_elem_of_In, in_concat.
    split.
    + intros (l & Hl & Hs).
      apply in_map_iff in Hl as ([n q] & <- & Hin).
      apply list_elem_of_In, substitutions_for_spec in Hs
        as (c & s' & rest & Hlen & Hsort & Hlt & ->).
      rewrite find_all_prices_filter in Hlen, Hsort.
      apply list_elem_of_In in Hin.
      exists n, q, c, s', rest,
        (GroceryOptimizerService._get_store_name db (PriceEntry.store_id s')).
      split; [done|]. split; [done|]. split; [done|]. split; [done|].
      split; [by apply get_store_name_named | done].
    + intros (n & q & c & s' & rest & alt & Hin & Hlen & Hsort & Hlt & Halt & ->).
      apply get_store_name_named in Halt as ->.
      exists (GroceryOptimizerService.substitutions_for db n q). split.
      * apply in_map_iff. exists (n, q). by rewrite <- list_elem_of_In.
      * apply list_elem_of_In, substitutions_for_spec. exists c, s', rest.
        cbv zeta. by rewrite find_all_prices_filter.
  - by rewrite !plan_substitutions.
  - intros item_name. split; [|split].
    + apply sort_by_price_perm.
    + apply sort_by_price_sorted.
    + intros p. apply sort_by_price_stable.
Qed.

(** The theorem on a catalogue with negative prices, the only ones for
    which the test succeeds: two crates are paid 10 apiece at the first
    store and 9.5 at the second, -9.5 is below -10 times 0.9, and the plan
    holds the record naming the second store, ValueGrocer. *)
Lemma substitution_emitted_iff_witness :
  Substitution.mk "Crate" "ValueGrocer" (-10 # 1) (-19 # 2)
    ((-10 # 1) - (-19 # 2)) (((-10 # 1) - (-19 # 2)) * 2)
  ∈ GroceryPlan.substitutions
      (GroceryOptimizerService.optimize_grocery_list crate_catalogue
         crate_basket (Samples.preferences 100 2) true).
Proof.
  apply (substitution_emitted_iff crate_catalogue crate_basket
           (Samples.preferences 100 2) true).
  exists "Crate (piece)"%string, 2,
    (PriceEntry.mk "Crate" "store_1" "piece" (-10 # 1) "returns"),
    (PriceEntry.mk "Crate" "store_2" "piece" (-19 # 2) "returns"),
    [], "ValueGrocer"%string.
  split; [apply list_elem_of_here|].
  split; [vm_compute; lia|].
  split; [reflexivity|].
  split; [reflexivity|].
  split; [|reflexivity].
  left. exists [Store.mk "store_1" "FreshMart" "Downtown"],
    (Store.mk "store_2" "ValueGrocer" "Uptown"), [].
  split; [reflexivity|]. split; [reflexivity|].
  split; [|reflexivity].
  constructor; [discriminate | constructor].
Defined.

Section StoreItems.
Import GroceryOptimizerService.
Variable db : PriceDatabase.t.

Lemma line_total_snoc items item :
  line_total (items ++ [item]) == line_total items + Item.total_price item.
Proof. unfold line_total. rewrite map_app. simpl. apply sum_snoc. Qed.

(** [_calculate_store_items] visits the basket in order and emits one line
    item per entry. *)
Lemma calculate_store_items_spec grocery_list store_id :
  let '(items, total_cost) := _calculate_store_items db grocery_list store_id in
  items = map (fun e => store_item db store_id e.1 e.2) grocery_list
  /\ total_cost == line_total items.
Proof.
  unfold _calculate_store_items.
  enough (forall l items0 total0,
    total0 == line_total items0 ->
    let '(items, total_cost) :=
      fold_left
        (fun '(items, total_cost) '(item_name, quantity) =>
           let item := store_item db store_id item_name quantity in
           (items ++ [item], total_cost + Item.total_price item))
        l (items0, total0) in
    items = items0 ++ map (fun e => store_item db store_id e.1 e.2) l
    /\ total_cost == line_total items) as H.
  { specialize (H grocery_list [] 0). simpl in H. apply H. reflexivity. }
  induction l as [|[n q] l IH]; intros items0 total0 Htot; simpl.
  - by rewrite app_nil_r.
  - specialize (IH (items0 ++ [store_item db store_id n q])
                   (total0 + Item.total_price (store_item db store_id n q))).
    destruct (fold_left _ l _) as [items total].
    destruct IH as [-> Hsum].
    + rewrite line_total_snoc, Htot. reflexivity.
    + split; [by rewrite <- app_assoc | done].
Qed.

Lemma find_in_store_None ingredient store_id :
  _find_lowest_price_for_ingredient_in_store db ingredient store_id = None <->
  forall e, e ∈ PriceDatabase.prices db ->
            same_ingredient e ingredient = true ->
            PriceEntry.store_id e <> store_id.
Proof.
  unfold _find_lowest_price_for_ingredient_in_store. split.
  - intros Hnone e Hin Hsame Heq.
    apply list_elem_of_In in Hin.
    pose proof (find_none _ _ Hnone e Hin) as Hf. simpl in Hf.
    rewrite Hsame in Hf. simpl in Hf.
    apply String.eqb_neq in Hf. done.
  - intros Hall.
    destruct (List.find _ _) as [e|] eqn:Hf; [|done].
    apply find_some in Hf as [Hin Hb].
    apply andb_true_iff in Hb as [Hsame Hid].
    apply String.eqb_eq in Hid.
    apply list_elem_of_In in Hin.
    by destruct (Hall e Hin Hsame).
Qed.

(** Appending a line item under a key the dictionary holds adds its total. *)
Lemma line_items_append d k (l : list Item.t) item :
  Py.dict_get d k = Some l ->
  line_total (line_items (Py.dict_set d k (l ++ [item])))
  == line_total (line_items d) + Item.total_price item.
Proof.
  unfold line_items, line_total.
  induction d as [|[k' l'] d IH]; simpl; [done|].
  destruct (String.eqb k' k) eqn:E; simpl.
  - intros [= ->].
    rewrite !map_app, !sum_app. simpl. rewrite sum_cons, sum_nil. ring.
  - intros Hget. rewrite !map_app, !sum_app, (IH Hget). ring.
Qed.

Lemma line_items_new_key d k :
  Py.dict_get d k = None ->
  line_total (line_items (Py.dict_set d k ([] : list Item.t)))
  == line_total (line_items d).
Proof.
  unfold line_items, line_total.
  induction d as [|[k' l'] d IH]; simpl; [reflexivity|].
  destruct (String.eqb k' k) eqn:E; simpl; [done|].
  intros Hget. rewrite !map_app, !sum_app, (IH Hget). reflexivity.
Qed.

Lemma append_item_total d k item :
  Py.dict_mem d k = true ->
  line_total (line_items (append_item d k item))
  == line_total (line_items d) + Item.total_price item.
Proof.
  intros [l Hl]%dict_mem_true. unfold append_item. rewrite Hl.
  by apply line_items_append.
Qed.

Lemma dict_mem_set {V} (d : list (string * V)) k v :
  Py.dict_mem (Py.dict_set d k v) k = true.
Proof. unfold Py.dict_mem. by rewrite dict_get_set_eq. Qed.

Lemma optimize_multi_store_total grocery_list :
  let '(items_by_store, total_cost) := _optimize_multi_store db grocery_list in
  total_cost == line_total (line_items items_by_store).
Proof.
  unfold _optimize_multi_store.
  enough (forall l d0 total0,
    total0 == line_total (line_items d0) ->
    let '(items_by_store, total_cost) :=
      fold_left
        (fun '(items_by_store, total_cost) '(item_name, quantity) =>
         let ingredient_name := ingredient_of item_name in
         match _find_lowest_price_for_ingredient db ingredient_name with
         | Some best_price_info =>
             let store_id := PriceEntry.store_id best_price_info in
             let items_by_store :=
               if Py.dict_mem items_by_store store_id then items_by_store
               else Py.dict_set items_by_store store_id [] in
             let item_cost :=
               PriceEntry.price_per_unit best_price_info * quantity in
             let item_details :=
               Item.mk ingredient_name quantity (PriceEntry.unit best_price_info)
                 (PriceEntry.price_per_unit best_price_info) item_cost
                 (PriceEntry.section best_price_info) in
             (append_item items_by_store store_id item_details,
              total_cost + item_cost)
         | None =>
             let items_by_store :=
               match items_by_store with
               | [] => Py.dict_set items_by_store "default" []
               | _ => items_by_store
               end in
             let store_id :=
               match items_by_store with
               | (k, _) :: _ => k
               | [] => "default"
               end in
             let item_cost := 0.10 * quantity in
             let item_details :=
               Item.mk ingredient_name quantity "g" 0.10 item_cost "unknown" in
             (append_item items_by_store store_id item_details,
              total_cost + item_cost)
         end)
        l (d0, total0) in
    total_cost == line_total (line_items items_by_store)) as H.
  { apply (H grocery_list [] 0). reflexivity. }
  induction l as [|[n q] l IH]; intros d0 total0 Htot; simpl; [done|].
  destruct (_find_lowest_price_for_ingredient db (ingredient_of n)) as [e|].
  - apply IH.
    destruct (Py.dict_mem d0 (PriceEntry.store_id e)) eqn:Hmem.
    + rewrite append_item_total by done. simpl. by rewrite Htot.
    + rewrite append_item_total by apply dict_mem_set. simpl.
      rewrite line_items_new_key by by apply dict_mem_false.
      by rewrite Htot.
  - apply IH.
    destruct d0 as [|[k l0] d0].
    + rewrite Htot. reflexivity.
    + rewrite append_item_total; [simpl; by rewrite Htot|].
      unfold Py.dict_mem. by rewrite dict_get_head.
Qed.

End StoreItems.

(** C9.  In single-store and in multi-store mode, the line totals of all
    per-store line items of the returned plan add up to the plan's reported
    total cost (in exact arithmetic; the program's floats agree up to
    rounding). *)
Theorem plan_total_cost_is_sum_of_line_items (db : PriceDatabase.t)
    (grocery_list : GroceryOptimizerService.GroceryList)
    (prefs : UserPreferences.t) (single_store_mode : bool) :
  let plan :=
    GroceryOptimizerService.optimize_grocery_list db grocery_list prefs
      single_store_mode in
  Py.sum (map Item.total_price (concat (map snd (GroceryPlan.items_by_store plan))))
  == GroceryPlan.total_cost plan.
Proof.
  unfold GroceryOptimizerService.optimize_grocery_list.
  destruct single_store_mode.
  - pose proof (calculate_store_items_spec db grocery_list
      (Store.id (GroceryOptimizerService._find_best_single_store db grocery_list)))
      as H.
    destruct (GroceryOptimizerService._calculate_store_items _ _ _)
      as [items total].
    destruct H as [_ Htot]. simpl. rewrite app_nil_r. by rewrite Htot.
  - pose proof (optimize_multi_store_total db grocery_list) as H.
    destruct (GroceryOptimizerService._optimize_multi_store _ _) as [d total].
    simpl. by rewrite H.
Qed.

(** C5 (amended).  In single-store mode a basket ingredient with no price
    entry at the selected store is not dropped: the store's list keeps one
    line item per basket entry, in basket order, and the item of such an
    ingredient carries unit ["g"], unit price 0.10, section ["unknown"] and
    line total 0.10 times the quantity.  (The plan has no warning entry.) *)
Theorem unpriced_item_keeps_default_line (db : PriceDatabase.t)
    (grocery_list : GroceryOptimizerService.GroceryList)
    (prefs : UserPreferences.t) (i : nat) (item_name : string) (quantity : Q) :
  let plan :=
    GroceryOptimizerService.optimize_grocery_list db grocery_list prefs true in
  let store := GroceryOptimizerService._find_best_single_store db grocery_list in
  let ingredient_name := GroceryOptimizerService.ingredient_of item_name in
  grocery_list !! i = Some (item_name, quantity) ->
  (forall e, e ∈ PriceDatabase.prices db ->
             GroceryOptimizerService.same_ingredient e ingredient_name = true ->
             PriceEntry.store_id e <> Store.id store) ->
  GroceryPlan.selected_store plan = Some store
  /\ exists items,
       GroceryPlan.items_by_store plan = [(Store.id store, items)]
       /\ length items = length grocery_list
       /\ items !! i
          = Some (Item.mk ingredient_name quantity "g" 0.10 (0.10 * quantity)
                    "unknown").
Proof.
  intros plan store ingredient_name Hi Hnone. subst plan.
  unfold GroceryOptimizerService.optimize_grocery_list.
  fold store.
  pose proof (calculate_store_items_spec db grocery_list (Store.id store)) as H.
  destruct (GroceryOptimizerService._calculate_store_items _ _ _)
    as [items total].
  destruct H as [-> _]. simpl. split; [done|].
  eexists. split; [done|]. split; [by rewrite length_map|].
  change (map ?f ?l) with (f <$> l).
  rewrite list_lookup_fmap, Hi. simpl.
  unfold GroceryOptimizerService.store_item. fold ingredient_name.
  by rewrite (proj2 (find_in_store_None db ingredient_name (Store.id store)) Hnone).
Qed.

(** The theorem at the default catalogue, for a basket with saffron, which
    no store sells. *)
Lemma unpriced_item_keeps_default_line_witness :
  let db := GroceryOptimizerService.default_prices in
  let grocery_list := [("Chicken Breast (g)"%string, 300); ("Saffron (g)"%string, 2)] in
  let plan :=
    GroceryOptimizerService.optimize_grocery_list db grocery_list
      (Samples.preferences 100 2) true in
  GroceryPlan.selected_store plan = Some (Store.mk "store_1" "FreshMart" "Downtown")
  /\ exists items,
       GroceryPlan.items_by_store plan = [("store_1"%string, items)]
       /\ length items = 2%nat
       /\ items !! 1%nat
          = Some (Item.mk "Saffron" 2 "g" 0.10 (0.10 * 2) "unknown").
Proof.
  apply (unpriced_item_keeps_default_line
           GroceryOptimizerService.default_prices
           [("Chicken Breast (g)"%string, 300); ("Saffron (g)"%string, 2)]
           (Samples.preferences 100 2) 1 "Saffron (g)" 2).
  - reflexivity.
  - intros e He Hsame. exfalso. revert Hsame.
    simpl in He. repeat (apply elem_of_cons in He as [->|He]; [by vm_compute|]).
    by apply elem_of_nil in He.
Defined.

(** C5, as stated, fails: the plan holds no record of which line items used
    the default price.  For a basket of saffron the plan computed from a
    catalogue without any saffron price is the very plan computed from a
    catalogue that prices saffron, so nothing in the plan identifies the
    unpriced item. *)
Lemma unpriced_item_not_flagged :
  let basket := [("Saffron (g)"%string, 2)] in
  let prefs := Samples.preferences 100 2 in
  GroceryOptimizerService._find_lowest_price_for_ingredient_in_store
    catalogue_without_saffron "Saffron" "store_1" = None
  /\ GroceryOptimizerService._find_lowest_price_for_ingredient_in_store
       catalogue_with_saffron "Saffron" "store_1"
     = Some (PriceEntry.mk "Saffron" "store_1" "g" 0.10 "unknown")
  /\ GroceryOptimizerService.optimize_grocery_list catalogue_without_saffron
       basket prefs true
     = GroceryOptimizerService.optimize_grocery_list catalogue_with_saffron
         basket prefs true.
Proof. by vm_compute. Qed.

(** C3 (the code at scenario A).  For the basket of 300 g of chicken breast
    and the three chicken prices 0.11, 0.13 and 0.15, single-store
    optimisation selects store_1 with total cost 33 and one line item at
    0.11 per gram, as the claim says; but the plan holds no substitution
    record, where the claim expects one recommending store_2: the test of
    [_find_substitutions] asks for the second-cheapest price 0.13 to be
    below 0.11 times 0.9.  The same holds over the default catalogue. *)
Theorem scenario_A_single_store (prefs : UserPreferences.t) :
  let plan :=
    GroceryOptimizerService.optimize_grocery_list chicken_catalogue
      chicken_basket prefs true in
  GroceryPlan.selected_store plan = Some (Store.mk "store_1" "FreshMart" "Downtown")
  /\ GroceryPlan.total_cost plan == 33
  /\ GroceryPlan.items_by_store plan
     = [("store_1"%string, [Item.mk "chicken breast" 300 "g" 0.11 (0.11 * 300) "meat"])]
  /\ GroceryPlan.substitutions plan = []
  /\ ~ (0.13 < 0.11 * 0.9)
  /\ GroceryPlan.substitutions
       (GroceryOptimizerService.optimize_grocery_list
          GroceryOptimizerService.default_prices chicken_basket prefs true) = [].
Proof.
  cbv zeta. repeat split; try reflexivity.
  intros H. by vm_compute in H.
Qed.

(** In scenario A the plan contains no substitution record at all, hence
    none recommending store_2 (ValueGrocer) with estimated savings 6. *)
Lemma scenario_A_no_substitution_record :
  let plan :=
    GroceryOptimizerService.optimize_grocery_list chicken_catalogue
      chicken_basket (Samples.preferences 100 2) true in
  ~ (GroceryPlan.selected_store plan = Some (Store.mk "store_1" "FreshMart" "Downtown")
     /\ GroceryPlan.total_cost plan == 33
     /\ exists s, s ∈ GroceryPlan.substitutions plan
                  /\ Substitution.alternative_store s = "ValueGrocer"%string
                  /\ Substitution.estimated_savings s == 6).
Proof.
  intros plan (_ & _ & s & Hs & _).
  vm_compute in Hs. by apply elem_of_nil in Hs.
Qed.

(** ** Weekly scheduling *)

Section SchedulerFacts.
Import MealPlannerService SchedulerSpec.

Lemma reuse_bonus_count recipe tracker :
  reuse_bonus recipe tracker = Z.of_nat (reused_entries recipe tracker).
Proof.
  unfold reuse_bonus, reused_entries.
  enough (forall l acc,
    fold_left
      (fun reuse_bonus ingredient =>
         match tracker !! Ingredient.name ingredient with
         | Some _ => (reuse_bonus + 1)%Z
         | None => reuse_bonus
         end) l acc
    = (acc + Z.of_nat
         (length
            (List.filter
               (fun ingredient =>
                  bool_decide (is_Some (tracker !! Ingredient.name ingredient)))
               l)))%Z) as H by apply (H _ 0%Z).
  induction l as [|ing l IH]; intros acc; simpl.
  - lia.
  - rewrite IH. destruct (tracker !! Ingredient.name ing) eqn:E.
    + rewrite bool_decide_eq_true_2 by eauto. simpl. lia.
    + rewrite bool_decide_eq_false_2 by (intros [? ?]; congruence). done.
Qed.

Lemma score_reuse recipe tracker prefs :
  _score_recipe_for_assignment recipe tracker prefs
  = (10 * Z.of_nat (reused_entries recipe tracker))%Z.
Proof.
  unfold _score_recipe_for_assignment. rewrite reuse_bonus_count. lia.
Qed.

Lemma NoDup_bool_filter {A} (f : A -> bool) (l : list A) :
  NoDup l -> NoDup (List.filter f l).
Proof.
  induction 1 as [|x l Hx Hl IH]; simpl; [constructor|].
  destruct (f x); [|done]. constructor; [|done].
  rewrite list_elem_of_In, filter_In, <- list_elem_of_In. tauto.
Qed.

(** For a recipe that lists no ingredient name twice, the reuse count is
    the number of distinct names present in the counter. *)
Lemma reused_entries_distinct recipe tracker :
  NoDup (map Ingredient.name (Recipe.ingredients recipe)) ->
  reused_entries recipe tracker = reuse_count recipe tracker.
Proof.
  intros Hnd. unfold reused_entries, reuse_count.
  rewrite size_list_to_set by by apply NoDup_bool_filter.
  by rewrite filter_map_swap, length_map.
Qed.

(** The head of the descending stable sort is the first entry of maximal
    score. *)
Lemma sort_by_score_head (l : list Scored) :
  l <> [] ->
  exists h rest pre post,
    sort_by_score l = h :: rest
    /\ l = pre ++ h :: post
    /\ Forall (fun y => (score_of y < score_of h)%Z) pre
    /\ Forall (fun y => (score_of y <= score_of h)%Z) post.
Proof.
  induction l as [|x l IH]; [done|]. intros _.
  destruct l as [|x' l'].
  - exists x, [], [], []. by repeat split.
  - destruct IH as (h & rest & pre & post & Hsort & Hl & Hpre & Hpost); [done|].
    unfold sort_by_score in *. cbn [foldr]. cbn [foldr] in Hsort.
    rewrite Hsort. cbn [insert_by_score].
    destruct (score_of h <=? score_of x)%Z eqn:E.
    + apply Z.leb_le in E.
      exists x, (h :: rest), [], (x' :: l'). repeat split; [done|].
      rewrite Hl. apply Forall_app. split.
      * eapply Forall_impl; [exact Hpre|]. simpl. lia.
      * constructor; [done|].
        eapply Forall_impl; [exact Hpost|]. simpl. lia.
    + apply Z.leb_gt in E.
      exists h, (insert_by_score x rest), (x :: pre), post.
      repeat split; [by rewrite Hl | by constructor | done].
Qed.

(** A non-empty pool: the slot takes the first occurrence of maximal
    score. *)
Lemma assign_slot_pick prefs st meal_pos :
  recipe_assignments st <> [] ->
  exists i recipe,
    recipe_assignments st !! i = Some recipe
    /\ first_max (scores prefs st) i
    /\ assign_slot prefs st meal_pos
       = mkState
           (delete i (recipe_assignments st))
           (<[meal_pos := Some recipe]> (assigned_recipes st))
           (track (Recipe.ingredients recipe) (ingredient_usage_tracker st)).
Proof.
  intros Hne. unfold assign_slot.
  destruct (recipe_assignments st) as [|r0 pool] eqn:Hpool; [done|].
  rewrite <- Hpool. clear Hne.
  set (f := fun recipe =>
         _score_recipe_for_assignment recipe (ingredient_usage_tracker st) prefs).
  set (scored := imap (fun i recipe => (f recipe, i, recipe))
                   (recipe_assignments st)).
  assert (forall j y, scored !! j = Some y ->
            exists r, recipe_assignments st !! j = Some r /\ y = (f r, j, r))
    as Hlook.
  { intros j y Hj. unfold scored in Hj. rewrite list_lookup_imap in Hj.
    destruct (recipe_assignments st !! j) as [r|]; [|done].
    simpl in Hj. exists r. split; congruence. }
  destruct (sort_by_score_head scored)
    as (h & rest & pre & post & Hsort & Hl & Hpre & Hpost).
  { unfold scored. rewrite Hpool. done. }
  destruct (Hlook (length pre) h) as (r & Hr & ->).
  { rewrite Hl. by rewrite list_lookup_middle. }
  exists (length pre), r. split; [done|]. split;
    [|by change (sort_by_score (imap _ _)) with (sort_by_score scored);
         rewrite Hsort].
  exists (f r). unfold scores. fold f. split; [|split].
  - change (map f ?l) with (f <$> l). by rewrite list_lookup_fmap, Hr.
  - intros j s' Hj.
    change (map f ?l) with (f <$> l) in Hj.
    rewrite list_lookup_fmap in Hj.
    destruct (recipe_assignments st !! j) as [rj|] eqn:Hrj; [|done].
    injection Hj as <-.
    assert (scored !! j = Some (f rj, j, rj)) as Hsj.
    { unfold scored. by rewrite list_lookup_imap, Hrj. }
    rewrite Hl in Hsj.
    apply lookup_app_Some in Hsj as [Hsj | [Hge Hsj]].
    + apply list_elem_of_lookup_2 in Hsj.
      rewrite Forall_forall in Hpre.
      specialize (Hpre _ Hsj). unfold score_of in Hpre. simpl in Hpre. lia.
    + apply list_elem_of_lookup_2, elem_of_cons in Hsj as [Hsj|Hsj].
      * simplify_eq/=. lia.
      * rewrite Forall_forall in Hpost.
        specialize (Hpost _ Hsj). unfold score_of in Hpost. simpl in Hpost. lia.
  - intros j s' Hlt Hj.
    change (map f ?l) with (f <$> l) in Hj.
    rewrite list_lookup_fmap in Hj.
    destruct (recipe_assignments st !! j) as [rj|] eqn:Hrj; [|done].
    injection Hj as <-.
    assert (scored !! j = Some (f rj, j, rj)) as Hsj.
    { unfold scored. by rewrite list_lookup_imap, Hrj. }
    rewrite Hl, lookup_app_l in Hsj by done.
    apply list_elem_of_lookup_2 in Hsj.
    rewrite Forall_forall in Hpre.
    specialize (Hpre _ Hsj). unfold score_of in Hpre. simpl in Hpre. lia.
Qed.

Lemma assign_slot_empty prefs st meal_pos :
  recipe_assignments st = [] -> assign_slot prefs st meal_pos = st.
Proof. intros H. unfold assign_slot. by rewrite H. Qed.

(** The code performs a step of the specified scheduler at every slot. *)
Lemma assign_slot_step prefs st meal_pos :
  slot_step prefs st meal_pos (assign_slot prefs st meal_pos).
Proof.
  destruct (recipe_assignments st) as [|r pool] eqn:Hpool.
  - rewrite assign_slot_empty by done. by constructor.
  - destruct (assign_slot_pick prefs st meal_pos) as (i & recipe & Hi & Hmax & ->).
    { by rewrite Hpool. }
    by constructor.
Qed.

Lemma fold_assign_slot_run prefs slots st :
  run prefs st slots (fold_left (assign_slot prefs) slots st).
Proof.
  revert st. induction slots as [|p slots IH]; intros st; simpl.
  - constructor.
  - econstructor; [apply assign_slot_step | apply IH].
Qed.

Lemma first_max_unique scores i j :
  first_max scores i -> first_max scores j -> i = j.
Proof.
  intros (s & Hi & Hmax & Hfirst) (s' & Hj & Hmax' & Hfirst').
  destruct (Nat.lt_trichotomy i j) as [Hlt|[->|Hlt]]; [|done|].
  - specialize (Hfirst' _ _ Hlt Hi). specialize (Hmax _ _ Hj). lia.
  - specialize (Hfirst _ _ Hlt Hj). specialize (Hmax' _ _ Hi). lia.
Qed.

Lemma slot_step_deterministic prefs st meal_pos st1 st2 :
  slot_step prefs st meal_pos st1 -> slot_step prefs st meal_pos st2 -> st1 = st2.
Proof.
  intros H1 H2. inversion H1 as [? ? He1|? ? i1 r1 Hr1 Hm1]; subst;
    inversion H2 as [? ? He2|? ? i2 r2 Hr2 Hm2]; subst; try done.
  - rewrite He1 in Hr2. done.
  - rewrite He2 in Hr1. done.
  - assert (i1 = i2) as -> by by eapply first_max_unique.
    by simplify_eq.
Qed.

Lemma run_deterministic prefs st slots st1 st2 :
  run prefs st slots st1 -> run prefs st slots st2 -> st1 = st2.
Proof.
  intros H1. revert st2.
  induction H1 as [st|st p st' slots st'' Hstep Hrun IH]; intros st2 H2.
  - by inversion H2.
  - inversion H2 as [|? ? stb ? ? Hstepb Hrunb]; subst.
    assert (st' = stb) as -> by by eapply slot_step_deterministic.
    by apply IH.
Qed.

(** The nested loops visit the slots 0, 1, ..., 20. *)
Lemma schedule_slots optimized_plan prefs :
  schedule optimized_plan prefs
  = fold_left (assign_slot prefs) (seq 0 21) (initial optimized_plan).
Proof.
  unfold schedule, initial. change (length days) with 7%nat.
  cbn [seq fold_left]. unfold assign_day.
  cbn [seq fold_left Nat.mul Nat.add]. reflexivity.
Qed.

(** Slot [p] is the meal of day [p / 3] and meal type [p mod 3]: a recipe
    assigned to the slot is returned under that day and meal type. *)
Lemma slot_meal (assigned : list (option Recipe.t)) today_weekday p recipe :
  (p < 21)%nat ->
  assigned !! p = Some (Some recipe) ->
  exists day meal_type daily,
    slot_day p = Some day
    /\ slot_meal_type p = Some meal_type
    /\ to_daily_meals today_weekday assigned !! (p / 3)%nat = Some daily
    /\ Meal.mk day meal_type recipe ∈ DailyMeals.meals daily.
Proof.
  intros Hp Ha. unfold slot_day, slot_meal_type, to_daily_meals.
  assert (p / 3 < 7)%nat as Hd by (apply Nat.Div0.div_lt_upper_bound; lia).
  assert (p mod 3 < 3)%nat as Hm by (apply Nat.mod_upper_bound; lia).
  assert (p = (p / 3 * 3 + p mod 3)%nat) as Hpq
    by (rewrite Nat.mul_comm; apply Nat.div_mod_eq).
  destruct (lookup_lt_is_Some_2 days (p / 3)) as [day Hday];
    [by change (length days) with 7%nat|].
  rewrite list_lookup_imap, Hday. cbn [fmap option_fmap option_map].
  remember (p / 3)%nat as d. remember (p mod 3)%nat as o.
  rewrite Hpq in Ha. clear Hpq Heqd Heqo Hp.
  unfold day_meals, meal_types. cbn [imap concat DailyMeals.meals].
  destruct o as [|[|[|o]]]; [| | |lia].
  - exists day, "breakfast"%string. eexists. repeat split.
    cbn [compose]. rewrite Ha. apply list_elem_of_here.
  - exists day, "lunch"%string. eexists. repeat split.
    cbn [compose]. rewrite Ha.
    apply elem_of_app. right. apply list_elem_of_here.
  - exists day, "dinner"%string. eexists. repeat split.
    cbn [compose]. rewrite Ha.
    apply elem_of_app. right. apply elem_of_app. right. apply list_elem_of_here.
Qed.


(** The day of the run only sets the dates. *)
Lemma to_daily_meals_weekday w w' (assigned : list (option Recipe.t)) :
  map DailyMeals.meals (to_daily_meals w' assigned)
  = map DailyMeals.meals (to_daily_meals w assigned).
Proof. reflexivity. Qed.

End SchedulerFacts.

(** C8 (amended).  Of two candidate occurrences scored against the same
    usage counter, the one with strictly more ingredient entries whose name
    is in the counter (a name the recipe lists twice counting twice) is
    never given the lower score; the score is ten times that number, and no
    score is negative.  For recipes that list no ingredient name twice the
    number is the reuse count, the count of distinct ingredients present in
    the counter, and the one with the strictly higher reuse count is never
    given the lower score. *)
Theorem score_monotone_in_reuse (r1 r2 : Recipe.t) (tracker : gmap string Z)
    (prefs : UserPreferences.t) :
  let score r := MealPlannerService._score_recipe_for_assignment r tracker prefs in
  (0 <= score r1)%Z
  /\ score r1 = (10 * Z.of_nat (SchedulerSpec.reused_entries r1 tracker))%Z
  /\ ((SchedulerSpec.reused_entries r1 tracker
       < SchedulerSpec.reused_entries r2 tracker)%nat ->
      (score r1 <= score r2)%Z)
  /\ (NoDup (map Ingredient.name (Recipe.ingredients r1)) ->
      SchedulerSpec.reused_entries r1 tracker
      = SchedulerSpec.reuse_count r1 tracker)
  /\ (NoDup (map Ingredient.name (Recipe.ingredients r1)) ->
      NoDup (map Ingredient.name (Recipe.ingredients r2)) ->
      (SchedulerSpec.reuse_count r1 tracker
       < SchedulerSpec.reuse_count r2 tracker)%nat ->
      (score r1 <= score r2)%Z).
Proof.
  intros score. subst score. cbv beta. rewrite !score_reuse.
  split; [lia|]. split; [done|]. split; [lia|].
  split; [apply reused_entries_distinct|].
  intros H1 H2.
  rewrite <- (reused_entries_distinct r1 tracker H1).
  rewrite <- (reused_entries_distinct r2 tracker H2). lia.
Qed.

(** The theorem once rice has been used: the stir fry, none of whose
    ingredients is in the counter, against the rice bowl. *)
Lemma score_monotone_in_reuse_witness :
  let tracker : gmap string Z := <["Rice"%string := 1%Z]> ∅ in
  let prefs := Samples.preferences 100 2 in
  (MealPlannerService._score_recipe_for_assignment Samples.vegetable_stir_fry
     tracker prefs
   <= MealPlannerService._score_recipe_for_assignment Samples.rice_bowl
        tracker prefs)%Z.
Proof.
  destruct (score_monotone_in_reuse Samples.vegetable_stir_fry Samples.rice_bowl
              (<["Rice"%string := 1%Z]> ∅) (Samples.preferences 100 2))
    as (_ & _ & _ & _ & Hreuse).
  apply Hreuse.
  - apply (bool_decide_unpack _). by vm_compute.
  - apply (bool_decide_unpack _). by vm_compute.
  - vm_compute. lia.
Defined.

(** C8, as stated, fails: with salt and rice in the usage counter, the pie
    that lists salt three times has reuse count 1 and score 30, the salted
    rice has reuse count 2 and score 20: the occurrence with the strictly
    higher reuse count is scored lower. *)
Lemma repeated_ingredient_scores_higher :
  let tracker : gmap string Z :=
    <["Salt"%string := 1%Z]> (<["Rice"%string := 1%Z]> ∅) in
  let prefs := Samples.preferences 100 2 in
  SchedulerSpec.reuse_count Samples.salt_crust_pie tracker = 1%nat
  /\ SchedulerSpec.reuse_count Samples.salted_rice tracker = 2%nat
  /\ MealPlannerService._score_recipe_for_assignment Samples.salt_crust_pie
       tracker prefs = 30%Z
  /\ MealPlannerService._score_recipe_for_assignment Samples.salted_rice
       tracker prefs = 20%Z
  /\ ~ ((SchedulerSpec.reuse_count Samples.salt_crust_pie tracker
         < SchedulerSpec.reuse_count Samples.salted_rice tracker)%nat ->
        (MealPlannerService._score_recipe_for_assignment Samples.salt_crust_pie
           tracker prefs
         <= MealPlannerService._score_recipe_for_assignment Samples.salted_rice
              tracker prefs)%Z).
Proof.
  cbv zeta.
  assert (SchedulerSpec.reuse_count Samples.salt_crust_pie
            (<["Salt"%string := 1%Z]> (<["Rice"%string := 1%Z]> ∅)) = 1%nat)
    as H1 by by vm_compute.
  assert (SchedulerSpec.reuse_count Samples.salted_rice
            (<["Salt"%string := 1%Z]> (<["Rice"%string := 1%Z]> ∅)) = 2%nat)
    as H2 by by vm_compute.
  assert (MealPlannerService._score_recipe_for_assignment Samples.salt_crust_pie
            (<["Salt"%string := 1%Z]> (<["Rice"%string := 1%Z]> ∅))
            (Samples.preferences 100 2) = 30%Z) as H3 by by vm_compute.
  assert (MealPlannerService._score_recipe_for_assignment Samples.salted_rice
            (<["Salt"%string := 1%Z]> (<["Rice"%string := 1%Z]> ∅))
            (Samples.preferences 100 2) = 20%Z) as H4 by by vm_compute.
  rewrite H1, H2, H3, H4.
  split; [done|]. split; [done|]. split; [done|]. split; [done|].
  intros H. specialize (H ltac:(lia)). lia.
Qed.

(** C7.  The scheduler is deterministic and picks the first maximal
    occurrence.  The program's run over the slots 0..20 (day-major, then
    meal type) is a run of the specified scheduler, in which a slot with
    occurrences left takes the occurrence of maximal score at the earliest
    position; slot p is returned as the meal of day p / 3 and meal type
    p mod 3; any two such runs from the same expanded selection end in
    the same state, hence in the same assignment; and the daily meals
    returned depend on the selection only through its expansion, the day of
    the run changing their dates alone. *)
Theorem scheduler_deterministic_first_max
    (optimized_plan : list (Recipe.t * Z)) (prefs : UserPreferences.t) :
  SchedulerSpec.run prefs (SchedulerSpec.initial optimized_plan) (seq 0 21)
    (MealPlannerService.schedule optimized_plan prefs)
  /\ (forall st1 st2,
        SchedulerSpec.run prefs (SchedulerSpec.initial optimized_plan)
          (seq 0 21) st1 ->
        SchedulerSpec.run prefs (SchedulerSpec.initial optimized_plan)
          (seq 0 21) st2 ->
        st1 = st2)
  /\ (forall st meal_pos,
        MealPlannerService.recipe_assignments st <> [] ->
        exists i recipe,
          MealPlannerService.recipe_assignments st !! i = Some recipe
          /\ SchedulerSpec.first_max (SchedulerSpec.scores prefs st) i
          /\ MealPlannerService.assigned_recipes
               (MealPlannerService.assign_slot prefs st meal_pos)
             = <[meal_pos := Some recipe]> (MealPlannerService.assigned_recipes st)
          /\ MealPlannerService.recipe_assignments
               (MealPlannerService.assign_slot prefs st meal_pos)
             = delete i (MealPlannerService.recipe_assignments st))
  /\ (forall today_weekday p recipe,
        (p < 21)%nat ->
        MealPlannerService.assigned_recipes
          (MealPlannerService.schedule optimized_plan prefs) !! p
        = Some (Some recipe) ->
        exists day meal_type daily,
          SchedulerSpec.slot_day p = Some day
          /\ SchedulerSpec.slot_meal_type p = Some meal_type
          /\ MealPlannerService._create_daily_meals today_weekday
               optimized_plan prefs !! (p / 3)%nat = Some daily
          /\ Meal.mk day meal_type recipe ∈ DailyMeals.meals daily)
  /\ (forall today_weekday today_weekday' optimized_plan',
        MealPlannerService.expand optimized_plan'
        = MealPlannerService.expand optimized_plan ->
        MealPlannerService._create_daily_meals today_weekday optimized_plan' prefs
        = MealPlannerService._create_daily_meals today_weekday optimized_plan prefs
        /\ map DailyMeals.meals
             (MealPlannerService._create_daily_meals today_weekday'
                optimized_plan' prefs)
           = map DailyMeals.meals
               (MealPlannerService._create_daily_meals today_weekday
                  optimized_plan prefs)).
Proof.
  split; [|split; [|split; [|split]]].
  - rewrite schedule_slots. apply fold_assign_slot_run.
  - intros st1 st2. apply run_deterministic.
  - intros st meal_pos Hne.
    destruct (assign_slot_pick prefs st meal_pos Hne) as (i & r & Hi & Hmax & ->).
    by exists i, r.
  - intros w p r Hp Ha. by apply slot_meal.
  - intros w w' plan' Hexp.
    unfold MealPlannerService._create_daily_meals, MealPlannerService.schedule.
    rewrite Hexp. split; [done|]. apply to_daily_meals_weekday.
Qed.

Section SchedulerFill.
Import MealPlannerService SchedulerSpec.

Lemma filled_prefix_step prefs pool0 k st :
  (k < 21)%nat ->
  filled_prefix pool0 k st ->
  filled_prefix pool0 (S k) (assign_slot prefs st k).
Proof.
  intros Hk (placed & Ha & Hlen & Hperm).
  assert (length placed + length (recipe_assignments st) = length pool0)%nat
    as Hcount by by rewrite <- Hperm, length_app.
  destruct (recipe_assignments st) as [|r0 pool] eqn:Hpool.
  - rewrite assign_slot_empty by done.
    exists placed. simpl in Hcount. rewrite Hpool.
    repeat split; [done | lia | done].
  - destruct (assign_slot_pick prefs st k) as (i & r & Hi & _ & ->);
      [by rewrite Hpool|].
    simpl in Hcount.
    assert (length placed = k) as Hpk by lia.
    exists (placed ++ [r]).
    cbn [assigned_recipes recipe_assignments]. repeat split.
    + rewrite Ha.
      rewrite insert_app_r_alt by (rewrite length_fmap; lia).
      rewrite length_fmap, Hpk, Nat.sub_diag.
      replace (21 - k)%nat with (S (20 - k)) by lia. simpl.
      rewrite fmap_app, length_app, Hpk. simpl.
      rewrite <- app_assoc. simpl.
      by replace (21 - (k + 1))%nat with (20 - k)%nat by lia.
    + rewrite length_app. cbn [length]. lia.
    + rewrite <- Hperm, Hpool, <- app_assoc. simpl.
      apply Permutation_app_head.
      rewrite Hpool in Hi. by rewrite <- delete_Permutation.
Qed.

Lemma filled_prefix_fold prefs pool0 m k st :
  (k + m <= 21)%nat ->
  filled_prefix pool0 k st ->
  filled_prefix pool0 (k + m) (fold_left (assign_slot prefs) (seq k m) st).
Proof.
  revert k st. induction m as [|m IH]; intros k st Hkm Hinv; simpl.
  - by rewrite Nat.add_0_r.
  - replace (k + S m)%nat with (S k + m)%nat by lia.
    apply IH; [lia|]. apply filled_prefix_step; [lia | done].
Qed.

Lemma expand_length optimized_plan :
  length (expand optimized_plan) = total_servings optimized_plan.
Proof.
  unfold expand, total_servings.
  enough (forall l acc,
    length
      (fold_left
         (fun recipe_assignments '(recipe, servings) =>
            recipe_assignments ++ replicate (Z.to_nat servings) recipe)
         l acc)
    = (length acc + sum_list (map (fun e : Recipe.t * Z => Z.to_nat e.2) l))%nat)
    as H by apply (H _ []).
  induction l as [|[r s] l IH]; intros acc; simpl.
  - lia.
  - rewrite IH, length_app, length_replicate. lia.
Qed.

Lemma placed_Some (l : list Recipe.t) : omap id (Some <$> l) = l.
Proof. induction l as [|r l IH]; [done|]. cbn. by f_equal. Qed.

Lemma placed_None (n : nat) : omap id (replicate n (@None Recipe.t)) = [].
Proof. induction n as [|n IH]; [done|]. by cbn. Qed.

(** The meals of one day name the recipes of its three slots. *)
Lemma day_meals_recipes (a : list (option Recipe.t)) day_idx day :
  map Meal.recipe (day_meals a day_idx day)
  = omap id (take 3 (drop (day_idx * 3) a)).
Proof.
  unfold day_meals, meal_types. simpl.
  rewrite <- !(lookup_drop a (day_idx * 3)).
  destruct (drop (day_idx * 3) a) as [|[x0|] [|[x1|] [|[x2|] b]]]; done.
Qed.

Lemma daily_meals_recipes (a : list (option Recipe.t)) today_weekday :
  length a = 21%nat ->
  meals_recipes (to_daily_meals today_weekday a) = placed a.
Proof.
  intros Hlen. unfold meals_recipes, placed, to_daily_meals, days. simpl.
  rewrite !map_app, !day_meals_recipes. simpl.
  rewrite app_nil_r, <- !omap_app. f_equal.
  do 21 (destruct a as [|? a]; [done|]).
  destruct a; [reflexivity | done].
Qed.

End SchedulerFill.

(** C10.  For every selection the scheduler fills exactly min(21, total
    servings) slots: the filled slots are the first ones in day-major order
    and the later slots stay empty; each filled slot holds one occurrence
    taken out of the expanded pool (the placed recipes together with the
    occurrences left over are a permutation of the pool); when there are
    more than 21 occurrences the excess is left over and appears in no
    slot; and the daily meals returned name exactly the placed recipes. *)
Theorem scheduler_fills_min_21 (optimized_plan : list (Recipe.t * Z))
    (prefs : UserPreferences.t) (today_weekday : Z) :
  let st := MealPlannerService.schedule optimized_plan prefs in
  let pool := MealPlannerService.expand optimized_plan in
  let n := SchedulerSpec.total_servings optimized_plan in
  length pool = n
  /\ exists placed,
       MealPlannerService.assigned_recipes st
       = (Some <$> placed) ++ replicate (21 - length placed) None
       /\ length placed = (21 `min` n)%nat
       /\ placed ++ MealPlannerService.recipe_assignments st ≡ₚ pool
       /\ length (MealPlannerService.recipe_assignments st) = (n - 21 `min` n)%nat
       /\ SchedulerSpec.meals_recipes
            (MealPlannerService._create_daily_meals today_weekday
               optimized_plan prefs)
          = placed.
Proof.
  intros st pool n.
  assert (length pool = n) as Hn by apply expand_length.
  split; [done|].
  pose proof (filled_prefix_fold prefs pool 21 0
                (SchedulerSpec.initial optimized_plan)) as Hinv.
  rewrite <- schedule_slots in Hinv. fold st in Hinv.
  destruct Hinv as (placed & Ha & Hlen & Hperm).
  { lia. }
  { exists []. by repeat split. }
  exists placed. rewrite Hn in Hlen. change (0 + 21)%nat with 21%nat in Hlen.
  repeat split; [done..| |].
  - apply Permutation_length in Hperm. rewrite length_app in Hperm. lia.
  - unfold MealPlannerService._create_daily_meals. fold st.
    rewrite daily_meals_recipes.
    + unfold SchedulerSpec.placed.
      by rewrite Ha, omap_app, placed_Some, placed_None, app_nil_r.
    + rewrite Ha, length_app, length_fmap, length_replicate. lia.
Qed.

(** ** The grocery basket *)

Section BasketFacts.
Import OptimizationService BasketSpec.

Lemma calculate_grocery_list_fold meal_plan :
  calculate_grocery_list meal_plan
  = fold_left
      (fun g e => fold_left (add_ingredient e.2) (Recipe.ingredients e.1) g)
      meal_plan [].
Proof.
  unfold calculate_grocery_list. generalize (@nil (string * Q)).
  induction meal_plan as [|[r s] l IH]; intros g; simpl; [done|].
  by rewrite IH.
Qed.

Lemma add_ingredient_get servings g ingredient key present q :
  holds_amount (Py.dict_get g key) present q ->
  holds_amount (Py.dict_get (add_ingredient servings g ingredient) key)
    (present || has_key key ingredient)
    ((if present then q else 0)
     + (if has_key key ingredient
        then Ingredient.amount ingredient * inject_Z servings else 0)).
Proof.
  unfold add_ingredient, has_key, holds_amount.
  change (key_of (Ingredient.name ingredient) (Ingredient.unit ingredient))
    with (ingredient_key ingredient).
  destruct (String.eqb (ingredient_key ingredient) key) eqn:E.
  - apply String.eqb_eq in E. subst key.
    destruct (Py.dict_get g (ingredient_key ingredient)) as [c|];
      rewrite dict_get_set_eq.
    + intros [-> Hc]. split; [done|]. by rewrite Hc.
    + intros ->. split; [done|]. ring.
  - apply String.eqb_neq in E.
    assert (Py.dict_get (match Py.dict_get g (ingredient_key ingredient) with
              | Some current =>
                  Py.dict_set g (ingredient_key ingredient)
                    (current + Ingredient.amount ingredient * inject_Z servings)
              | None =>
                  Py.dict_set g (ingredient_key ingredient)
                    (Ingredient.amount ingredient * inject_Z servings)
              end) key = Py.dict_get g key) as ->.
    { destruct (Py.dict_get g (ingredient_key ingredient));
        by rewrite dict_get_set_ne. }
    destruct (Py.dict_get g key) as [c|].
    + intros [-> Hc]. split; [done|]. rewrite Hc. ring.
    + intros ->. done.
Qed.

Lemma holds_amount_weaken o present q q' :
  (present = true -> q == q') ->
  holds_amount o present q -> holds_amount o present q'.
Proof.
  intros Hq. destruct o; simpl; [|done]. intros [Hp Hv]. split; [done|].
  by rewrite Hv, (Hq Hp).
Qed.

Lemma recipe_demand_absent ingredients servings key :
  existsb (has_key key) ingredients = false ->
  recipe_demand ingredients servings key == 0.
Proof.
  induction ingredients as [|ing l IH]; simpl; [reflexivity|].
  intros [H1 H2]%orb_false_iff. rewrite H1, (IH H2). ring.
Qed.

Lemma add_recipe_get servings ingredients g key present q :
  holds_amount (Py.dict_get g key) present q ->
  holds_amount
    (Py.dict_get (fold_left (add_ingredient servings) ingredients g) key)
    (present || existsb (has_key key) ingredients)
    ((if present then q else 0) + recipe_demand ingredients servings key).
Proof.
  revert g present q. induction ingredients as [|ing l IH];
    intros g present q Hg; simpl.
  - rewrite orb_false_r.
    eapply holds_amount_weaken; [|exact Hg]. intros ->. ring.
  - apply (add_ingredient_get servings _ ing) in Hg.
    apply IH in Hg. rewrite <- orb_assoc in Hg.
    eapply holds_amount_weaken; [|exact Hg]. intros _.
    destruct present, (has_key key ing); simpl; ring.
Qed.

Lemma demand_absent meal_plan key :
  occurs meal_plan key = false -> demand meal_plan key == 0.
Proof.
  induction meal_plan as [|[r s] l IH]; simpl; [reflexivity|].
  intros [H1 H2]%orb_false_iff.
  rewrite (recipe_demand_absent _ _ _ H1), (IH H2). ring.
Qed.

Lemma add_plan_get meal_plan g key present q :
  holds_amount (Py.dict_get g key) present q ->
  holds_amount
    (Py.dict_get
       (fold_left
          (fun g e => fold_left (add_ingredient e.2) (Recipe.ingredients e.1) g)
          meal_plan g) key)
    (present || occurs meal_plan key)
    ((if present then q else 0) + demand meal_plan key).
Proof.
  revert g present q. induction meal_plan as [|[r s] l IH];
    intros g present q Hg; simpl.
  - rewrite orb_false_r.
    eapply holds_amount_weaken; [|exact Hg]. intros ->. ring.
  - apply (add_recipe_get s (Recipe.ingredients r)) in Hg.
    apply IH in Hg. rewrite <- orb_assoc in Hg.
    eapply holds_amount_weaken; [|exact Hg]. intros _.
    destruct present,
      (existsb (has_key key) (Recipe.ingredients r)) eqn:E; simpl;
      rewrite ?(recipe_demand_absent _ _ _ E); ring.
Qed.

(** Assignment keeps the keys of a dictionary distinct. *)
Lemma dict_set_keys {V} (d : list (string * V)) k v :
  map fst (Py.dict_set d k v)
  = if Py.dict_mem d k then map fst d else map fst d ++ [k].
Proof.
  unfold Py.dict_mem.
  induction d as [|[k' v'] d IH]; simpl; [done|].
  destruct (String.eqb k' k) eqn:E; simpl; [done|].
  rewrite IH. by destruct (Py.dict_get d k).
Qed.

Lemma dict_get_None_keys {V} (d : list (string * V)) k :
  Py.dict_get d k = None -> k ∉ map fst d.
Proof.
  induction d as [|[k' v'] d IH]; simpl.
  - intros _. apply not_elem_of_nil.
  - destruct (String.eqb k' k) eqn:E; [done|].
    apply String.eqb_neq in E.
    intros H. apply not_elem_of_cons. split; [done | by apply IH].
Qed.

Lemma dict_set_NoDup {V} (d : list (string * V)) k v :
  NoDup (map fst d) -> NoDup (map fst (Py.dict_set d k v)).
Proof.
  intros Hd. rewrite dict_set_keys. unfold Py.dict_mem.
  destruct (Py.dict_get d k) eqn:E; [done|].
  apply NoDup_app. split; [done|]. split; [|apply NoDup_singleton].
  intros x Hx ->%list_elem_of_singleton.
  by apply (dict_get_None_keys d k).
Qed.

Lemma calculate_grocery_list_NoDup meal_plan :
  NoDup (map fst (calculate_grocery_list meal_plan)).
Proof.
  rewrite calculate_grocery_list_fold.
  assert (NoDup (map fst (@nil (string * Q)))) as H by constructor.
  revert H. generalize (@nil (string * Q)).
  induction meal_plan as [|[r s] l IH]; intros g Hg; simpl; [done|].
  apply IH. clear IH. revert g Hg.
  induction (Recipe.ingredients r) as [|ing ings IH]; intros g Hg; simpl; [done|].
  apply IH. unfold add_ingredient.
  destruct (Py.dict_get g _); by apply dict_set_NoDup.
Qed.

Lemma normalized_ingredient_id ingredient :
  standardized ingredient -> normalized_ingredient ingredient = ingredient.
Proof.
  unfold standardized, normalized_ingredient. intros ->. by destruct ingredient.
Qed.

End BasketFacts.

(** C6 (amended).  The grocery basket built from a selection maps each key
    ["name (unit)"], made of an ingredient's name and its unit as the recipe
    stores them, to the sum of amount times servings over all ingredients of
    the selection with that name and unit; every ingredient of the
    selection has its key in the basket, a key is present exactly when some
    ingredient has it, and no key occurs twice.  No unit conversion takes
    place: the basket equals the one computed from standardised amounts when
    every ingredient is already in the unit [standardize_units] gives it. *)
Theorem grocery_basket_sums_by_name_and_unit
    (meal_plan : list (Recipe.t * Z)) (key : string) :
  let basket := OptimizationService.calculate_grocery_list meal_plan in
  match Py.dict_get basket key with
  | Some quantity =>
      BasketSpec.occurs meal_plan key = true
      /\ quantity == BasketSpec.demand meal_plan key
  | None => BasketSpec.occurs meal_plan key = false
  end
  /\ (forall recipe servings ingredient,
        (recipe, servings) ∈ meal_plan ->
        ingredient ∈ Recipe.ingredients recipe ->
        exists quantity,
          Py.dict_get basket
            (Ingredient.name ingredient +:+ " (" +:+ Ingredient.unit ingredient
             +:+ ")")
          = Some quantity)
  /\ NoDup (map fst basket)
  /\ ((forall recipe servings ingredient,
         (recipe, servings) ∈ meal_plan ->
         ingredient ∈ Recipe.ingredients recipe ->
         BasketSpec.standardized ingredient) ->
      basket = BasketSpec.normalized_grocery_list meal_plan).
Proof.
  intros basket.
  assert (forall key,
            BasketSpec.holds_amount (Py.dict_get basket key)
              (BasketSpec.occurs meal_plan key)
              (BasketSpec.demand meal_plan key)) as Hget.
  { intros k. subst basket. rewrite calculate_grocery_list_fold.
    pose proof (add_plan_get meal_plan [] k false 0) as H.
    simpl in H. specialize (H eq_refl).
    eapply holds_amount_weaken; [|exact H]. intros _. ring. }
  split; [|split; [|split]].
  - specialize (Hget key). by destruct (Py.dict_get basket key).
  - intros recipe servings ingredient Hr Hi.
    specialize (Hget (Ingredient.name ingredient +:+ " ("
                      +:+ Ingredient.unit ingredient +:+ ")")).
    destruct (Py.dict_get basket _) as [quantity|]; [by eexists|].
    simpl in Hget. exfalso.
    assert (BasketSpec.occurs meal_plan
              (Ingredient.name ingredient +:+ " ("
               +:+ Ingredient.unit ingredient +:+ ")") = true) as Hocc.
    { unfold BasketSpec.occurs. apply existsb_exists.
      exists (recipe, servings). split; [by apply list_elem_of_In|].
      apply existsb_exists. exists ingredient.
      split; [by apply list_elem_of_In|].
      unfold BasketSpec.has_key, BasketSpec.key_of. apply String.eqb_refl. }
    congruence.
  - apply calculate_grocery_list_NoDup.
  - intros Hstd. subst basket. unfold BasketSpec.normalized_grocery_list.
    f_equal. clear Hget. induction meal_plan as [|[r s] l IH]; simpl; [done|].
    rewrite <- IH.
    + f_equal. f_equal. destruct r as [? ? ? ings ? ? ? ? ? ? ? ? ? ? ?].
      unfold BasketSpec.normalized_recipe. simpl. f_equal.
      assert (forall ing, ing ∈ ings -> BasketSpec.standardized ing) as Hings.
      { intros ing Hing. eapply (Hstd _ s ing); [apply list_elem_of_here|done]. }
      clear -Hings. induction ings as [|ing ings IH]; simpl; [done|].
      rewrite normalized_ingredient_id by (apply Hings; apply list_elem_of_here).
      f_equal. apply IH. intros ? ?. apply Hings. by apply list_elem_of_further.
    + intros r' s' ing Hin. apply (Hstd r' s'). by apply list_elem_of_further.
Qed.

(** The theorem at two servings of the rice bowl, whose rice is given in
    kilograms: the key ["Rice (kg)"] holds 2, the raw amount times the
    servings; and at a selection whose ingredients are all given in grams
    or millilitres, where the basket is the standardised one. *)
Lemma grocery_basket_sums_by_name_and_unit_witness :
  (exists quantity,
     Py.dict_get
       (OptimizationService.calculate_grocery_list [(Samples.rice_bowl, 2%Z)])
       "Rice (kg)"
     = Some quantity
     /\ quantity == 2)
  /\ (let meal_plan :=
        [(Samples.vegetable_stir_fry, 2%Z); (Samples.grilled_chicken_salad, 1%Z)]
      in
      OptimizationService.calculate_grocery_list meal_plan
      = BasketSpec.normalized_grocery_list meal_plan).
Proof.
  split.
  - destruct (grocery_basket_sums_by_name_and_unit [(Samples.rice_bowl, 2%Z)]
                "Rice (kg)") as [Hkey _].
    cbv zeta in Hkey.
    destruct (Py.dict_get
                (OptimizationService.calculate_grocery_list
                   [(Samples.rice_bowl, 2%Z)]) "Rice (kg)") as [quantity|];
      [|discriminate Hkey].
    exists quantity. split; [reflexivity|].
    destruct Hkey as [_ ->]. by vm_compute.
  - intros meal_plan.
    apply (grocery_basket_sums_by_name_and_unit meal_plan "Broccoli (g)").
    intros recipe servings ingredient Hr Hi.
    unfold meal_plan in Hr.
    repeat (apply elem_of_cons in Hr as [Hr|Hr];
            [injection Hr as -> _; simpl in Hi;
             repeat (apply elem_of_cons in Hi as [->|Hi]; [reflexivity|]);
             by apply elem_of_nil in Hi|]).
    by apply elem_of_nil in Hr.
Defined.

(** C6, as stated, fails: amounts are not brought to a canonical unit.  Two
    servings of the rice bowl, whose rice is given as 1 kg, put 2 under the
    key ["Rice (kg)"] and nothing under ["Rice (g)"], where the basket of
    standardised amounts holds 2000. *)
Lemma basket_keeps_raw_units :
  let meal_plan := [(Samples.rice_bowl, 2%Z)] in
  let basket := OptimizationService.calculate_grocery_list meal_plan in
  Py.dict_get basket "Rice (kg)" = Some 2
  /\ Py.dict_get basket "Rice (g)" = None
  /\ Py.dict_get (BasketSpec.normalized_grocery_list meal_plan) "Rice (g)"
     = Some 2000
  /\ ingredient_utils.standardize_units "Rice" 1 "kg" = (1 * 1000, "g"%string)
  /\ basket <> BasketSpec.normalized_grocery_list meal_plan.
Proof. by vm_compute. Qed.

(** ** The linear solver *)

Section SolverFacts.
Import pywraplp.

Lemma holdsb_holds c solution : holdsb c solution = true <-> holds c solution.
Proof. unfold holdsb, holds. destruct (sense c); apply Qle_bool_iff. Qed.

(** Values equal as rationals give equal evaluations. *)
Lemma solution_value_proper (a b : list Q) i :
  Forall2 Qeq a b -> solution_value a i == solution_value b i.
Proof.
  unfold solution_value. intros H. revert i.
  induction H as [|x y a b Hxy Hab IH]; intros [|i]; simpl;
    [reflexivity | reflexivity | done | apply IH].
Qed.

Lemma eval_proper e (a b : list Q) :
  Forall2 Qeq a b -> eval e a == eval e b.
Proof.
  intros H. induction e as [|[i c] e IH]; simpl; [reflexivity|].
  by rewrite IH, (solution_value_proper a b i H).
Qed.

Lemma holds_proper c (a b : list Q) :
  Forall2 Qeq a b -> holds c a -> holds c b.
Proof.
  intros H. unfold holds.
  pose proof (eval_proper (expr c) a b H) as He.
  destruct (sense c); by rewrite He.
Qed.

Lemma integral_inject z : integral (inject_Z z).
Proof. exists z. reflexivity. Qed.

Lemma int_integral v z : v == inject_Z z -> Py.int v = z.
Proof.
  unfold Py.int, Qeq. destruct v as [n d]. simpl. intros H.
  rewrite Z.mul_1_r in H. subst n. by apply Z.quot_mul.
Qed.

End SolverFacts.

Section ReferenceSolverFacts.
Import pywraplp ReferenceSolver.

Lemma domain_spec x v :
  v ∈ domain x <->
  exists z, v = inject_Z z /\ (Qceiling (var_lb x) <= z <= Qfloor (var_ub x))%Z.
Proof.
  unfold domain. rewrite list_elem_of_In, in_map_iff. split.
  - intros (k & <- & Hk). apply in_seq in Hk.
    eexists. split; [done|]. lia.
  - intros (z & -> & Hz).
    exists (Z.to_nat (z - Qceiling (var_lb x))). split.
    + f_equal. lia.
    + apply in_seq. lia.
Qed.

Lemma domain_bounds x z :
  (Qceiling (var_lb x) <= z <= Qfloor (var_ub x))%Z ->
  var_lb x <= inject_Z z <= var_ub x.
Proof.
  intros [Hlo Hhi]. split.
  - eapply Qle_trans; [apply Qle_ceiling|]. by rewrite <- Zle_Qle.
  - eapply Qle_trans; [|apply Qfloor_le]. by rewrite <- Zle_Qle.
Qed.

Lemma assignments_spec xs solution :
  solution ∈ assignments xs <-> Forall2 (fun x v => v ∈ domain x) xs solution.
Proof.
  revert solution. induction xs as [|x xs IH]; intros solution; simpl.
  - rewrite list_elem_of_singleton. split; [intros ->; constructor|].
    by intros ->%Forall2_nil_inv_l.
  - rewrite list_elem_of_bind. split.
    + intros (v & Hsol & Hv).
      apply list_elem_of_bind in Hsol as (rest & Hsol & Hrest).
      apply list_elem_of_singleton in Hsol as ->.
      constructor; [done | by apply IH].
    + intros H. inversion H as [|? v ? rest Hv Hrest]; subst.
      exists v. split; [|done].
      apply list_elem_of_bind. exists rest. split; [|by apply IH].
      by apply list_elem_of_singleton.
Qed.

Lemma satisfies_all_spec m solution :
  satisfies_all m solution = true <-> Forall (fun c => holds c solution) (constraints m).
Proof.
  unfold satisfies_all. rewrite forallb_forall, Forall_forall.
  setoid_rewrite <- list_elem_of_In. by setoid_rewrite holdsb_holds.
Qed.

(** The candidates the search keeps are the assignments the model allows. *)
Lemma candidate_feasible m solution :
  solution ∈ List.filter (satisfies_all m) (assignments (variables m)) ->
  feasible m solution.
Proof.
  rewrite list_elem_of_In, filter_In, <- list_elem_of_In.
  intros [Hin Hadm]. split; [|by apply satisfies_all_spec].
  apply assignments_spec in Hin.
  eapply Forall2_impl; [exact Hin|]. simpl.
  intros x v (z & -> & Hz)%domain_spec.
  split; [apply integral_inject | by apply domain_bounds].
Qed.

Lemma feasible_candidate m solution :
  feasible m solution ->
  exists solution',
    Forall2 Qeq solution solution'
    /\ solution' ∈ List.filter (satisfies_all m) (assignments (variables m)).
Proof.
  intros [Hvars Hcons].
  exists (map (fun v => inject_Z (Qfloor v)) solution).
  assert (Forall2 Qeq solution (map (fun v => inject_Z (Qfloor v)) solution))
    as Heq.
  { clear Hcons. induction Hvars as [|x v xs vs [[z Hz] _] _ IH]; simpl;
      constructor; [|done].
    by rewrite Hz, Qfloor_Z. }
  split; [done|].
  rewrite list_elem_of_In, filter_In, <- list_elem_of_In. split.
  - apply assignments_spec. clear Hcons Heq.
    induction Hvars as [|x v xs vs [[z Hz] [Hlo Hhi]] _ IH]; simpl;
      constructor; [|done].
    apply domain_spec. exists z. split.
    + by rewrite (Qfloor_comp _ _ Hz), Qfloor_Z.
    + rewrite Hz in Hlo, Hhi. split.
      * rewrite <- (Qceiling_Z z). by apply Qceiling_resp_le.
      * rewrite <- (Qfloor_Z z) at 1. by apply Qfloor_resp_le.
  - apply satisfies_all_spec.
    eapply Forall_impl; [exact Hcons|]. simpl.
    intros c Hc. by eapply holds_proper.
Qed.

Lemma best_candidate m first others :
  fold_left (fun best a => if improves m a best then a else best) others first
  ∈ first :: others.
Proof.
  revert first. induction others as [|a others IH]; intros first; simpl.
  - apply list_elem_of_here.
  - destruct (improves m a first).
    + apply list_elem_of_further, IH.
    + specialize (IH first). apply elem_of_cons in IH as [->|IH].
      * apply list_elem_of_here.
      * by do 2 apply list_elem_of_further.
Qed.

(** The exhaustive search is an exact solver. *)
#[export] Instance exhaustive_exact : ExactSolver exhaustive.
Proof.
  split.
  - intros m. unfold Solve, exhaustive.
    destruct (List.filter _ _) as [|first others] eqn:E; simpl; [done|].
    intros _. apply candidate_feasible. rewrite E. apply best_candidate.
  - intros m solution Hfeas. unfold Solve, exhaustive.
    destruct (feasible_candidate m solution Hfeas) as (s' & _ & Hin).
    destruct (List.filter _ _); [by apply elem_of_nil in Hin | done].
Qed.

End ReferenceSolverFacts.

(** ** Recipe selection *)

(** Membership in a concatenation, by search. *)
Ltac find_in_app :=
  solve [ assumption
        | apply list_elem_of_here
        | apply elem_of_app; left; find_in_app
        | apply elem_of_app; right; find_in_app ].

Section SelectionFacts.
Import OptimizationService pywraplp SelectionSpec.

Lemma nutrition_band_constraints recipes macro weekly m :
  constraints (nutrition_band recipes macro weekly m)
  = constraints m ++ band_constraints recipes macro weekly.
Proof.
  unfold nutrition_band, band_constraints.
  destruct (0 <? weekly)%Z; simpl; [|by rewrite app_nil_r].
  by rewrite <- app_assoc.
Qed.

Lemma nutrition_band_variables recipes macro weekly m :
  variables (nutrition_band recipes macro weekly m) = variables m.
Proof. unfold nutrition_band. by destruct (0 <? weekly)%Z. Qed.

Lemma variety_loop_constraints prefs (l : list nat) m :
  constraints
    (fold_left
       (fun solver i =>
          Add (mkConstraint [(i, 1)] LE
                 (inject_Z (UserPreferences.max_repeats_per_week prefs))) solver)
       l m)
  = constraints m ++ map (variety_constraint prefs) l.
Proof.
  revert m. induction l as [|i l IH]; intros m; simpl.
  - by rewrite app_nil_r.
  - rewrite IH. simpl. by rewrite <- app_assoc.
Qed.

Lemma variety_loop_variables prefs (l : list nat) m :
  variables
    (fold_left
       (fun solver i =>
          Add (mkConstraint [(i, 1)] LE
                 (inject_Z (UserPreferences.max_repeats_per_week prefs))) solver)
       l m)
  = variables m.
Proof. revert m. induction l as [|i l IH]; intros m; simpl; [done|]. by rewrite IH. Qed.

(** The constraints of the program, in the order the code adds them. *)
Lemma build_model_constraints recipes prefs days :
  constraints (build_model recipes prefs days)
  = band_constraints recipes Recipe.total_protein_g
      (weekly_target (UserPreferences.target_protein_g prefs) days)
    ++ band_constraints recipes Recipe.total_carbs_g
         (weekly_target (UserPreferences.target_carbs_g prefs) days)
    ++ band_constraints recipes Recipe.total_fat_g
         (weekly_target (UserPreferences.target_fat_g prefs) days)
    ++ band_constraints recipes Recipe.total_calories
         (weekly_target (UserPreferences.target_calories prefs) days)
    ++ [mkConstraint (weighted_sum recipes Recipe.total_cost) LE
          (UserPreferences.weekly_budget prefs)]
    ++ map (variety_constraint prefs) (seq 0 (length recipes))
    ++ [mkConstraint (weighted_sum recipes (fun _ => 1)) GE
          (inject_Z (3 * days))]
    ++ [mkConstraint
          (weighted_sum recipes (fun r => inject_Z (Recipe.cooking_time_min r)))
          LE
          (inject_Z (3 * days * UserPreferences.max_cooking_time_min prefs))].
Proof.
  unfold build_model, set_objective, add_constraints, weekly_targets.
  cbv beta zeta iota. cbn [constraints Add].
  rewrite variety_loop_constraints. cbn [constraints Add].
  rewrite !nutrition_band_constraints. cbn [constraints].
  by rewrite <- !app_assoc.
Qed.

Lemma build_model_variables recipes prefs days :
  variables (build_model recipes prefs days)
  = map (fun i : nat => mkIntVar 0 10 ("x[" +:+ pretty i +:+ "]"))
      (seq 0 (length recipes)).
Proof.
  unfold build_model, set_objective, add_constraints, weekly_targets.
  cbv beta zeta iota. cbn [variables Add].
  rewrite variety_loop_variables. cbn [variables Add].
  by rewrite !nutrition_band_variables.
Qed.

(** In an assignment the program allows, every value is a whole number
    between 0 and 10, one per recipe. *)
Lemma feasible_values recipes prefs days solution :
  feasible (build_model recipes prefs days) solution ->
  length solution = length recipes
  /\ forall i, (i < length recipes)%nat ->
       integral (solution_value solution i)
       /\ 0 <= solution_value solution i <= 10.
Proof.
  intros [Hvars _]. rewrite build_model_variables in Hvars.
  split.
  - apply Forall2_length in Hvars. by rewrite length_map, length_seq in Hvars.
  - intros i Hi. unfold solution_value. rewrite nth_lookup.
    destruct (solution !! i) as [v|] eqn:Hv.
    + eapply Forall2_lookup_r in Hvars as (x & Hx & Hint & Hb); [|exact Hv].
      change (map ?f ?l) with (f <$> l) in Hx.
      rewrite list_lookup_fmap in Hx.
      destruct (seq 0 (length recipes) !! i); [|done].
      injection Hx as <-. simpl in Hb. done.
    + apply lookup_ge_None in Hv. apply Forall2_length in Hvars.
      rewrite length_map, length_seq in Hvars. lia.
Qed.

Lemma feasible_constraint recipes prefs days solution c :
  feasible (build_model recipes prefs days) solution ->
  c ∈ constraints (build_model recipes prefs days) ->
  holds c solution.
Proof.
  intros [_ Hcons] Hc. rewrite Forall_forall in Hcons. by apply Hcons.
Qed.

(** The entries collected from a solution. *)
Lemma collect_elem recipes k solution recipe servings :
  (recipe, servings) ∈ collect recipes k solution <->
  exists i,
    recipes !! i = Some recipe
    /\ 0 < solution_value solution (k + i)
    /\ servings = Py.int (solution_value solution (k + i)).
Proof.
  revert k. induction recipes as [|r recipes IH]; intros k; simpl.
  - split; [by intros ?%elem_of_nil | by intros (i & ? & _)].
  - rewrite elem_of_app, IH. split.
    + intros [Hhere | (i & Hi & Hpos & ->)].
      * destruct (Py.Qltb _ _) eqn:E; [|by apply elem_of_nil in Hhere].
        apply list_elem_of_singleton in Hhere. injection Hhere as -> ->.
        apply Qltb_lt in E. exists 0%nat. by rewrite Nat.add_0_r.
      * exists (S i). by rewrite Nat.add_succ_r.
    + intros ([|i] & Hi & Hpos & ->).
      * left. rewrite Nat.add_0_r in *. injection Hi as ->.
        apply Qltb_lt in Hpos. rewrite Hpos. by apply list_elem_of_singleton.
      * right. exists i. by rewrite Nat.add_succ_r in *.
Qed.

Lemma weighted_total_app coeff s1 s2 :
  weighted_total coeff (s1 ++ s2)
  == weighted_total coeff s1 + weighted_total coeff s2.
Proof.
  induction s1 as [|[r s] s1 IH]; simpl; [ring|]. rewrite IH. ring.
Qed.

(** The weighted total of the collected selection is the value of the
    corresponding linear expression at the solution. *)
Lemma collect_total coeff recipes k solution :
  (forall i, (i < length recipes)%nat ->
     integral (solution_value solution (k + i))
     /\ 0 <= solution_value solution (k + i)) ->
  weighted_total coeff (collect recipes k solution)
  == eval (imap (fun i recipe => ((k + i)%nat, coeff recipe)) recipes) solution.
Proof.
  revert k. induction recipes as [|r recipes IH]; intros k Hvals; simpl.
  - reflexivity.
  - rewrite weighted_total_app, Nat.add_0_r.
    rewrite (imap_ext _ (fun i recipe => ((S k + i)%nat, coeff recipe)))
      by (intros; simpl; f_equal; lia).
    rewrite <- IH.
    2:{ intros i Hi. specialize (Hvals (S i)).
        rewrite Nat.add_succ_r in Hvals. apply Hvals. simpl. lia. }
    apply Qplus_inj_r.
    destruct (Hvals 0%nat) as [[z Hz] Hnn]; [simpl; lia|].
    rewrite Nat.add_0_r in Hz, Hnn.
    destruct (Py.Qltb _ _) eqn:E; simpl.
    + rewrite (int_integral _ _ Hz), <- Hz. ring.
    + apply Qltb_ge in E.
      assert (solution_value solution k == 0) as -> by by apply Qle_antisym.
      ring.
Qed.

Lemma servings_total_weighted selection :
  inject_Z (servings_total selection) == weighted_total (fun _ => 1) selection.
Proof.
  induction selection as [|[r s] l IH]; simpl; [reflexivity|].
  rewrite inject_Z_plus, IH. ring.
Qed.

Lemma weekly_target_positive target days :
  (0 < days)%Z -> (0 <? weekly_target target days)%Z = positive target.
Proof.
  intros Hd. destruct target as [t|]; simpl; [|done].
  destruct (Z.eqb_spec t 0) as [->|Hne]; [done|].
  destruct (Z.ltb_spec 0 t); [apply Z.ltb_lt | apply Z.ltb_ge]; nia.
Qed.

(** Adding to an expression gives an expression. *)
Lemma fold_add_expression (l : list Operand) terms offset :
  exists terms' offset',
    fold_left add l (Expression terms offset) = Expression terms' offset'.
Proof.
  revert terms offset. induction l as [|b l IH]; intros terms offset; simpl.
  - eauto.
  - destruct b; apply IH.
Qed.

Lemma actual_nil coeff : actual [] coeff = Number 0.
Proof. reflexivity. Qed.

Lemma actual_expression recipes coeff :
  recipes <> [] ->
  exists terms offset, actual recipes coeff = Expression terms offset.
Proof.
  destruct recipes as [|r recipes]; [done|]. intros _.
  unfold actual, sum_operands. cbn [imap fold_left term add].
  apply fold_add_expression.
Qed.

(** A deviation is a number, unless [abs] meets an expression. *)
Lemma deviation_cases recipes macro weekly :
  match recipes with
  | [] => exists v, deviation recipes macro weekly = Returned (Number v)
  | _ =>
      if (0 <? weekly)%Z
      then deviation recipes macro weekly = Raised bad_operand
      else deviation recipes macro weekly = Returned (Number 0)
  end.
Proof.
  unfold deviation. destruct recipes as [|r recipes].
  - destruct (0 <? weekly)%Z; [|eauto].
    rewrite actual_nil. simpl. eauto.
  - destruct (0 <? weekly)%Z; [|done].
    destruct (actual_expression (r :: recipes) macro) as (terms & offset & ->);
      done.
Qed.

(** Lines 98 to 125 end in [TypeError] exactly when a nutrition target is
    set and the pool has a recipe. *)
Lemma objective_expr_cases recipes prefs days :
  (0 < days)%Z ->
  if deviation_of_expression recipes prefs
  then objective_expr recipes prefs days = Raised bad_operand
  else exists v, objective_expr recipes prefs days = Returned v.
Proof.
  intros Hd. unfold objective_expr, weekly_targets.
  pose proof (deviation_cases recipes Recipe.total_protein_g
                (weekly_target (UserPreferences.target_protein_g prefs) days)) as Hp.
  pose proof (deviation_cases recipes Recipe.total_carbs_g
                (weekly_target (UserPreferences.target_carbs_g prefs) days)) as Hc.
  pose proof (deviation_cases recipes Recipe.total_fat_g
                (weekly_target (UserPreferences.target_fat_g prefs) days)) as Hf.
  pose proof (deviation_cases recipes Recipe.total_calories
                (weekly_target (UserPreferences.target_calories prefs) days)) as Hk.
  destruct recipes as [|r recipes].
  - destruct Hp as [p ->], Hc as [c ->], Hf as [f ->], Hk as [k ->].
    simpl. eauto.
  - rewrite !weekly_target_positive in Hp, Hc, Hf, Hk by done.
    unfold deviation_of_expression, targeted.
    destruct (positive (UserPreferences.target_protein_g prefs));
      rewrite Hp; [done|].
    destruct (positive (UserPreferences.target_carbs_g prefs));
      rewrite Hc; [done|].
    destruct (positive (UserPreferences.target_fat_g prefs));
      rewrite Hf; [done|].
    destruct (positive (UserPreferences.target_calories prefs));
      rewrite Hk; [done|].
    simpl. eauto.
Qed.

(** The three ways [optimize_meal_plan] ends. *)
Lemma optimize_meal_plan_cases {backend : Solver} recipes prefs days :
  (0 < days)%Z ->
  let m := build_model recipes prefs days in
  optimize_meal_plan recipes prefs days
  = if deviation_of_expression recipes prefs
    then ([], Raised bad_operand)
    else if solved (Solve m).1
    then ([Solved m], Returned (collect recipes 0 (Solve m).2))
    else ([Solved m;
           Printed "Could not find solution with current constraints. Consider relaxing some requirements."],
          Returned []).
Proof.
  intros Hd m. unfold optimize_meal_plan, solve, _relax_and_solve.
  fold (build_model recipes prefs days). fold m.
  pose proof (objective_expr_cases recipes prefs days Hd) as Hobj.
  destruct (deviation_of_expression recipes prefs).
  - by rewrite Hobj.
  - destruct Hobj as [v ->].
    unfold mbind, mret, Run_bind, Run_ret, bind, ret, emit, call. simpl.
    destruct (Solve m) as [status solution]. by destruct status.
Qed.

(** A run that returns has reached the solver. *)
Lemma optimize_meal_plan_returned {backend : Solver} recipes prefs selection :
  outcome (optimize_meal_plan recipes prefs 7) = Returned selection ->
  deviation_of_expression recipes prefs = false.
Proof.
  rewrite optimize_meal_plan_cases by done. cbv zeta.
  by destruct (deviation_of_expression recipes prefs).
Qed.

(** What a returned selection is. *)
Lemma optimize_meal_plan_selection {backend : Solver} recipes prefs evs
    selection :
  optimize_meal_plan recipes prefs 7 = (evs, Returned selection) ->
  let m := build_model recipes prefs 7 in
  deviation_of_expression recipes prefs = false
  /\ (selection <> [] ->
      solved (Solve m).1 = true /\ selection = collect recipes 0 (Solve m).2).
Proof.
  intros Hrun m. split.
  - apply (optimize_meal_plan_returned recipes prefs selection).
    by rewrite Hrun.
  - revert Hrun. rewrite optimize_meal_plan_cases by done. cbv zeta. fold m.
    destruct (deviation_of_expression recipes prefs); [done|].
    destruct (solved (Solve m).1).
    + by intros [= _ <-].
    + by intros [= _ <-].
Qed.

(** The run of preferences without a nutrition target, or over an empty
    pool. *)
Lemma optimize_meal_plan_solves {backend : Solver} recipes prefs :
  deviation_of_expression recipes prefs = false ->
  let m := build_model recipes prefs 7 in
  optimize_meal_plan recipes prefs 7
  = if solved (Solve m).1
    then ([Solved m], Returned (collect recipes 0 (Solve m).2))
    else ([Solved m;
           Printed "Could not find solution with current constraints. Consider relaxing some requirements."],
          Returned []).
Proof.
  intros Hno m. rewrite optimize_meal_plan_cases by done. cbv zeta.
  by rewrite Hno.
Qed.

Lemma weighted_sum_total coeff recipes prefs days solution :
  feasible (build_model recipes prefs days) solution ->
  weighted_total coeff (collect recipes 0 solution)
  == eval (weighted_sum recipes coeff) solution.
Proof.
  intros Hfeas. apply (collect_total coeff recipes 0).
  intros i Hi. destruct (feasible_values _ _ _ _ Hfeas) as [_ Hvals].
  destruct (Hvals i Hi) as [Hint [Hnn _]]. done.
Qed.

Lemma band_holds recipes prefs days solution macro weekly :
  feasible (build_model recipes prefs days) solution ->
  band_constraints recipes macro weekly
    ⊆ constraints (build_model recipes prefs days) ->
  (0 < weekly)%Z ->
  within_band weekly (weighted_total macro (collect recipes 0 solution)).
Proof.
  intros Hfeas Hsub Hpos. unfold within_band.
  rewrite (weighted_sum_total macro _ _ _ _ Hfeas).
  unfold band_constraints in Hsub.
  apply Z.ltb_lt in Hpos. rewrite Hpos in Hsub.
  split.
  - apply (feasible_constraint _ _ _ _
             (mkConstraint (weighted_sum recipes macro) GE (inject_Z weekly * 0.8))
             Hfeas).
    apply Hsub. apply list_elem_of_here.
  - apply (feasible_constraint _ _ _ _
             (mkConstraint (weighted_sum recipes macro) LE (inject_Z weekly * 1.2))
             Hfeas).
    apply Hsub. apply list_elem_of_further, list_elem_of_here.
Qed.

(** What a selection collected from a feasible assignment satisfies. *)
Lemma feasible_selection recipes prefs solution :
  feasible (build_model recipes prefs 7) solution ->
  let selection := collect recipes 0 solution in
  weighted_total Recipe.total_cost selection <= UserPreferences.weekly_budget prefs
  /\ (forall recipe servings,
        (recipe, servings) ∈ selection ->
        (0 < servings <= 10 `min` UserPreferences.max_repeats_per_week prefs)%Z)
  /\ (21 <= servings_total selection)%Z
  /\ macro_in_band (UserPreferences.target_protein_g prefs)
       Recipe.total_protein_g selection
  /\ macro_in_band (UserPreferences.target_carbs_g prefs)
       Recipe.total_carbs_g selection
  /\ macro_in_band (UserPreferences.target_fat_g prefs)
       Recipe.total_fat_g selection
  /\ macro_in_band (UserPreferences.target_calories prefs)
       Recipe.total_calories selection.
Proof.
  intros Hfeas selection. subst selection.
  pose proof (build_model_constraints recipes prefs 7) as Hcons.
  destruct (feasible_values _ _ _ _ Hfeas) as [Hlen Hvals].
  split; [|split; [|split; [|split; [|split; [|split]]]]].
  - rewrite (weighted_sum_total _ _ _ _ _ Hfeas).
    apply (feasible_constraint _ _ _ _
             (mkConstraint (weighted_sum recipes Recipe.total_cost) LE
                (UserPreferences.weekly_budget prefs)) Hfeas).
    rewrite Hcons. find_in_app.
  - intros recipe servings (i & Hi & Hpos & ->)%collect_elem.
    simpl in Hpos |- *.
    apply lookup_lt_Some in Hi.
    destruct (Hvals i Hi) as [[z Hz] [_ Hle]].
    assert (holds (variety_constraint prefs i) solution) as Hvar.
    { apply (feasible_constraint _ _ _ _ _ Hfeas). rewrite Hcons.
      assert (variety_constraint prefs i
                ∈ map (variety_constraint prefs) (seq 0 (length recipes))) as Hin.
      { apply list_elem_of_In, in_map, in_seq. lia. }
      find_in_app. }
    unfold holds, variety_constraint in Hvar. simpl in Hvar.
    rewrite (int_integral _ _ Hz).
    rewrite Hz in Hpos, Hle, Hvar.
    change 0 with (inject_Z 0) in Hpos. rewrite <- Zlt_Qlt in Hpos.
    change 10 with (inject_Z 10) in Hle. rewrite <- Zle_Qle in Hle.
    assert (inject_Z z
            <= inject_Z (UserPreferences.max_repeats_per_week prefs)) as Hvar'.
    { eapply Qle_trans; [|exact Hvar]. apply Qle_lteq. right. ring. }
    rewrite <- Zle_Qle in Hvar'. lia.
  - rewrite Zle_Qle, servings_total_weighted.
    rewrite (weighted_sum_total _ _ _ _ _ Hfeas).
    apply (feasible_constraint _ _ _ _
             (mkConstraint (weighted_sum recipes (fun _ => 1)) GE
                (inject_Z (3 * 7))) Hfeas).
    rewrite Hcons. find_in_app.
  - intros Hpos. eapply (band_holds recipes prefs 7 solution); [done| |done].
    rewrite Hcons. intros c Hc. find_in_app.
  - intros Hpos. eapply (band_holds recipes prefs 7 solution); [done| |done].
    rewrite Hcons. intros c Hc. find_in_app.
  - intros Hpos. eapply (band_holds recipes prefs 7 solution); [done| |done].
    rewrite Hcons. intros c Hc. find_in_app.
  - intros Hpos. eapply (band_holds recipes prefs 7 solution); [done| |done].
    rewrite Hcons. intros c Hc. find_in_app.
Qed.

End SelectionFacts.

Section SelectionClaims.
Import OptimizationService pywraplp SelectionSpec.
Context {backend : Solver} {exact : ExactSolver backend}.

(** A solved program yields a selection of at least 21 servings, so the
    empty list is returned only from the unsolved branch. *)
Lemma solved_selection_nonempty recipes prefs :
  solved (Solve (build_model recipes prefs 7)).1 = true ->
  collect recipes 0 (Solve (build_model recipes prefs 7)).2 <> [].
Proof.
  intros Hs Hnil. apply Solve_sound in Hs.
  destruct (feasible_selection recipes prefs _ Hs) as (_ & _ & Htot & _).
  rewrite Hnil in Htot. simpl in Htot. lia.
Qed.

Lemma infeasible_unsolved recipes prefs :
  infeasible_program recipes prefs ->
  solved (Solve (build_model recipes prefs 7)).1 = false.
Proof.
  intros Hinf. destruct (solved _) eqn:E; [|done].
  apply Solve_sound in E. by destruct (Hinf _ E).
Qed.

(** The servings of a feasible assignment, one entry per recipe. *)
Lemma zip_total coeff recipes k solution :
  (forall i, (i < length recipes)%nat ->
     integral (solution_value solution (k + i))) ->
  weighted_total coeff
    (zip recipes
       (map (fun i => Py.int (solution_value solution i))
          (seq k (length recipes))))
  == eval (imap (fun i recipe => ((k + i)%nat, coeff recipe)) recipes) solution.
Proof.
  revert k. induction recipes as [|r recipes IH]; intros k Hvals; simpl.
  - reflexivity.
  - rewrite Nat.add_0_r.
    rewrite (imap_ext _ (fun i recipe => ((S k + i)%nat, coeff recipe)))
      by (intros; simpl; f_equal; lia).
    rewrite <- IH.
    2:{ intros i Hi. specialize (Hvals (S i)).
        rewrite Nat.add_succ_r in Hvals. apply Hvals. simpl. lia. }
    destruct (Hvals 0%nat) as [z Hz]; [simpl; lia|].
    rewrite Nat.add_0_r in Hz.
    rewrite (int_integral _ _ Hz), <- Hz. ring.
Qed.

Lemma budget_too_low_infeasible recipes prefs :
  budget_too_low recipes prefs -> infeasible_program recipes prefs.
Proof.
  intros Hlow solution Hfeas.
  destruct (feasible_values _ _ _ _ Hfeas) as [Hlen Hvals].
  pose proof (build_model_constraints recipes prefs 7) as Hcons.
  set (servings := map (fun i => Py.int (solution_value solution i))
                     (seq 0 (length recipes))).
  assert (forall coeff,
            weighted_total coeff (zip recipes servings)
            == eval (weighted_sum recipes coeff) solution) as Htotal.
  { intros coeff. apply (zip_total coeff recipes 0).
    intros i Hi. by destruct (Hvals i Hi). }
  apply (Hlow servings). repeat split.
  - unfold servings. by rewrite length_map, length_seq.
  - apply Forall_forall. intros s Hs. unfold servings in Hs.
    apply list_elem_of_In, in_map_iff in Hs as (i & <- & Hi).
    apply in_seq in Hi.
    destruct (Hvals i) as [[z Hz] [Hlo Hhi]]; [lia|].
    rewrite (int_integral _ _ Hz). rewrite Hz in Hlo, Hhi.
    change 0 with (inject_Z 0) in Hlo. rewrite <- Zle_Qle in Hlo.
    change 10 with (inject_Z 10) in Hhi. rewrite <- Zle_Qle in Hhi. lia.
  - rewrite Zle_Qle, servings_total_weighted, Htotal.
    apply (feasible_constraint _ _ _ _
             (mkConstraint (weighted_sum recipes (fun _ => 1)) GE
                (inject_Z (3 * 7))) Hfeas).
    rewrite Hcons. find_in_app.
  - rewrite Htotal.
    apply (feasible_constraint _ _ _ _
             (mkConstraint (weighted_sum recipes Recipe.total_cost) LE
                (UserPreferences.weekly_budget prefs)) Hfeas).
    rewrite Hcons. find_in_app.
Qed.

Lemma collect_length recipes k solution :
  (length (collect recipes k solution) <= length recipes)%nat.
Proof.
  revert k. induction recipes as [|r recipes IH]; intros k; simpl; [lia|].
  rewrite length_app. specialize (IH (Datatypes.S k)).
  destruct (Py.Qltb _ _); simpl; lia.
Qed.

Lemma servings_total_bound selection :
  (forall recipe servings, (recipe, servings) ∈ selection -> (servings <= 10)%Z) ->
  (servings_total selection <= 10 * Z.of_nat (length selection))%Z.
Proof.
  induction selection as [|[r s] l IH]; intros Hall; simpl; [lia|].
  assert (s <= 10)%Z by (apply (Hall r); apply list_elem_of_here).
  assert (servings_total l <= 10 * Z.of_nat (length l))%Z.
  { apply IH. intros r' s' Hin. apply (Hall r'). by apply list_elem_of_further. }
  lia.
Qed.

(** With the cap of 10 servings per recipe, a pool of fewer than three
    recipes cannot reach 21 servings: the two default recipes alone never
    yield a plan. *)
Lemma small_pool_infeasible recipes prefs :
  (length recipes <= 2)%nat -> infeasible_program recipes prefs.
Proof.
  intros Hlen solution Hfeas.
  destruct (feasible_selection recipes prefs solution Hfeas)
    as (_ & Hservings & Htot & _).
  pose proof (collect_length recipes 0 solution) as Hcl.
  pose proof (servings_total_bound (collect recipes 0 solution)) as Hb.
  assert (servings_total (collect recipes 0 solution)
          <= 10 * Z.of_nat (length (collect recipes 0 solution)))%Z.
  { apply Hb. intros r s Hin. specialize (Hservings r s Hin). lia. }
  lia.
Qed.

End SelectionClaims.

(** C2 (amended).  Every non-empty selection returned by
    [optimize_meal_plan] (the empty list is what it returns when no
    solution is found) satisfies: the weighted total cost is at most the
    weekly budget; every recipe's servings is an integer with
    0 < servings <= min(10, max_repeats_per_week); and the servings add up
    to at least 21.  The solver is taken to be exact. *)
Theorem selection_meets_constraints {backend : pywraplp.Solver}
    {exact : pywraplp.ExactSolver backend} (recipes : list Recipe.t)
    (prefs : UserPreferences.t) (evs : list Event)
    (selection : list (Recipe.t * Z)) :
  OptimizationService.optimize_meal_plan recipes prefs 7
  = (evs, Returned selection) ->
  selection <> [] ->
  SelectionSpec.weighted_total Recipe.total_cost selection
  <= UserPreferences.weekly_budget prefs
  /\ (forall recipe servings,
        (recipe, servings) ∈ selection ->
        (0 < servings <= 10 `min` UserPreferences.max_repeats_per_week prefs)%Z)
  /\ (21 <= SelectionSpec.servings_total selection)%Z.
Proof.
  intros Hrun Hne.
  assert (SelectionSpec.deviation_of_expression recipes prefs = false) as Hno.
  { apply (optimize_meal_plan_returned recipes prefs selection).
    by rewrite Hrun. }
  rewrite (optimize_meal_plan_solves recipes prefs Hno) in Hrun.
  cbv zeta in Hrun.
  destruct (pywraplp.solved _) eqn:E.
  - injection Hrun as <- <-.
    apply pywraplp.Solve_sound in E.
    destruct (feasible_selection recipes prefs _ E) as (Hc & Hs & Ht & _).
    split; [exact Hc | split; [exact Hs | exact Ht]].
  - injection Hrun as _ <-. done.
Qed.

(** The theorem for the sample pool with a budget of 200, no nutrition
    target and at most 10 repeats, solved exhaustively. *)
Lemma selection_meets_constraints_witness :
  let selection :=
    [ (Samples.vegetable_stir_fry, 10%Z); (Samples.grilled_chicken_salad, 1%Z);
      (Samples.rice_bowl, 10%Z) ] in
  SelectionSpec.weighted_total Recipe.total_cost selection <= 200
  /\ (forall recipe servings,
        (recipe, servings) ∈ selection -> (0 < servings <= 10 `min` 10)%Z)
  /\ (21 <= SelectionSpec.servings_total selection)%Z.
Proof.
  apply (selection_meets_constraints (backend := ReferenceSolver.exhaustive)
           Samples.pool (Samples.preferences 200 10)
           (events
              (OptimizationService.optimize_meal_plan
                 (backend := ReferenceSolver.exhaustive) Samples.pool
                 (Samples.preferences 200 10) 7))).
  - vm_compute. reflexivity.
  - discriminate.
Defined.

(** C2, as stated, fails for the empty selection: with a budget of 50 the
    sample pool has no solution, [optimize_meal_plan] returns the empty
    list, and its servings do not add up to 21. *)
Lemma empty_selection_returned :
  outcome
    (OptimizationService.optimize_meal_plan (backend := ReferenceSolver.exhaustive)
       Samples.pool (Samples.preferences 50 10) 7)
  = Returned []
  /\ ~ (21 <= SelectionSpec.servings_total [])%Z.
Proof.
  split; [by vm_compute|]. simpl. lia.
Qed.

Section InfeasibleRun.
Import OptimizationService pywraplp SelectionSpec.
Context {backend : Solver} {exact : ExactSolver backend}.

Lemma infeasible_run recipes prefs :
  deviation_of_expression recipes prefs = false ->
  infeasible_program recipes prefs ->
  optimize_meal_plan recipes prefs 7
  = ([Solved (build_model recipes prefs 7);
      Printed "Could not find solution with current constraints. Consider relaxing some requirements."],
     Returned []).
Proof.
  intros Hno Hinf. rewrite (optimize_meal_plan_solves recipes prefs Hno).
  cbv zeta. by rewrite (infeasible_unsolved recipes prefs Hinf).
Qed.

Lemma empty_run_infeasible recipes prefs :
  outcome (optimize_meal_plan recipes prefs 7) = Returned [] ->
  infeasible_program recipes prefs.
Proof.
  intros Hout.
  pose proof (optimize_meal_plan_returned recipes prefs [] Hout) as Hno.
  rewrite (optimize_meal_plan_solves recipes prefs Hno) in Hout.
  cbv zeta in Hout.
  intros solution Hfeas.
  pose proof (Solve_complete _ _ Hfeas) as Hs.
  rewrite Hs in Hout. unfold outcome in Hout. simpl in Hout.
  injection Hout as Hnil.
  by apply (solved_selection_nonempty recipes prefs Hs).
Qed.

(** With a nutrition target and a recipe in the pool the run stops before
    the solver is called. *)
Lemma targeted_run recipes prefs :
  deviation_of_expression recipes prefs = true ->
  optimize_meal_plan recipes prefs 7 = ([], Raised bad_operand).
Proof.
  intros Hyes. rewrite optimize_meal_plan_cases by done. cbv zeta.
  by rewrite Hyes.
Qed.

(** The caller turns the empty list into an error. *)
Lemma generate_meal_plan_infeasible recipes_table price_database today_weekday
    prefs :
  let filtered_recipes :=
    RecipeService.filter_recipes recipes_table
      (UserPreferences.dietary_restrictions prefs)
      (UserPreferences.allergies prefs)
      (UserPreferences.max_cooking_time_min prefs)
      (UserPreferences.preferred_cuisines prefs) in
  filtered_recipes <> [] ->
  targeted prefs = false ->
  infeasible_program filtered_recipes prefs ->
  outcome
    (MealPlannerService.generate_meal_plan recipes_table price_database
       today_weekday prefs)
  = Raised (ValueError "Could not generate a meal plan within your constraints").
Proof.
  intros filtered Hne Hno Hinf. unfold MealPlannerService.generate_meal_plan.
  fold filtered. rewrite (infeasible_run filtered prefs); [|by destruct filtered|done].
  by destruct filtered.
Qed.

End InfeasibleRun.

(** C1 (amended).  For preferences that set no nutrition target: when the
    integer program is infeasible, in particular when the weekly budget
    covers no combination of at least 21 servings of the candidate pool,
    [optimize_meal_plan] returns the empty list (there is no separate
    infeasible value); the empty list is returned only in that case; and
    the caller [generate_meal_plan] treats it as a failure, raising a
    [ValueError] instead of building a meal plan.  The solver is taken to
    be exact. *)
Theorem infeasible_program_returns_empty_list {backend : pywraplp.Solver}
    {exact : pywraplp.ExactSolver backend} (recipes : list Recipe.t)
    (prefs : UserPreferences.t) :
  SelectionSpec.targeted prefs = false ->
  let run := OptimizationService.optimize_meal_plan recipes prefs 7 in
  (SelectionSpec.budget_too_low recipes prefs ->
   SelectionSpec.infeasible_program recipes prefs)
  /\ (SelectionSpec.infeasible_program recipes prefs <->
      outcome run = Returned [])
  /\ (forall recipes_table price_database today_weekday,
        RecipeService.filter_recipes recipes_table
          (UserPreferences.dietary_restrictions prefs)
          (UserPreferences.allergies prefs)
          (UserPreferences.max_cooking_time_min prefs)
          (UserPreferences.preferred_cuisines prefs) = recipes ->
        recipes <> [] ->
        SelectionSpec.infeasible_program recipes prefs ->
        outcome
          (MealPlannerService.generate_meal_plan recipes_table price_database
             today_weekday prefs)
        = Raised
            (ValueError "Could not generate a meal plan within your constraints")).
Proof.
  intros Hno run. subst run.
  assert (SelectionSpec.deviation_of_expression recipes prefs = false) as Hno'.
  { unfold SelectionSpec.deviation_of_expression. by destruct recipes. }
  split; [|split].
  - apply budget_too_low_infeasible.
  - split.
    + intros Hinf. by rewrite (infeasible_run recipes prefs Hno' Hinf).
    + apply empty_run_infeasible.
  - intros table db w <- Hne Hinf. by apply generate_meal_plan_infeasible.
Qed.

(** With a weekly budget of 50 no combination of 21 servings of the sample
    pool is affordable: 21 servings cost at least 63. *)
Lemma sample_budget_too_low :
  SelectionSpec.budget_too_low Samples.pool (Samples.preferences 50 10).
Proof.
  intros servings (Hlen & Hall & Htot & Hcost).
  destruct servings as [|a [|b [|c [|d servings]]]]; try done.
  apply Forall_cons in Hall as [Ha Hall].
  apply Forall_cons in Hall as [Hb Hall].
  apply Forall_cons in Hall as [Hc _].
  simpl in Htot, Hcost.
  assert (0 <= inject_Z a) as Ha' by (change 0 with (inject_Z 0); rewrite <- Zle_Qle; lia).
  assert (0 <= inject_Z b) as Hb' by (change 0 with (inject_Z 0); rewrite <- Zle_Qle; lia).
  assert (0 <= inject_Z c) as Hc' by (change 0 with (inject_Z 0); rewrite <- Zle_Qle; lia).
  assert (21 <= inject_Z a + inject_Z b + inject_Z c) as Htot'.
  { change 21 with (inject_Z 21). rewrite <- !inject_Z_plus, <- Zle_Qle. lia. }
  lra.
Qed.

(** The theorem for the sample pool and a weekly budget of 50, solved
    exhaustively. *)
Lemma infeasible_program_returns_empty_list_witness :
  outcome
    (OptimizationService.optimize_meal_plan (backend := ReferenceSolver.exhaustive)
       Samples.pool (Samples.preferences 50 10) 7)
  = Returned [].
Proof.
  destruct (infeasible_program_returns_empty_list
              (backend := ReferenceSolver.exhaustive) Samples.pool
              (Samples.preferences 50 10) eq_refl)
    as (Hlow & Hrun & _).
  apply Hrun, Hlow, sample_budget_too_low.
Defined.

(** C1, as stated, fails: for the sample pool and a weekly budget of 50,
    which no combination of 21 servings meets, the solver is called exactly
    once (no second, relaxed attempt) and what comes back is the empty
    list itself. *)
Lemma infeasible_budget_solved_once_returns_nil :
  let run :=
    OptimizationService.optimize_meal_plan (backend := ReferenceSolver.exhaustive)
      Samples.pool (Samples.preferences 50 10) 7 in
  SelectionSpec.budget_too_low Samples.pool (Samples.preferences 50 10)
  /\ outcome run = Returned []
  /\ OptimizationService.solve_count (events run) = 1%nat
  /\ ~ (2 <= OptimizationService.solve_count (events run))%nat.
Proof.
  cbv zeta. split; [apply sample_budget_too_low|].
  vm_compute. repeat split; lia.
Qed.

(** ** Ingredient names and units *)

Section StringFacts.
Import Py.

Lemma lower_ascii_idem c : lower_ascii (lower_ascii c) = lower_ascii c.
Proof. by destruct c as [[] [] [] [] [] [] [] []]. Qed.

Lemma isspace_lower_ascii c : isspace (lower_ascii c) = isspace c.
Proof. by destruct c as [[] [] [] [] [] [] [] []]. Qed.

Lemma lower_idem s : lower (lower s) = lower s.
Proof.
  induction s as [|c s IH]; simpl; [done|]. by rewrite lower_ascii_idem, IH.
Qed.

Lemma lstrip_lower s : lstrip (lower s) = lower (lstrip s).
Proof.
  induction s as [|c s IH]; simpl; [done|].
  rewrite isspace_lower_ascii. by destruct (isspace c).
Qed.

Lemma rstrip_lower s : rstrip (lower s) = lower (rstrip s).
Proof.
  induction s as [|c s IH]; simpl; [done|].
  rewrite IH, isspace_lower_ascii.
  destruct (rstrip s); simpl; [|done]. by destruct (isspace c).
Qed.

Lemma strip_lower s : strip (lower s) = lower (strip s).
Proof. unfold strip. by rewrite lstrip_lower, rstrip_lower. Qed.

(** What is left of a string stripped on the left does not start with
    white space, and stripping on the right keeps the first character of
    such a string. *)
Lemma lstrip_head s :
  match lstrip s with
  | EmptyString => True
  | String c _ => isspace c = false
  end.
Proof.
  induction s as [|c s IH]; simpl; [done|].
  destruct (isspace c) eqn:E; [done|]. exact E.
Qed.

Lemma rstrip_head c s :
  isspace c = false -> exists r, rstrip (String c s) = String c r.
Proof.
  intros Hc. simpl. destruct (rstrip s); [|by eexists].
  rewrite Hc. by eexists.
Qed.

Lemma rstrip_idem s : rstrip (rstrip s) = rstrip s.
Proof.
  induction s as [|c s IH]; simpl; [done|].
  destruct (rstrip s) as [|c' r] eqn:Hr.
  - destruct (isspace c) eqn:Hc; simpl; [done|]. by rewrite Hc.
  - cbn [rstrip] in IH |- *. by rewrite IH.
Qed.

Lemma strip_idem s : strip (strip s) = strip s.
Proof.
  unfold strip. pose proof (lstrip_head s) as Hh.
  destruct (lstrip s) as [|c t]; [done|].
  destruct (rstrip_head c t Hh) as [r Hr]. rewrite Hr.
  cbn [lstrip]. rewrite Hh, <- Hr. apply rstrip_idem.
Qed.

(** The key [normalize_ingredient_name] looks up is its own key. *)
Lemma strip_lower_idem s : strip (lower (strip (lower s))) = strip (lower s).
Proof. by rewrite <- strip_lower, strip_idem, lower_idem. Qed.

Lemma dict_get_In {V} (d : list (string * V)) k v :
  dict_get d k = Some v -> (k, v) ∈ d.
Proof.
  induction d as [|[k' v'] d IH]; simpl; [done|].
  destruct (String.eqb k' k) eqn:E.
  - apply String.eqb_eq in E. intros [= ->]. subst. apply list_elem_of_here.
  - intros H. apply list_elem_of_further. by apply IH.
Qed.

End StringFacts.

Section IngredientNames.
Import Py ingredient_utils.

(** Every standard name of the reverse table is its own key and maps to
    itself. *)
Lemma standard_names_fixed k standard :
  dict_get VARIATION_TO_STANDARD k = Some standard ->
  strip (lower standard) = standard
  /\ dict_get VARIATION_TO_STANDARD standard = Some standard.
Proof.
  intros H%dict_get_In.
  assert (forallb
            (fun e : string * string =>
               String.eqb (strip (lower e.2)) e.2
               && match dict_get VARIATION_TO_STANDARD e.2 with
                  | Some s => String.eqb s e.2
                  | None => false
                  end)
            VARIATION_TO_STANDARD = true) as Hall by by vm_compute.
  rewrite forallb_forall in Hall.
  apply list_elem_of_In, Hall in H. cbn [fst snd] in H.
  apply andb_true_iff in H as [H1 H2]. apply String.eqb_eq in H1.
  split; [done|].
  destruct (dict_get VARIATION_TO_STANDARD standard) as [s|]; [|done].
  apply String.eqb_eq in H2. by subst.
Qed.

Lemma normalize_idem name :
  normalize_ingredient_name (normalize_ingredient_name name)
  = normalize_ingredient_name name.
Proof.
  unfold normalize_ingredient_name. cbv zeta.
  destruct (dict_get VARIATION_TO_STANDARD (strip (lower name)))
    as [standard|] eqn:E.
  - destruct (standard_names_fixed _ _ E) as [Hk Hget]. by rewrite Hk, Hget.
  - by rewrite strip_lower_idem, E.
Qed.

(** The keys of the reverse table are the listed variations. *)
Lemma variation_keys k standard :
  dict_get VARIATION_TO_STANDARD k = Some standard ->
  exists variations,
    (standard, variations) ∈ INGREDIENT_VARIATIONS /\ k ∈ variations.
Proof.
  intros H%dict_get_In.
  assert (forallb
            (fun e : string * string =>
               existsb
                 (fun sv : string * list string =>
                    String.eqb sv.1 e.2 && str_in e.1 sv.2)
                 INGREDIENT_VARIATIONS)
            VARIATION_TO_STANDARD = true) as Hall by by vm_compute.
  rewrite forallb_forall in Hall.
  apply list_elem_of_In, Hall in H. cbn [fst snd] in H.
  apply existsb_exists in H as ([s vs] & Hin & Hb). cbn [fst snd] in Hb.
  apply andb_true_iff in Hb as [Hs Hk]. apply String.eqb_eq in Hs. subst s.
  exists vs. split; [by apply list_elem_of_In|].
  unfold str_in in Hk. apply existsb_exists in Hk as (v & Hv & Heq).
  apply String.eqb_eq in Heq. subst v. by apply list_elem_of_In.
Qed.

(** Every listed variation is a key of the reverse table and maps to the
    standard name it is listed under. *)
Lemma variation_lookup standard variations v :
  (standard, variations) ∈ INGREDIENT_VARIATIONS ->
  v ∈ variations ->
  dict_get VARIATION_TO_STANDARD v = Some standard.
Proof.
  intros Hin Hv.
  assert (forallb
            (fun sv : string * list string =>
               forallb
                 (fun v =>
                    match dict_get VARIATION_TO_STANDARD v with
                    | Some s => String.eqb s sv.1
                    | None => false
                    end)
                 sv.2)
            INGREDIENT_VARIATIONS = true) as Hall by by vm_compute.
  rewrite forallb_forall in Hall.
  apply list_elem_of_In, Hall in Hin. cbn [fst snd] in Hin.
  rewrite forallb_forall in Hin.
  apply list_elem_of_In, Hin in Hv.
  destruct (dict_get VARIATION_TO_STANDARD v) as [s|]; [|done].
  apply String.eqb_eq in Hv. by subst.
Qed.

Lemma str_in_elem s l : str_in s l = true <-> s ∈ l.
Proof.
  unfold str_in. rewrite existsb_exists, list_elem_of_In. split.
  - intros (x & Hx & ->%String.eqb_eq). done.
  - intros H. exists s. by rewrite String.eqb_refl.
Qed.

Lemma standard_name_listed standard :
  standard ∈ get_standard_ingredient_names ->
  exists variations,
    (standard, variations) ∈ INGREDIENT_VARIATIONS /\ standard ∈ variations.
Proof.
  intros H.
  assert (forallb
            (fun sv : string * list string => str_in sv.1 sv.2)
            INGREDIENT_VARIATIONS = true) as Hall by by vm_compute.
  rewrite forallb_forall in Hall.
  unfold get_standard_ingredient_names in H.
  apply list_elem_of_In, in_map_iff in H as ([s vs] & <- & Hin).
  exists vs. split; [by apply list_elem_of_In|].
  apply str_in_elem. by apply (Hall (s, vs)).
Qed.

Lemma is_valid_normalize name :
  is_valid_ingredient (normalize_ingredient_name name)
  = is_valid_ingredient name.
Proof. unfold is_valid_ingredient. by rewrite normalize_idem. Qed.

End IngredientNames.

(** X1.  [normalize_ingredient_name] is a normal form: normalising twice
    changes nothing, letter case and surrounding white space of the input
    do not matter, and a name is valid exactly when its normal form is. *)
Theorem normalize_ingredient_name_canonical (name : string) :
  ingredient_utils.normalize_ingredient_name
    (ingredient_utils.normalize_ingredient_name name)
  = ingredient_utils.normalize_ingredient_name name
  /\ ingredient_utils.normalize_ingredient_name (Py.lower name)
     = ingredient_utils.normalize_ingredient_name name
  /\ ingredient_utils.normalize_ingredient_name (Py.strip name)
     = ingredient_utils.normalize_ingredient_name name
  /\ ingredient_utils.is_valid_ingredient
       (ingredient_utils.normalize_ingredient_name name)
     = ingredient_utils.is_valid_ingredient name.
Proof.
  split; [apply normalize_idem|]. split; [|split].
  - unfold ingredient_utils.normalize_ingredient_name. by rewrite lower_idem.
  - unfold ingredient_utils.normalize_ingredient_name.
    by rewrite <- strip_lower, strip_idem.
  - apply is_valid_normalize.
Qed.

(** X2.  A name is valid exactly when, lowercased and stripped, it is one of
    the variations listed in [INGREDIENT_VARIATIONS]; it then normalises to
    the standard name the variation is listed under (no variation is
    claimed by two standard names). *)
Theorem valid_ingredient_iff_listed_variation (name : string) :
  (ingredient_utils.is_valid_ingredient name = true <->
   exists standard variations,
     (standard, variations) ∈ ingredient_utils.INGREDIENT_VARIATIONS
     /\ Py.strip (Py.lower name) ∈ variations)
  /\ (forall standard variations,
        (standard, variations) ∈ ingredient_utils.INGREDIENT_VARIATIONS ->
        Py.strip (Py.lower name) ∈ variations ->
        ingredient_utils.normalize_ingredient_name name = standard).
Proof.
  assert (forall standard variations,
            (standard, variations) ∈ ingredient_utils.INGREDIENT_VARIATIONS ->
            Py.strip (Py.lower name) ∈ variations ->
            ingredient_utils.normalize_ingredient_name name = standard) as Hnorm.
  { intros standard variations Hin Hv.
    unfold ingredient_utils.normalize_ingredient_name. cbv zeta.
    by rewrite (variation_lookup _ _ _ Hin Hv). }
  split; [|exact Hnorm]. split.
  - unfold ingredient_utils.is_valid_ingredient. intros Hvalid%str_in_elem.
    unfold ingredient_utils.normalize_ingredient_name in Hvalid.
    cbv zeta in Hvalid.
    destruct (Py.dict_get ingredient_utils.VARIATION_TO_STANDARD
                (Py.strip (Py.lower name))) as [standard|] eqn:E.
    + destruct (variation_keys _ _ E) as (variations & Hin & Hk). eauto.
    + destruct (standard_name_listed _ Hvalid) as (variations & Hin & Hk).
      eauto.
  - intros (standard & variations & Hin & Hv).
    unfold ingredient_utils.is_valid_ingredient.
    rewrite (Hnorm _ _ Hin Hv). apply str_in_elem.
    unfold ingredient_utils.get_standard_ingredient_names.
    apply list_elem_of_In, in_map_iff. exists (standard, variations).
    split; [done|]. by apply list_elem_of_In.
Qed.

Section UnitFacts.
Import Py ingredient_utils.

Lemma convert_units_Returned amount from_unit to_unit x :
  convert_units amount from_unit to_unit = Returned x ->
  (from_unit = to_unit /\ x = amount)
  \/ exists conversions factor,
       from_unit <> to_unit
       /\ dict_get UNIT_CONVERSIONS from_unit = Some conversions
       /\ dict_get conversions to_unit = Some factor
       /\ x = amount * factor.
Proof.
  unfold convert_units.
  destruct (String.eqb from_unit to_unit) eqn:E.
  - apply String.eqb_eq in E. intros [= <-]. by left.
  - apply String.eqb_neq in E. cbv zeta.
    destruct (dict_get UNIT_CONVERSIONS from_unit) as [conversions|] eqn:Hc;
      [|done].
    destruct (dict_get conversions to_unit) as [factor|] eqn:Hf; [|done].
    intros [= <-]. right. by exists conversions, factor.
Qed.

(** Where the table converts in both directions, the two factors are
    inverse to each other. *)
Lemma conversion_factors_inverse u v cs f cs' f' :
  dict_get UNIT_CONVERSIONS u = Some cs ->
  dict_get cs v = Some f ->
  dict_get UNIT_CONVERSIONS v = Some cs' ->
  dict_get cs' u = Some f' ->
  f * f' == 1.
Proof.
  intros H1%dict_get_In H2 H3 H4.
  unfold UNIT_CONVERSIONS in H1.
  repeat (apply elem_of_cons in H1 as [H1|H1];
          [injection H1 as -> ->;
           apply dict_get_In in H2;
           repeat (apply elem_of_cons in H2 as [H2|H2];
                   [injection H2 as -> ->; vm_compute in H3;
                    try discriminate H3; injection H3 as <-;
                    vm_compute in H4; try discriminate H4;
                    injection H4 as <-; reflexivity|]);
           by apply elem_of_nil in H2|]).
  by apply elem_of_nil in H1.
Qed.

End UnitFacts.

(** X3.  Converting an amount to another unit and back gives the amount
    again, whenever both conversions are defined (kg and g, g and mg, l and
    ml, or a unit and itself). *)
Theorem convert_units_round_trip (amount : Q) (from_unit to_unit : string)
    (converted back : Q) :
  ingredient_utils.convert_units amount from_unit to_unit = Returned converted ->
  ingredient_utils.convert_units converted to_unit from_unit = Returned back ->
  back == amount.
Proof.
  intros Hto Hback.
  apply convert_units_Returned in Hto
    as [[Heq ->]|(cs & f & Hne & Hcs & Hf & ->)];
    apply convert_units_Returned in Hback
      as [[Heq' ->]|(cs' & f' & Hne' & Hcs' & Hf' & ->)].
  - reflexivity.
  - by destruct Hne'.
  - by destruct Hne.
  - rewrite <- Qmult_assoc,
      (conversion_factors_inverse _ _ _ _ _ _ Hcs Hf Hcs' Hf').
    ring.
Qed.

(** Two and a half kilograms, in grams and back. *)
Lemma convert_units_round_trip_witness : 2.5 * 1000 * 0.001 == 2.5.
Proof.
  apply (convert_units_round_trip 2.5 "kg" "g" (2.5 * 1000) (2.5 * 1000 * 0.001));
    reflexivity.
Defined.

(** The cases of [standardize_units]. *)
Lemma standardize_units_cases
    (ingredient_name : string) (amount : Q) (unit : string) :
  let '(standard_amount, standard_unit) :=
    ingredient_utils.standardize_units ingredient_name amount unit in
  (exists converted,
     ingredient_utils.convert_units amount unit standard_unit
     = Returned converted
     /\ converted == standard_amount)
  /\ (standard_unit = "g"%string \/ standard_unit = "ml"%string
      \/ (standard_unit = unit /\ standard_amount = amount))
  /\ ingredient_utils.standardize_units ingredient_name standard_amount
       standard_unit
     = (standard_amount, standard_unit).
Proof.
  unfold ingredient_utils.standardize_units, ingredient_utils.str_in.
  cbn [existsb orb].
  destruct (String.eqb unit "kg") eqn:Ekg;
    [apply String.eqb_eq in Ekg; subst unit; cbn [orb];
     split; [eexists; split; [reflexivity|ring]|]; split; [by left|done]|].
  destruct (String.eqb unit "mg") eqn:Emg;
    [apply String.eqb_eq in Emg; subst unit; cbn [orb];
     split; [eexists; split; [reflexivity|field]|]; split; [by left|done]|].
  destruct (String.eqb unit "lb") eqn:Elb;
    [apply String.eqb_eq in Elb; subst unit; cbn [orb];
     split; [eexists; split; [reflexivity|ring]|]; split; [by left|done]|].
  destruct (String.eqb unit "oz") eqn:Eoz;
    [apply String.eqb_eq in Eoz; subst unit; cbn [orb];
     split; [eexists; split; [reflexivity|ring]|]; split; [by left|done]|].
  cbn [orb].
  destruct (String.eqb unit "l") eqn:El;
    [apply String.eqb_eq in El; subst unit; cbn [orb];
     split; [eexists; split; [reflexivity|ring]|];
     split; [by right; left|done]|].
  destruct (String.eqb unit "tbsp") eqn:Etbsp;
    [apply String.eqb_eq in Etbsp; subst unit; cbn [orb];
     split; [eexists; split; [reflexivity|ring]|];
     split; [by right; left|done]|].
  destruct (String.eqb unit "tsp") eqn:Etsp;
    [apply String.eqb_eq in Etsp; subst unit; cbn [orb];
     split; [eexists; split; [reflexivity|ring]|];
     split; [by right; left|done]|].
  destruct (String.eqb unit "cup") eqn:Ecup;
    [apply String.eqb_eq in Ecup; subst unit; cbn [orb];
     split; [eexists; split; [reflexivity|ring]|];
     split; [by right; left|done]|].
  cbn [orb]. split; [|split].
  - exists amount. split; [|reflexivity].
    unfold ingredient_utils.convert_units. by rewrite String.eqb_refl.
  - by right; right.
  - by rewrite Ekg, Emg, Elb, Eoz, El, Etbsp, Etsp, Ecup.
Qed.

Lemma standardize_units_idem ingredient_name amount unit :
  ingredient_utils.standardize_units ingredient_name
    (ingredient_utils.standardize_units ingredient_name amount unit).1
    (ingredient_utils.standardize_units ingredient_name amount unit).2
  = ingredient_utils.standardize_units ingredient_name amount unit.
Proof.
  pose proof (standardize_units_cases ingredient_name amount unit) as H.
  destruct (ingredient_utils.standardize_units ingredient_name amount unit)
    as [a u].
  by destruct H as (_ & _ & H).
Qed.

(** A unit [standardize_units] leaves alone is none of the eight units it
    converts. *)
Lemma standardized_unit ingredient_name amount unit :
  ingredient_utils.standardize_units ingredient_name amount unit
  = (amount, unit) ->
  ingredient_utils.str_in unit
    ["kg"; "mg"; "lb"; "oz"; "l"; "tbsp"; "tsp"; "cup"]%string = false.
Proof.
  unfold ingredient_utils.standardize_units, ingredient_utils.str_in.
  cbn [existsb orb].
  destruct (String.eqb unit "kg") eqn:Ekg;
    [apply String.eqb_eq in Ekg; subst unit; by intros [= _]|].
  destruct (String.eqb unit "mg") eqn:Emg;
    [apply String.eqb_eq in Emg; subst unit; by intros [= _]|].
  destruct (String.eqb unit "lb") eqn:Elb;
    [apply String.eqb_eq in Elb; subst unit; by intros [= _]|].
  destruct (String.eqb unit "oz") eqn:Eoz;
    [apply String.eqb_eq in Eoz; subst unit; by intros [= _]|].
  cbn [orb].
  destruct (String.eqb unit "l") eqn:El;
    [apply String.eqb_eq in El; subst unit; by intros [= _]|].
  destruct (String.eqb unit "tbsp") eqn:Etbsp;
    [apply String.eqb_eq in Etbsp; subst unit; by intros [= _]|].
  destruct (String.eqb unit "tsp") eqn:Etsp;
    [apply String.eqb_eq in Etsp; subst unit; by intros [= _]|].
  destruct (String.eqb unit "cup") eqn:Ecup;
    [apply String.eqb_eq in Ecup; subst unit; by intros [= _]|].
  done.
Qed.

(** [convert_units] does the operation of [standardize_units], except for
    milligrams. *)
Lemma standardize_units_same_operation ingredient_name amount unit :
  unit <> "mg"%string ->
  ingredient_utils.convert_units amount unit
    (ingredient_utils.standardize_units ingredient_name amount unit).2
  = Returned (ingredient_utils.standardize_units ingredient_name amount unit).1.
Proof.
  intros Hmg.
  unfold ingredient_utils.standardize_units, ingredient_utils.str_in.
  cbn [existsb orb].
  destruct (String.eqb unit "kg") eqn:Ekg;
    [apply String.eqb_eq in Ekg; subst unit; reflexivity|].
  destruct (String.eqb unit "mg") eqn:Emg;
    [by apply String.eqb_eq in Emg|].
  destruct (String.eqb unit "lb") eqn:Elb;
    [apply String.eqb_eq in Elb; subst unit; reflexivity|].
  destruct (String.eqb unit "oz") eqn:Eoz;
    [apply String.eqb_eq in Eoz; subst unit; reflexivity|].
  cbn [orb].
  destruct (String.eqb unit "l") eqn:El;
    [apply String.eqb_eq in El; subst unit; reflexivity|].
  destruct (String.eqb unit "tbsp") eqn:Etbsp;
    [apply String.eqb_eq in Etbsp; subst unit; reflexivity|].
  destruct (String.eqb unit "tsp") eqn:Etsp;
    [apply String.eqb_eq in Etsp; subst unit; reflexivity|].
  destruct (String.eqb unit "cup") eqn:Ecup;
    [apply String.eqb_eq in Ecup; subst unit; reflexivity|].
  cbn [orb fst snd].
  unfold ingredient_utils.convert_units. by rewrite String.eqb_refl.
Qed.

(** X4.  [standardize_units] agrees with [convert_units].  The unit it
    returns is ["g"], ["ml"] or the unit given, and [convert_units] is
    always defined for it.  For every unit but ["mg"] the two functions do
    the same operation on the amount and return the same value.  For ["mg"],
    [standardize_units] divides by 1000 where [convert_units] multiplies
    by 0.001: the two amounts are equal as exact numbers, which is how the
    embedding reads floats; the rounded results of the program may differ
    in the last place.  Standardising a standardised amount changes
    nothing. *)
Theorem standardize_units_agrees_with_convert_units
    (ingredient_name : string) (amount : Q) (unit : string) :
  let '(standard_amount, standard_unit) :=
    ingredient_utils.standardize_units ingredient_name amount unit in
  (unit <> "mg"%string ->
   ingredient_utils.convert_units amount unit standard_unit
   = Returned standard_amount)
  /\ (unit = "mg"%string ->
      standard_unit = "g"%string
      /\ standard_amount = amount / 1000
      /\ ingredient_utils.convert_units amount unit standard_unit
         = Returned (amount * 0.001)
      /\ amount * 0.001 == amount / 1000)
  /\ (exists converted,
        ingredient_utils.convert_units amount unit standard_unit
        = Returned converted
        /\ converted == standard_amount)
  /\ (standard_unit = "g"%string \/ standard_unit = "ml"%string
      \/ (standard_unit = unit /\ standard_amount = amount))
  /\ ingredient_utils.standardize_units ingredient_name standard_amount
       standard_unit
     = (standard_amount, standard_unit).
Proof.
  pose proof (standardize_units_cases ingredient_name amount unit) as Hcases.
  pose proof (standardize_units_same_operation ingredient_name amount unit)
    as Hsame.
  assert (unit = "mg"%string ->
          ingredient_utils.standardize_units ingredient_name amount unit
          = (amount / 1000, "g"%string)) as Hmg by (by intros ->).
  destruct (ingredient_utils.standardize_units ingredient_name amount unit)
    as [standard_amount standard_unit].
  split; [exact Hsame|]. split; [|exact Hcases].
  intros Hu. specialize (Hmg Hu). injection Hmg as -> ->. subst unit.
  split; [done|]. split; [done|]. split; [reflexivity|]. field.
Qed.

(** ** Validation of generated recipes *)

Section GeneratorFacts.
Import ingredient_utils RecipeGeneratorService GeneratorSpec.
Variable ingredients_db : list IngredientInfo.t.

(** The validation loop keeps the accepted entries, corrected, in the
    order of the answer, and prints one warning per rejected entry. *)
Lemma validate_ingredients_spec ingredients validated :
  validate_ingredients ingredients_db ingredients validated
  = (map warning (List.filter (fun d => negb (accepted d)) ingredients),
     Returned
       (validated
        ++ map (corrected ingredients_db) (List.filter accepted ingredients))).
Proof.
  revert validated.
  induction ingredients as [|d l IH]; intros validated.
  - cbn [validate_ingredients List.filter map]. by rewrite app_nil_r.
  - cbn [validate_ingredients List.filter]. rewrite is_valid_normalize.
    change (is_valid_ingredient (IngredientData.name d)) with (accepted d).
    destruct (accepted d) eqn:E; cbn [negb map].
    + destruct (standardize_units _ _ _) as [a u] eqn:Hs.
      rewrite IH. f_equal. f_equal. rewrite <- app_assoc. cbn [app].
      unfold corrected. by rewrite Hs.
    + unfold mbind, Run_bind, bind, emit. by rewrite IH.
Qed.

Lemma corrected_name d :
  accepted d = true ->
  Ingredient.name (corrected ingredients_db d) ∈ get_standard_ingredient_names.
Proof.
  unfold accepted, corrected, is_valid_ingredient.
  cbn [Ingredient.name]. apply str_in_elem.
Qed.

Lemma corrected_standardized d :
  BasketSpec.standardized (corrected ingredients_db d).
Proof.
  unfold BasketSpec.standardized, corrected.
  cbn [Ingredient.name Ingredient.amount Ingredient.unit].
  rewrite standardize_units_idem. by destruct (standardize_units _ _ _).
Qed.

(** What [_validate_and_correct_recipe] returns for a non-empty answer. *)
Lemma validate_and_correct_spec recipe_id recipe_data :
  exists recipe,
    _validate_and_correct_recipe ingredients_db recipe_id (Some recipe_data)
    = (map warning
         (List.filter (fun d => negb (accepted d))
            (default [] (RecipeData.ingredients recipe_data))),
       Returned (Some recipe))
    /\ Recipe.id recipe = recipe_id
    /\ Recipe.ingredients recipe
       = map (corrected ingredients_db)
           (List.filter accepted
              (default [] (RecipeData.ingredients recipe_data)))
    /\ consistent_totals recipe.
Proof.
  unfold _validate_and_correct_recipe.
  unfold mbind, Run_bind, bind. rewrite validate_ingredients_spec.
  cbn [app]. unfold mret, Run_ret, ret. rewrite app_nil_r.
  eexists. split; [reflexivity|]. split; [done|]. split; [done|].
  unfold consistent_totals, total_of.
  cbn [Recipe.total_calories Recipe.total_protein_g Recipe.total_carbs_g
       Recipe.total_fat_g Recipe.total_cost Recipe.ingredients].
  by repeat split.
Qed.

Lemma validated_ingredient recipe_id recipe_data evs recipe ingredient :
  _validate_and_correct_recipe ingredients_db recipe_id (Some recipe_data)
  = (evs, Returned (Some recipe)) ->
  ingredient ∈ Recipe.ingredients recipe ->
  Ingredient.name ingredient ∈ get_standard_ingredient_names
  /\ BasketSpec.standardized ingredient.
Proof.
  destruct (validate_and_correct_spec recipe_id recipe_data)
    as (r & -> & _ & Hings & _).
  intros [= _ <-]. rewrite Hings.
  intros (d & <- & Hd)%list_elem_of_In%in_map_iff.
  apply filter_In in Hd as [_ Hd].
  split; [by apply corrected_name | apply corrected_standardized].
Qed.

End GeneratorFacts.

(** X5.  Validation of a generated recipe.  The empty answer gives no
    recipe.  For any other answer a recipe is returned whose ingredients
    are the entries of the answer with a valid name, in the order of the
    answer: each carries a standard ingredient name and an amount and unit
    that [standardize_units] leaves unchanged; every other entry is dropped
    with one printed warning, so kept and dropped entries add up to the
    entries of the answer. *)
Theorem validated_recipe_keeps_known_ingredients
    (ingredients_db : list IngredientInfo.t) (recipe_id : string)
    (recipe_data : RecipeData.t) :
  let entries := default [] (RecipeData.ingredients recipe_data) in
  RecipeGeneratorService._validate_and_correct_recipe ingredients_db recipe_id
    None = ([], Returned None)
  /\ exists recipe,
       RecipeGeneratorService._validate_and_correct_recipe ingredients_db
         recipe_id (Some recipe_data)
       = (map GeneratorSpec.warning
            (List.filter (fun d => negb (GeneratorSpec.accepted d)) entries),
          Returned (Some recipe))
       /\ Recipe.id recipe = recipe_id
       /\ map Ingredient.name (Recipe.ingredients recipe)
          = map ingredient_utils.normalize_ingredient_name
              (List.filter ingredient_utils.is_valid_ingredient
                 (map IngredientData.name entries))
       /\ (forall ingredient,
             ingredient ∈ Recipe.ingredients recipe ->
             Ingredient.name ingredient
               ∈ ingredient_utils.get_standard_ingredient_names
             /\ BasketSpec.standardized ingredient)
       /\ (length (Recipe.ingredients recipe)
           + length
               (List.filter (fun d => negb (GeneratorSpec.accepted d)) entries)
           = length entries)%nat.
Proof.
  intros entries. split; [done|].
  destruct (validate_and_correct_spec ingredients_db recipe_id recipe_data)
    as (recipe & Hrun & Hid & Hings & _).
  exists recipe. fold entries in Hrun, Hings.
  split; [done|]. split; [done|]. split; [|split].
  - rewrite Hings. clear. induction entries as [|d l IH]; [done|].
    cbn [List.filter map]. unfold GeneratorSpec.accepted at 1.
    destruct (ingredient_utils.is_valid_ingredient (IngredientData.name d));
      cbn [map]; by rewrite IH.
  - intros ingredient Hin. by eapply validated_ingredient.
  - rewrite Hings, length_map. clear.
    induction entries as [|d l IH]; [done|]. cbn [List.filter].
    destruct (GeneratorSpec.accepted d); cbn [negb length]; lia.
Qed.

(** X6.  The totals of a recipe built by the generator, validated or mock,
    are the sums over its ingredient list of the per-unit value times the
    amount: calories, protein, carbohydrates, fat and cost. *)
Theorem generated_recipe_totals_consistent
    (ingredients_db : list IngredientInfo.t) (recipe_id : string) :
  (forall recipe_data evs recipe,
     RecipeGeneratorService._validate_and_correct_recipe ingredients_db
       recipe_id (Some recipe_data)
     = (evs, Returned (Some recipe)) ->
     GeneratorSpec.consistent_totals recipe)
  /\ (forall dish_name dietary_restrictions allergens cuisine_type cooking_time,
        let recipe :=
          RecipeGeneratorService._create_mock_recipe recipe_id dish_name
            dietary_restrictions allergens cuisine_type cooking_time in
        GeneratorSpec.consistent_totals recipe
        /\ (Recipe.cooking_time_min recipe <= 60)%Z
        /\ (Recipe.cooking_time_min recipe <= cooking_time)%Z
        /\ Recipe.cuisine_type recipe <> ""%string).
Proof.
  split.
  - intros recipe_data evs recipe.
    destruct (validate_and_correct_spec ingredients_db recipe_id recipe_data)
      as (r & -> & _ & _ & Htot).
    by intros [= _ <-].
  - intros dish_name dietary_restrictions allergens cuisine_type cooking_time
      recipe.
    split; [|split; [|split]].
    + unfold GeneratorSpec.consistent_totals. subst recipe.
      unfold RecipeGeneratorService._create_mock_recipe,
        RecipeGeneratorService.total_of.
      cbn [Recipe.total_calories Recipe.total_protein_g Recipe.total_carbs_g
           Recipe.total_fat_g Recipe.total_cost Recipe.ingredients].
      by repeat split.
    + simpl. lia.
    + simpl. lia.
    + simpl. destruct (String.eqb cuisine_type "") eqn:E; [done|].
      by apply String.eqb_neq in E.
Qed.

Section CanonicalBasket.
Import OptimizationService BasketSpec.

(** When every ingredient of the selection is in standard units, the basket
    is the basket of the standardised selection. *)
Lemma standardized_basket meal_plan :
  (forall recipe servings ingredient,
     (recipe, servings) ∈ meal_plan ->
     ingredient ∈ Recipe.ingredients recipe ->
     standardized ingredient) ->
  calculate_grocery_list meal_plan = normalized_grocery_list meal_plan.
Proof.
  intros Hstd. unfold normalized_grocery_list.
  f_equal. induction meal_plan as [|[r s] l IH]; simpl; [done|].
  rewrite <- IH.
  - f_equal. f_equal. destruct r as [? ? ? ings ? ? ? ? ? ? ? ? ? ? ?].
    unfold normalized_recipe. simpl. f_equal.
    assert (forall ing, ing ∈ ings -> standardized ing) as Hings.
    { intros ing Hing. eapply (Hstd _ s ing); [apply list_elem_of_here|done]. }
    clear -Hings. induction ings as [|ing ings IH]; simpl; [done|].
    rewrite normalized_ingredient_id by (apply Hings; apply list_elem_of_here).
    f_equal. apply IH. intros ? ?. apply Hings. by apply list_elem_of_further.
  - intros r' s' ing Hin. apply (Hstd r' s'). by apply list_elem_of_further.
Qed.

(** Every key of the basket is the key of an ingredient of the selection. *)
Lemma basket_key_origin meal_plan key :
  key ∈ map fst (calculate_grocery_list meal_plan) ->
  exists recipe servings ingredient,
    (recipe, servings) ∈ meal_plan
    /\ ingredient ∈ Recipe.ingredients recipe
    /\ key = ingredient_key ingredient.
Proof.
  intros Hkey.
  pose proof (add_plan_get meal_plan [] key false 0) as H.
  rewrite <- calculate_grocery_list_fold in H. simpl in H.
  specialize (H eq_refl).
  destruct (Py.dict_get (calculate_grocery_list meal_plan) key) as [v|] eqn:E.
  - destruct H as [Hocc _]. unfold occurs in Hocc.
    apply existsb_exists in Hocc as ([r s] & Hin & Hex).
    apply existsb_exists in Hex as (ing & Hing & Hk).
    unfold has_key in Hk. apply String.eqb_eq in Hk.
    exists r, s, ing. by rewrite <- !list_elem_of_In in *.
  - by apply dict_get_None_keys in E.
Qed.

End CanonicalBasket.

(** X7.  Recipes that went through the validator give a basket in standard
    units: for a selection made of validated recipes the grocery basket is
    the basket of the standardised selection, and every key of the basket
    is made of a standard ingredient name and a unit that is none of the
    eight units [standardize_units] converts. *)
Theorem validated_recipes_give_canonical_basket
    (meal_plan : list (Recipe.t * Z)) :
  (forall recipe servings,
     (recipe, servings) ∈ meal_plan ->
     exists ingredients_db recipe_id recipe_data evs,
       RecipeGeneratorService._validate_and_correct_recipe ingredients_db
         recipe_id (Some recipe_data)
       = (evs, Returned (Some recipe))) ->
  let basket := OptimizationService.calculate_grocery_list meal_plan in
  basket = BasketSpec.normalized_grocery_list meal_plan
  /\ forall key,
       key ∈ map fst basket ->
       exists name unit,
         key = (name +:+ " (" +:+ unit +:+ ")")%string
         /\ name ∈ ingredient_utils.get_standard_ingredient_names
         /\ ingredient_utils.str_in unit
              ["kg"; "mg"; "lb"; "oz"; "l"; "tbsp"; "tsp"; "cup"]%string
            = false.
Proof.
  intros Hval basket.
  assert (forall recipe servings ingredient,
            (recipe, servings) ∈ meal_plan ->
            ingredient ∈ Recipe.ingredients recipe ->
            Ingredient.name ingredient
              ∈ ingredient_utils.get_standard_ingredient_names
            /\ BasketSpec.standardized ingredient) as Hings.
  { intros r s ing Hin Hing.
    destruct (Hval r s Hin) as (db & id & d & evs & Hrun).
    by eapply validated_ingredient. }
  split.
  - apply standardized_basket. intros r s ing Hin Hing.
    by destruct (Hings r s ing Hin Hing).
  - intros key (r & s & ing & Hin & Hing & ->)%basket_key_origin.
    destruct (Hings r s ing Hin Hing) as [Hname Hstd].
    exists (Ingredient.name ing), (Ingredient.unit ing).
    split; [done|]. split; [done|]. by eapply standardized_unit.
Qed.

(** The theorem for two servings of the recipe validated from the sample
    answer: half a kilogram of chicken and two cups of white rice. *)
Lemma validated_recipes_give_canonical_basket_witness :
  let recipe :=
    Recipe.mk "r1" "Chicken and rice" ""
      [ Ingredient.mk "chicken breast" (0.5 * 1000) "g" 0.012
          (165 / 100) (31 / 100) (0 / 100) (3.6 / 100);
        Ingredient.mk "rice" (2 * 240) "ml" 0.1
          (100 / 100) (5 / 100) (10 / 100) (5 / 100) ]
      [] 25 "intermediate" "various" [] []
      (Py.sum [165 / 100 * (0.5 * 1000); 100 / 100 * (2 * 240)])
      (Py.sum [31 / 100 * (0.5 * 1000); 5 / 100 * (2 * 240)])
      (Py.sum [0 / 100 * (0.5 * 1000); 10 / 100 * (2 * 240)])
      (Py.sum [3.6 / 100 * (0.5 * 1000); 5 / 100 * (2 * 240)])
      (Py.sum [0.012 * (0.5 * 1000); 0.1 * (2 * 240)]) in
  let basket := OptimizationService.calculate_grocery_list [(recipe, 2%Z)] in
  basket = BasketSpec.normalized_grocery_list [(recipe, 2%Z)]
  /\ forall key,
       key ∈ map fst basket ->
       exists name unit,
         key = (name +:+ " (" +:+ unit +:+ ")")%string
         /\ name ∈ ingredient_utils.get_standard_ingredient_names
         /\ ingredient_utils.str_in unit
              ["kg"; "mg"; "lb"; "oz"; "l"; "tbsp"; "tsp"; "cup"]%string
            = false.
Proof.
  intros recipe.
  apply (validated_recipes_give_canonical_basket [(recipe, 2%Z)]).
  intros r s ->%list_elem_of_singleton%pair_eq%proj1.
  exists GeneratorSpec.sample_db, "r1"%string, GeneratorSpec.sample_answer.
  exists
    (events
       (RecipeGeneratorService._validate_and_correct_recipe
          GeneratorSpec.sample_db "r1" (Some GeneratorSpec.sample_answer))).
  vm_compute. reflexivity.
Defined.

(** ** The recipe filter *)

Section FilterFacts.
Import ingredient_utils RecipeService.

Lemma issubset_spec req have :
  issubset req have = true <-> forall s, s ∈ req -> s ∈ have.
Proof.
  unfold issubset. rewrite forallb_forall. split.
  - intros H s Hs. apply str_in_elem, H. by apply list_elem_of_In.
  - intros H s Hs. apply str_in_elem, H. by apply list_elem_of_In.
Qed.

Lemma disjoint_spec a b :
  disjoint a b = true <-> forall s, s ∈ a -> s ∉ b.
Proof.
  unfold disjoint. rewrite forallb_forall. split.
  - intros H s Hs Hb. apply list_elem_of_In, H in Hs.
    apply negb_true_iff in Hs. apply str_in_elem in Hb. congruence.
  - intros H s Hs. apply negb_true_iff.
    destruct (str_in s b) eqn:E; [|done].
    apply str_in_elem in E. by destruct (H s (proj2 (list_elem_of_In _ _) Hs)).
Qed.

Lemma filter_filter {A} (f g : A -> bool) (l : list A) :
  List.filter g (List.filter f l) = List.filter (fun x => f x && g x) l.
Proof.
  induction l as [|x l IH]; simpl; [done|].
  destruct (f x); simpl; [|done]. destruct (g x); by rewrite IH.
Qed.

Lemma filter_true {A} (l : list A) : List.filter (fun _ => true) l = l.
Proof. induction l as [|x l IH]; simpl; [done|]. by rewrite IH. Qed.

Lemma filter_sublist {A} (f : A -> bool) (l : list A) :
  sublist (List.filter f l) l.
Proof.
  induction l as [|x l IH]; simpl; [constructor|].
  destruct (f x); by constructor.
Qed.

Lemma filter_recipes_meets table dietary_restrictions allergens max_cooking_time
    cuisine_types :
  filter_recipes table dietary_restrictions allergens max_cooking_time
    cuisine_types
  = List.filter
      (RecipeSpec.meets dietary_restrictions allergens max_cooking_time
         cuisine_types)
      table.
Proof.
  unfold filter_recipes, RecipeSpec.meets. cbv zeta.
  destruct dietary_restrictions as [|d ds], allergens as [|a al],
    cuisine_types as [|c cs];
    rewrite ?filter_filter; apply filter_ext; intros r;
    unfold issubset, disjoint; cbn [map forallb andb];
    by rewrite <- ?andb_assoc, ?andb_true_r.
Qed.

End FilterFacts.

(** X8.  [filter_recipes] keeps exactly the recipes of the table that carry
    every requested dietary restriction, contain none of the allergens to
    avoid, cook within the time limit and, when cuisines are given, belong
    to one of them; an empty list of restrictions, allergens or cuisines
    excludes nothing.  The recipes kept stay in table order. *)
Theorem filter_recipes_keeps_exactly_the_eligible (table : list Recipe.t)
    (dietary_restrictions : list DietaryRestriction) (allergens : list string)
    (max_cooking_time : Z) (cuisine_types : list string) :
  let kept :=
    RecipeService.filter_recipes table dietary_restrictions allergens
      max_cooking_time cuisine_types in
  kept
  = List.filter
      (RecipeSpec.meets dietary_restrictions allergens max_cooking_time
         cuisine_types)
      table
  /\ sublist kept table
  /\ forall r,
       r ∈ kept <->
       r ∈ table
       /\ (forall d, d ∈ dietary_restrictions ->
                     DietaryRestriction_value d ∈ Recipe.dietary_restrictions r)
       /\ (forall a, a ∈ allergens -> a ∉ Recipe.allergens r)
       /\ (Recipe.cooking_time_min r <= max_cooking_time)%Z
       /\ (cuisine_types = [] \/ Recipe.cuisine_type r ∈ cuisine_types).
Proof.
  intros kept. subst kept. rewrite filter_recipes_meets.
  split; [done|]. split; [apply filter_sublist|].
  intros r. rewrite list_elem_of_In, filter_In, <- list_elem_of_In.
  unfold RecipeSpec.meets.
  rewrite !andb_true_iff, issubset_spec, disjoint_spec, Z.leb_le.
  assert ((forall s, s ∈ map DietaryRestriction_value dietary_restrictions ->
                     s ∈ Recipe.dietary_restrictions r)
          <-> (forall d, d ∈ dietary_restrictions ->
                 DietaryRestriction_value d ∈ Recipe.dietary_restrictions r))
    as ->.
  { split.
    - intros H d Hd. apply H, list_elem_of_In, in_map. by apply list_elem_of_In.
    - intros H s (d & <- & Hd)%list_elem_of_In%in_map_iff.
      apply H. by apply list_elem_of_In. }
  assert (match cuisine_types with
          | [] => true
          | _ :: _ =>
              ingredient_utils.str_in (Recipe.cuisine_type r) cuisine_types
          end = true
          <-> cuisine_types = [] \/ Recipe.cuisine_type r ∈ cuisine_types) as ->.
  { destruct cuisine_types as [|c cs]; [by split; [left|]|].
    rewrite str_in_elem. split; [by right|]. by intros [?|?]. }
  tauto.
Qed.

(** ** More on the selection *)

Section SelectionMore.
Import OptimizationService pywraplp SelectionSpec.

(** The collected recipes are recipes of the pool, in pool order, each
    position at most once. *)
Lemma collect_sublist recipes k solution :
  sublist (map fst (collect recipes k solution)) recipes.
Proof.
  revert k. induction recipes as [|r recipes IH]; intros k; simpl;
    [constructor|].
  rewrite map_app. destruct (Py.Qltb _ _); simpl; by constructor.
Qed.

Lemma int_nonneg v : 0 <= v -> (0 <= Py.int v)%Z.
Proof.
  intros Hv. unfold Py.int. apply Z.quot_pos; [|done].
  destruct v as [n d]. unfold Qle in Hv. simpl in *. lia.
Qed.

Lemma collect_nonneg recipes k solution recipe servings :
  (recipe, servings) ∈ collect recipes k solution -> (0 <= servings)%Z.
Proof.
  intros (i & _ & Hpos & ->)%collect_elem.
  apply int_nonneg. by apply Qlt_le_weak.
Qed.

Lemma solve_count_cases {backend : Solver} recipes prefs days :
  (0 < days)%Z ->
  solve_count (events (optimize_meal_plan recipes prefs days))
  = if deviation_of_expression recipes prefs then 0%nat else 1%nat.
Proof.
  intros Hd. rewrite optimize_meal_plan_cases by done. cbv zeta.
  destruct (deviation_of_expression recipes prefs); [done|].
  by destruct (solved _).
Qed.

Lemma servings_total_cap cap selection :
  (forall recipe servings, (recipe, servings) ∈ selection -> (servings <= cap)%Z) ->
  (servings_total selection <= cap * Z.of_nat (length selection))%Z.
Proof.
  induction selection as [|[r s] l IH]; intros Hall; simpl; [lia|].
  assert (s <= cap)%Z by (apply (Hall r); apply list_elem_of_here).
  assert (servings_total l <= cap * Z.of_nat (length l))%Z.
  { apply IH. intros r' s' Hin. apply (Hall r'). by apply list_elem_of_further. }
  lia.
Qed.

(** A pool too small for 21 servings under the variety cap. *)
Lemma variety_cap_infeasible recipes prefs :
  (Z.of_nat (length recipes)
   * (10 `min` UserPreferences.max_repeats_per_week prefs) < 21)%Z ->
  infeasible_program recipes prefs.
Proof.
  intros Hcap solution Hfeas.
  destruct (feasible_selection recipes prefs solution Hfeas)
    as (_ & Hservings & Htot & _).
  pose proof (collect_length recipes 0 solution) as Hcl.
  set (cap := (10 `min` UserPreferences.max_repeats_per_week prefs)%Z) in *.
  assert (servings_total (collect recipes 0 solution)
          <= cap * Z.of_nat (length (collect recipes 0 solution)))%Z as Hb.
  { apply servings_total_cap. intros r s Hin.
    specialize (Hservings r s Hin). lia. }
  destruct (collect recipes 0 solution) as [|[r s] sel] eqn:Hsel.
  - simpl in Htot. lia.
  - assert (0 < s <= cap)%Z as Hs by (apply (Hservings r); apply list_elem_of_here).
    nia.
Qed.

(** The constraint on the cooking time, read on the selection. *)
Lemma feasible_cooking_time recipes prefs solution :
  feasible (build_model recipes prefs 7) solution ->
  weighted_total (fun r => inject_Z (Recipe.cooking_time_min r))
    (collect recipes 0 solution)
  <= inject_Z (21 * UserPreferences.max_cooking_time_min prefs).
Proof.
  intros Hfeas. rewrite (weighted_sum_total _ _ _ _ _ Hfeas).
  apply (feasible_constraint _ _ _ _
           (mkConstraint
              (weighted_sum recipes (fun r => inject_Z (Recipe.cooking_time_min r)))
              LE
              (inject_Z (3 * 7 * UserPreferences.max_cooking_time_min prefs)))
           Hfeas).
  rewrite build_model_constraints. find_in_app.
Qed.

End SelectionMore.

(** X9.  The ways [optimize_meal_plan] ends, for a positive number of
    days.  When the preferences set a nutrition target and the pool has a
    recipe, the deviation from the target applies [abs] to an expression of
    the solver library: the run raises [TypeError] and never calls the
    solver.  Otherwise, whatever the solver answers, it is called exactly
    once and a list is returned: the recipes of the list are recipes of the
    pool, in pool order, no position of the pool taken twice, and no
    servings count is negative. *)
Theorem selection_is_drawn_from_the_pool {backend : pywraplp.Solver}
    (recipes : list Recipe.t) (prefs : UserPreferences.t) (days : Z) :
  (0 < days)%Z ->
  let run := OptimizationService.optimize_meal_plan recipes prefs days in
  (recipes <> [] -> SelectionSpec.targeted prefs = true ->
   OptimizationService.solve_count (events run) = 0%nat
   /\ exists msg, outcome run = Raised (TypeError msg))
  /\ (recipes = [] \/ SelectionSpec.targeted prefs = false ->
      OptimizationService.solve_count (events run) = 1%nat
      /\ exists selection,
           outcome run = Returned selection
           /\ sublist (map fst selection) recipes
           /\ forall recipe servings,
                (recipe, servings) ∈ selection -> (0 <= servings)%Z).
Proof.
  intros Hd run. subst run.
  rewrite (solve_count_cases recipes prefs days Hd).
  rewrite optimize_meal_plan_cases by done. cbv zeta.
  split.
  - intros Hne Ht.
    assert (SelectionSpec.deviation_of_expression recipes prefs = true) as ->.
    { unfold SelectionSpec.deviation_of_expression. by destruct recipes. }
    split; [done|]. eexists. reflexivity.
  - intros Hcase.
    assert (SelectionSpec.deviation_of_expression recipes prefs = false) as ->.
    { unfold SelectionSpec.deviation_of_expression.
      destruct Hcase as [->|Ht]; [done|]. by destruct recipes. }
    split; [done|].
    destruct (pywraplp.solved _).
    + eexists. split; [reflexivity|]. split; [apply collect_sublist|].
      intros r s. apply collect_nonneg.
    + exists []. split; [reflexivity|]. split; [apply sublist_nil_l|].
      by intros r s ?%elem_of_nil.
Qed.

(** The theorem for the sample pool and a daily target of 1100 calories: the
    run ends in [TypeError] before the solver is called. *)
Lemma selection_is_drawn_from_the_pool_witness :
  let run :=
    OptimizationService.optimize_meal_plan (backend := ReferenceSolver.exhaustive)
      Samples.pool (Samples.preferences_calories 200 10 1100) 7 in
  OptimizationService.solve_count (events run) = 0%nat
  /\ exists msg, outcome run = Raised (TypeError msg).
Proof.
  destruct (selection_is_drawn_from_the_pool
              (backend := ReferenceSolver.exhaustive) Samples.pool
              (Samples.preferences_calories 200 10 1100) 7)
    as [Hraises _]; [lia|].
  apply Hraises; [discriminate | reflexivity].
Defined.

(** X10.  The cooking-time budget of a returned selection: servings times
    cooking time, added up over the selection, is at most 21 times the
    user's maximal cooking time.  The solver is taken to be exact. *)
Theorem selection_within_cooking_time {backend : pywraplp.Solver}
    {exact : pywraplp.ExactSolver backend} (recipes : list Recipe.t)
    (prefs : UserPreferences.t) (evs : list Event)
    (selection : list (Recipe.t * Z)) :
  OptimizationService.optimize_meal_plan recipes prefs 7
  = (evs, Returned selection) ->
  selection <> [] ->
  SelectionSpec.weighted_total
    (fun r => inject_Z (Recipe.cooking_time_min r)) selection
  <= inject_Z (21 * UserPreferences.max_cooking_time_min prefs).
Proof.
  intros Hrun Hne.
  destruct (optimize_meal_plan_selection recipes prefs evs selection Hrun)
    as [_ Hsel].
  destruct (Hsel Hne) as [E ->].
  apply feasible_cooking_time. by apply pywraplp.Solve_sound.
Qed.

(** The theorem for the sample pool with a budget of 200 and at most 10
    repeats, solved exhaustively. *)
Lemma selection_within_cooking_time_witness :
  SelectionSpec.weighted_total
    (fun r => inject_Z (Recipe.cooking_time_min r))
    [ (Samples.vegetable_stir_fry, 10%Z); (Samples.grilled_chicken_salad, 1%Z);
      (Samples.rice_bowl, 10%Z) ]
  <= inject_Z (21 * 60).
Proof.
  apply (selection_within_cooking_time (backend := ReferenceSolver.exhaustive)
           Samples.pool (Samples.preferences 200 10)
           (events
              (OptimizationService.optimize_meal_plan
                 (backend := ReferenceSolver.exhaustive) Samples.pool
                 (Samples.preferences 200 10) 7))).
  - vm_compute. reflexivity.
  - discriminate.
Defined.

(** X11.  A pool too small for the week.  When the number of candidate
    recipes times min(10, max_repeats_per_week) is below 21, the program
    has no solution and no run yields a plan.  [optimize_meal_plan] returns
    the empty list, unless the preferences set a nutrition target and the
    pool has a recipe, where it raises [TypeError] before the solver is
    called.  [generate_meal_plan] raises [ValueError] for an empty pool,
    and otherwise [TypeError] with a nutrition target and [ValueError]
    without.  With the default of two repeats per week this is every pool
    of ten recipes or fewer.  The solver is taken to be exact. *)
Theorem pool_too_small_for_the_week {backend : pywraplp.Solver}
    {exact : pywraplp.ExactSolver backend} (recipes : list Recipe.t)
    (prefs : UserPreferences.t) :
  (Z.of_nat (length recipes)
   * (10 `min` UserPreferences.max_repeats_per_week prefs) < 21)%Z ->
  SelectionSpec.infeasible_program recipes prefs
  /\ outcome (OptimizationService.optimize_meal_plan recipes prefs 7)
     = (if SelectionSpec.deviation_of_expression recipes prefs
        then Raised pywraplp.bad_operand
        else Returned [])
  /\ forall recipes_table price_database today_weekday,
       RecipeService.filter_recipes recipes_table
         (UserPreferences.dietary_restrictions prefs)
         (UserPreferences.allergies prefs)
         (UserPreferences.max_cooking_time_min prefs)
         (UserPreferences.preferred_cuisines prefs) = recipes ->
       outcome
         (MealPlannerService.generate_meal_plan recipes_table price_database
            today_weekday prefs)
       = match recipes with
         | [] =>
             Raised
               (ValueError "No recipes match your preferences and constraints")
         | _ =>
             if SelectionSpec.targeted prefs
             then Raised pywraplp.bad_operand
             else
               Raised
                 (ValueError
                    "Could not generate a meal plan within your constraints")
         end.
Proof.
  intros Hcap.
  pose proof (variety_cap_infeasible recipes prefs Hcap) as Hinf.
  split; [done|]. split.
  - destruct (SelectionSpec.deviation_of_expression recipes prefs) eqn:Hd.
    + by rewrite (targeted_run recipes prefs Hd).
    + by rewrite (infeasible_run recipes prefs Hd Hinf).
  - intros table db w Hfilter.
    unfold MealPlannerService.generate_meal_plan. rewrite Hfilter.
    destruct recipes as [|r0 rest]; [reflexivity|].
    destruct (SelectionSpec.targeted prefs) eqn:Ht.
    + by rewrite (targeted_run (r0 :: rest) prefs Ht).
    + by rewrite (infeasible_run (r0 :: rest) prefs Ht Hinf).
Qed.

(** The theorem for the sample pool of three recipes and the default of two
    repeats per week, whatever the budget. *)
Lemma pool_too_small_for_the_week_witness :
  outcome
    (OptimizationService.optimize_meal_plan (backend := ReferenceSolver.exhaustive)
       Samples.pool (Samples.preferences 1000 2) 7)
  = Returned [].
Proof.
  destruct (pool_too_small_for_the_week (backend := ReferenceSolver.exhaustive)
              Samples.pool (Samples.preferences 1000 2))
    as (_ & Hrun & _); [|exact Hrun].
  vm_compute. reflexivity.
Defined.

(** ** More on grocery optimisation *)

Section FirstCheapest.
Import GrocerySpec.
Context {A : Type} (eligible : A -> bool) (cost : A -> Q).

Lemma first_cheapest_unique l b1 b2 :
  first_cheapest eligible cost l b1 -> first_cheapest eligible cost l b2 ->
  b1 = b2.
Proof.
  intros (pre1 & post1 & Hl1 & He1 & Hpre1 & Hpost1)
         (pre2 & post2 & Hl2 & He2 & Hpre2 & Hpost2).
  assert (l !! length pre1 = Some b1) as H1
    by (rewrite Hl1; apply list_lookup_middle; done).
  assert (l !! length pre2 = Some b2) as H2
    by (rewrite Hl2; apply list_lookup_middle; done).
  destruct (Nat.lt_trichotomy (length pre1) (length pre2)) as [Hlt|[Heq|Hlt]].
  - exfalso.
    assert (b1 ∈ pre2) as Hin1.
    { rewrite Hl2, lookup_app_l in H1 by done.
      by eapply list_elem_of_lookup_2. }
    assert (b2 ∈ post1) as Hin2.
    { rewrite Hl1, lookup_app_r in H2 by lia.
      destruct (length pre2 - length pre1)%nat as [|n] eqn:En; [lia|].
      simpl in H2. by eapply list_elem_of_lookup_2. }
    pose proof (Hpre2 _ Hin1 He1). pose proof (Hpost1 _ Hin2 He2). lra.
  - rewrite Heq in H1. congruence.
  - exfalso.
    assert (b2 ∈ pre1) as Hin2.
    { rewrite Hl1, lookup_app_l in H2 by done.
      by eapply list_elem_of_lookup_2. }
    assert (b1 ∈ post2) as Hin1.
    { rewrite Hl2, lookup_app_r in H1 by lia.
      destruct (length pre1 - length pre2)%nat as [|n] eqn:En; [lia|].
      simpl in H1. by eapply list_elem_of_lookup_2. }
    pose proof (Hpre1 _ Hin2 He2). pose proof (Hpost2 _ Hin1 He1). lra.
Qed.

(** Among the eligible elements alone. *)
Lemma first_cheapest_filter l b :
  first_cheapest eligible cost l b ->
  first_cheapest (fun _ => true) cost (List.filter eligible l) b.
Proof.
  intros (pre & post & -> & He & Hpre & Hpost).
  exists (List.filter eligible pre), (List.filter eligible post).
  rewrite List.filter_app. simpl. rewrite He.
  split; [done|]. split; [done|]. split.
  - intros x [Hx Hex]%list_elem_of_In%filter_In _.
    apply Hpre; [by apply list_elem_of_In | done].
  - intros x [Hx Hex]%list_elem_of_In%filter_In _.
    apply Hpost; [by apply list_elem_of_In | done].
Qed.

(** The cost may be replaced by one that agrees on the eligible
    elements. *)
Lemma first_cheapest_ext (cost' : A -> Q) l b :
  (forall x, eligible x = true -> cost x == cost' x) ->
  first_cheapest eligible cost l b -> first_cheapest eligible cost' l b.
Proof.
  intros Hc (pre & post & -> & He & Hpre & Hpost).
  exists pre, post. split; [done|]. split; [done|]. split.
  - intros x Hx Hex. rewrite <- (Hc _ He), <- (Hc _ Hex). by apply Hpre.
  - intros x Hx Hex. rewrite <- (Hc _ He), <- (Hc _ Hex). by apply Hpost.
Qed.

(** The best element is eligible and no eligible element is cheaper. *)
Lemma first_cheapest_least l b x :
  first_cheapest eligible cost l b -> x ∈ l -> eligible x = true ->
  cost b <= cost x.
Proof.
  intros (pre & post & -> & He & Hpre & Hpost) Hx Hex.
  apply elem_of_app in Hx as [Hx|Hx].
  - apply Qlt_le_weak. by apply Hpre.
  - apply elem_of_cons in Hx as [->|Hx]; [apply Qle_refl | by apply Hpost].
Qed.

End FirstCheapest.

Section LowestPrice.
Import GroceryOptimizerService GrocerySpec.
Variable db : PriceDatabase.t.
Variable ingredient : string.

Let matches (e : PriceEntry.t) : bool := same_ingredient e ingredient.

Let step : option Q * option PriceEntry.t -> PriceEntry.t
          -> option Q * option PriceEntry.t :=
  fun '(lowest_price, lowest_price_info) price_entry =>
  if same_ingredient price_entry ingredient then
    match lowest_price with
    | None => (Some (PriceEntry.price_per_unit price_entry), Some price_entry)
    | Some lowest =>
        if Py.Qltb (PriceEntry.price_per_unit price_entry) lowest
        then (Some (PriceEntry.price_per_unit price_entry), Some price_entry)
        else (lowest_price, lowest_price_info)
    end
  else (lowest_price, lowest_price_info).

(** The scan once an entry [e0] is held. *)
Lemma lowest_scan_Some l e0 :
  exists e,
    (fold_left step l (Some (PriceEntry.price_per_unit e0), Some e0)).2 = Some e
    /\ ((e = e0
         /\ forall x, x ∈ l -> matches x = true ->
                      PriceEntry.price_per_unit e0 <= PriceEntry.price_per_unit x)
        \/ exists pre post,
             l = pre ++ e :: post
             /\ matches e = true
             /\ PriceEntry.price_per_unit e < PriceEntry.price_per_unit e0
             /\ (forall x, x ∈ pre -> matches x = true ->
                   PriceEntry.price_per_unit e < PriceEntry.price_per_unit x)
             /\ (forall x, x ∈ post -> matches x = true ->
                   PriceEntry.price_per_unit e <= PriceEntry.price_per_unit x)).
Proof.
  revert e0. induction l as [|x l IH]; intros e0.
  - exists e0. split; [done|]. left. split; [done|].
    by intros x ?%elem_of_nil.
  - cbn [fold_left]. unfold step at 2.
    destruct (same_ingredient x ingredient) eqn:Hm.
    + destruct (Py.Qltb (PriceEntry.price_per_unit x)
                  (PriceEntry.price_per_unit e0)) eqn:Hlt.
      * apply Qltb_lt in Hlt.
        destruct (IH x) as (e & -> & [[-> Hall]|Hsplit]).
        -- exists x. split; [done|]. right. exists [], l.
           repeat split; try done. by intros y ?%elem_of_nil.
        -- destruct Hsplit as (pre & post & -> & He & Hex & Hpre & Hpost).
           exists e. split; [done|]. right. exists (x :: pre), post.
           split; [done|]. split; [done|]. split; [lra|]. split; [|done].
           intros y [->|Hy]%elem_of_cons Hmy; [done | by apply Hpre].
      * apply Qltb_ge in Hlt.
        destruct (IH e0) as (e & -> & [[-> Hall]|Hsplit]).
        -- exists e0. split; [done|]. left. split; [done|].
           intros y [->|Hy]%elem_of_cons Hmy; [done | by apply Hall].
        -- destruct Hsplit as (pre & post & -> & He & Hex & Hpre & Hpost).
           exists e. split; [done|]. right. exists (x :: pre), post.
           split; [done|]. split; [done|]. split; [done|]. split; [|done].
           intros y [->|Hy]%elem_of_cons Hmy; [lra | by apply Hpre].
    + destruct (IH e0) as (e & -> & [[-> Hall]|Hsplit]).
      * exists e0. split; [done|]. left. split; [done|].
        intros y [->|Hy]%elem_of_cons Hmy;
          [unfold matches in Hmy; congruence | by apply Hall].
      * destruct Hsplit as (pre & post & -> & He & Hex & Hpre & Hpost).
        exists e. split; [done|]. right. exists (x :: pre), post.
        split; [done|]. split; [done|]. split; [done|]. split; [|done].
        intros y [->|Hy]%elem_of_cons Hmy;
          [unfold matches in Hmy; congruence | by apply Hpre].
Qed.

(** The scan from the start. *)
Lemma lowest_scan l :
  match (fold_left step l (None, None)).2 with
  | Some e => first_cheapest matches PriceEntry.price_per_unit l e
  | None => forall x, x ∈ l -> matches x = false
  end.
Proof.
  induction l as [|x l IH].
  - simpl. by intros x ?%elem_of_nil.
  - cbn [fold_left]. unfold step at 2.
    destruct (same_ingredient x ingredient) eqn:Hm.
    + destruct (lowest_scan_Some l x) as (e & -> & [[-> Hall]|Hsplit]).
      * exists [], l. repeat split; try done. by intros y ?%elem_of_nil.
      * destruct Hsplit as (pre & post & -> & He & Hex & Hpre & Hpost).
        exists (x :: pre), post.
        split; [done|]. split; [done|]. split; [|done].
        intros y [->|Hy]%elem_of_cons Hmy; [done | by apply Hpre].
    + destruct (fold_left step l (None, None)).2 as [e|].
      * destruct IH as (pre & post & -> & He & Hpre & Hpost).
        exists (x :: pre), post.
        split; [done|]. split; [done|]. split; [|done].
        intros y [->|Hy]%elem_of_cons Hmy;
          [unfold matches in Hmy; congruence | by apply Hpre].
      * intros y [->|Hy]%elem_of_cons; [done | by apply IH].
Qed.

Lemma find_lowest_price_spec :
  match _find_lowest_price_for_ingredient db ingredient with
  | Some e =>
      first_cheapest (fun x => same_ingredient x ingredient)
        PriceEntry.price_per_unit (PriceDatabase.prices db) e
  | None =>
      forall x, x ∈ PriceDatabase.prices db ->
                same_ingredient x ingredient = false
  end.
Proof. apply (lowest_scan (PriceDatabase.prices db)). Qed.

(** The head of the ascending stable sort is the first entry of least
    price. *)
Lemma sort_by_price_head (l : list PriceEntry.t) :
  l <> [] ->
  exists h rest,
    sort_by_price l = h :: rest
    /\ first_cheapest (fun _ => true) PriceEntry.price_per_unit l h.
Proof.
  induction l as [|x l IH]; [done|]. intros _.
  destruct l as [|x' l'].
  - exists x, []. split; [done|]. exists [], [].
    repeat split; try done; by intros y ?%elem_of_nil.
  - destruct IH as (h & rest & Hsort & pre & post & Hl & _ & Hpre & Hpost);
      [done|].
    unfold sort_by_price in *. cbn [foldr]. cbn [foldr] in Hsort.
    rewrite Hsort. cbn [insert_by_price].
    destruct (Qle_bool (PriceEntry.price_per_unit x)
                (PriceEntry.price_per_unit h)) eqn:E.
    + apply Qle_bool_iff in E.
      exists x, (h :: rest). split; [done|]. exists [], (x' :: l').
      split; [done|]. split; [done|]. split; [by intros y ?%elem_of_nil|].
      intros y Hy _. rewrite Hl in Hy.
      apply elem_of_app in Hy as [Hy|Hy].
      * specialize (Hpre y Hy eq_refl). lra.
      * apply elem_of_cons in Hy as [->|Hy]; [done|].
        specialize (Hpost y Hy eq_refl). lra.
    + assert (PriceEntry.price_per_unit h < PriceEntry.price_per_unit x) as Hlt.
      { apply Qnot_le_lt. intros Hle. apply Qle_bool_iff in Hle. congruence. }
      exists h, (insert_by_price x rest). split; [done|].
      exists (x :: pre), post. rewrite Hl.
      split; [done|]. split; [done|]. split; [|done].
      intros y [->|Hy]%elem_of_cons _; [done | by apply Hpre].
Qed.

End LowestPrice.

(** X12.  [_find_lowest_price_for_ingredient] returns nothing exactly when
    the catalogue has no entry for the ingredient (names compared without
    case); otherwise it returns the first of the entries of least price:
    strictly cheaper than every matching entry before it in the catalogue,
    at most as expensive as every one after it.  That entry is the one the
    substitution search takes as the current price, the head of its sorted
    list. *)
Theorem lowest_price_is_first_cheapest_entry (db : PriceDatabase.t)
    (ingredient : string) :
  match GroceryOptimizerService._find_lowest_price_for_ingredient db ingredient with
  | Some e =>
      GrocerySpec.first_cheapest
        (fun x => GroceryOptimizerService.same_ingredient x ingredient)
        PriceEntry.price_per_unit (PriceDatabase.prices db) e
      /\ exists rest,
           GroceryOptimizerService.sort_by_price
             (GroceryOptimizerService._find_all_prices_for_ingredient db
                ingredient)
           = e :: rest
  | None =>
      (forall x, x ∈ PriceDatabase.prices db ->
                 GroceryOptimizerService.same_ingredient x ingredient = false)
      /\ GroceryOptimizerService._find_all_prices_for_ingredient db ingredient
         = []
  end.
Proof.
  pose proof (find_lowest_price_spec db ingredient) as H.
  rewrite find_all_prices_filter.
  destruct (GroceryOptimizerService._find_lowest_price_for_ingredient db
              ingredient) as [e|].
  - split; [done|].
    pose proof (first_cheapest_filter _ _ _ _ H) as Hf.
    destruct (sort_by_price_head
                (List.filter
                   (fun x => GroceryOptimizerService.same_ingredient x ingredient)
                   (PriceDatabase.prices db)))
      as (h & rest & Hsort & Hh).
    { destruct Hf as (pre & post & -> & _). by destruct pre. }
    exists rest. rewrite Hsort. f_equal.
    by eapply first_cheapest_unique.
  - split; [done|].
    induction (PriceDatabase.prices db) as [|x l IH]; [done|]. simpl.
    rewrite (H x) by apply list_elem_of_here.
    apply IH. intros y Hy. apply H. by apply list_elem_of_further.
Qed.

Section BestStore.
Import GroceryOptimizerService GrocerySpec.
Variable db : PriceDatabase.t.
Variable grocery_list : GroceryList.

Lemma store_total_supplies l store_id acc :
  (store_total db l store_id acc).2 = supplies_all db l store_id.
Proof.
  revert acc. induction l as [|[n q] l IH]; intros acc; [done|].
  cbn [store_total supplies_all forallb fst]. unfold stocks.
  destruct (_find_lowest_price_for_ingredient_in_store db (ingredient_of n)
              store_id); [apply IH | done].
Qed.

Lemma line_total_cons item items :
  line_total (item :: items) == Item.total_price item + line_total items.
Proof. unfold line_total. simpl. apply sum_cons. Qed.

Lemma store_total_cost l store_id acc :
  supplies_all db l store_id = true ->
  (store_total db l store_id acc).1
  == acc + line_total (map (fun e => store_item db store_id e.1 e.2) l).
Proof.
  revert acc. induction l as [|[n q] l IH]; intros acc.
  - intros _. simpl. unfold line_total. simpl. rewrite sum_nil. ring.
  - cbn [store_total supplies_all forallb fst snd map]. unfold stocks.
    rewrite line_total_cons. unfold store_item at 1.
    destruct (_find_lowest_price_for_ingredient_in_store db (ingredient_of n)
                store_id) as [p|]; [|done].
    intros Hrest. rewrite (IH _ Hrest). simpl. ring.
Qed.

Lemma store_cost_lines store_id :
  store_cost db grocery_list store_id
  == line_total (map (fun e => store_item db store_id e.1 e.2) grocery_list).
Proof.
  unfold store_cost.
  pose proof (calculate_store_items_spec db grocery_list store_id) as H.
  destruct (_calculate_store_items db grocery_list store_id) as [items total].
  destruct H as [-> H]. exact H.
Qed.

Lemma store_total_store_cost store_id :
  supplies_all db grocery_list store_id = true ->
  (store_total db grocery_list store_id 0).1
  == store_cost db grocery_list store_id.
Proof.
  intros H. rewrite (store_total_cost _ _ _ H), store_cost_lines. ring.
Qed.

Let eligible (s : Store.t) : bool := supplies_all db grocery_list (Store.id s).
Let cost (s : Store.t) : Q := (store_total db grocery_list (Store.id s) 0).1.

(** The outer loop once a store [b] is held at the total [c]. *)
Lemma best_store_loop_Some stores b c :
  exists b',
    best_store_loop db grocery_list stores (Some b) (Some c) = Some b'
    /\ ((b' = b
         /\ forall s, s ∈ stores -> eligible s = true -> c <= cost s)
        \/ exists pre post,
             stores = pre ++ b' :: post
             /\ eligible b' = true
             /\ cost b' < c
             /\ (forall s, s ∈ pre -> eligible s = true -> cost b' < cost s)
             /\ (forall s, s ∈ post -> eligible s = true -> cost b' <= cost s)).
Proof.
  revert b c. induction stores as [|s stores IH]; intros b c.
  - exists b. split; [done|]. left. split; [done|]. by intros s ?%elem_of_nil.
  - cbn [best_store_loop].
    pose proof (store_total_supplies grocery_list (Store.id s) 0) as Hcan.
    fold (eligible s) in Hcan.
    assert ((store_total db grocery_list (Store.id s) 0).1 = cost s) as Hcost
      by done.
    destruct (store_total db grocery_list (Store.id s) 0) as [t can].
    simpl in Hcan, Hcost. subst t can.
    destruct (eligible s && Py.Qltb (cost s) c) eqn:Htest.
    + apply andb_true_iff in Htest as [Hel Hlt]. apply Qltb_lt in Hlt.
      destruct (IH s (cost s)) as (b' & -> & [[-> Hall]|Hsplit]).
      * exists s. split; [done|]. right. exists [], stores.
        repeat split; try done. by intros y ?%elem_of_nil.
      * destruct Hsplit as (pre & post & -> & He & Hex & Hpre & Hpost).
        exists b'. split; [done|]. right. exists (s :: pre), post.
        split; [done|]. split; [done|]. split; [lra|]. split; [|done].
        intros y [->|Hy]%elem_of_cons Hey; [done | by apply Hpre].
    + assert (eligible s = true -> c <= cost s) as Hs.
      { intros Hel. rewrite Hel in Htest. simpl in Htest.
        by apply Qltb_ge in Htest. }
      destruct (IH b c) as (b' & -> & [[-> Hall]|Hsplit]).
      * exists b. split; [done|]. left. split; [done|].
        intros y [->|Hy]%elem_of_cons Hey; [by apply Hs | by apply Hall].
      * destruct Hsplit as (pre & post & -> & He & Hex & Hpre & Hpost).
        exists b'. split; [done|]. right. exists (s :: pre), post.
        split; [done|]. split; [done|]. split; [done|]. split; [|done].
        intros y [->|Hy]%elem_of_cons Hey;
          [specialize (Hs Hey); lra | by apply Hpre].
Qed.

(** The outer loop from the start. *)
Lemma best_store_loop_None stores :
  match best_store_loop db grocery_list stores None None with
  | Some b => first_cheapest eligible cost stores b
  | None => forall s, s ∈ stores -> eligible s = false
  end.
Proof.
  induction stores as [|s stores IH].
  - simpl. by intros s ?%elem_of_nil.
  - cbn [best_store_loop].
    pose proof (store_total_supplies grocery_list (Store.id s) 0) as Hcan.
    fold (eligible s) in Hcan.
    assert ((store_total db grocery_list (Store.id s) 0).1 = cost s) as Hcost
      by done.
    destruct (store_total db grocery_list (Store.id s) 0) as [t can].
    simpl in Hcan, Hcost. subst t can. rewrite andb_true_r.
    destruct (eligible s) eqn:Hel.
    + destruct (best_store_loop_Some stores s (cost s))
        as (b' & -> & [[-> Hall]|Hsplit]).
      * exists [], stores. repeat split; try done. by intros y ?%elem_of_nil.
      * destruct Hsplit as (pre & post & -> & He & Hex & Hpre & Hpost).
        exists (s :: pre), post.
        split; [done|]. split; [done|]. split; [|done].
        intros y [->|Hy]%elem_of_cons Hey; [done | by apply Hpre].
    + destruct (best_store_loop db grocery_list stores None None) as [b|].
      * destruct IH as (pre & post & -> & He & Hpre & Hpost).
        exists (s :: pre), post.
        split; [done|]. split; [done|]. split; [|done].
        intros y [->|Hy]%elem_of_cons Hey; [congruence | by apply Hpre].
      * intros y [->|Hy]%elem_of_cons; [done | by apply IH].
Qed.

(** The store selected in single-store mode. *)
Lemma find_best_single_store_spec :
  match PriceDatabase.stores db with
  | [] => _find_best_single_store db grocery_list = default_store
  | first :: _ =>
      if existsb (fun s => supplies_all db grocery_list (Store.id s))
           (PriceDatabase.stores db)
      then
        first_cheapest
          (fun s => supplies_all db grocery_list (Store.id s))
          (fun s => store_cost db grocery_list (Store.id s))
          (PriceDatabase.stores db)
          (_find_best_single_store db grocery_list)
      else _find_best_single_store db grocery_list = first
  end.
Proof.
  unfold _find_best_single_store.
  destruct (PriceDatabase.stores db) as [|first rest] eqn:Hstores; [done|].
  pose proof (best_store_loop_None (first :: rest)) as H.
  destruct (best_store_loop db grocery_list (first :: rest) None None)
    as [b|].
  - assert (existsb (fun s => supplies_all db grocery_list (Store.id s))
              (first :: rest) = true) as ->.
    { destruct H as (pre & post & Hl & He & _).
      apply existsb_exists. exists b. split; [|done].
      rewrite Hl. apply in_elt. }
    eapply first_cheapest_ext; [|exact H].
    intros s Hs. by apply store_total_store_cost.
  - assert (existsb (fun s => supplies_all db grocery_list (Store.id s))
              (first :: rest) = false) as ->; [|done].
    apply not_true_is_false. intros (s & Hs & Hel)%existsb_exists.
    apply list_elem_of_In, H in Hs. unfold eligible in Hs. congruence.
Qed.

End BestStore.

(** X13.  The store selected in single-store mode.  Without stores it is
    the default store.  When some store has a price for every basket entry,
    it is the first of the cheapest such stores: it supplies every entry,
    its total is strictly below that of every supplying store listed
    before it and at most that of every one listed after it.  When no
    store supplies every entry, it is the first store of the catalogue. *)
Theorem best_single_store_is_first_cheapest_supplier (db : PriceDatabase.t)
    (grocery_list : GroceryOptimizerService.GroceryList) :
  let best := GroceryOptimizerService._find_best_single_store db grocery_list in
  match PriceDatabase.stores db with
  | [] => best = GroceryOptimizerService.default_store
  | first :: _ =>
      if existsb
           (fun s => GrocerySpec.supplies_all db grocery_list (Store.id s))
           (PriceDatabase.stores db)
      then
        GrocerySpec.first_cheapest
          (fun s => GrocerySpec.supplies_all db grocery_list (Store.id s))
          (fun s => GrocerySpec.store_cost db grocery_list (Store.id s))
          (PriceDatabase.stores db) best
      else best = first
  end.
Proof. apply find_best_single_store_spec. Qed.

(** ** Grouping loops: sections and stores *)

Section GroupingFacts.
Import GroceryOptimizerService GrocerySpec.
Context {A : Type} (key : A -> string) (f : A -> Item.t).

Lemma group_step_get d x k :
  Py.dict_get (group_step key f d x) k
  = if String.eqb (key x) k
    then Some (default [] (Py.dict_get d k) ++ [f x])
    else Py.dict_get d k.
Proof.
  unfold group_step, append_item.
  destruct (String.eqb (key x) k) eqn:E.
  - apply String.eqb_eq in E. subst k.
    destruct (Py.dict_mem d (key x)) eqn:Hm.
    + destruct (dict_mem_true _ _ Hm) as [l Hl]. rewrite Hl.
      by rewrite dict_get_set_eq.
    + rewrite dict_get_set_eq, dict_get_set_eq.
      by rewrite (dict_mem_false _ _ Hm).
  - apply String.eqb_neq in E.
    destruct (Py.dict_mem d (key x)) eqn:Hm.
    + destruct (dict_mem_true _ _ Hm) as [l Hl]. rewrite Hl.
      by rewrite dict_get_set_ne.
    + rewrite dict_get_set_eq. by rewrite !dict_get_set_ne.
Qed.

Lemma group_step_NoDup d x :
  NoDup (map fst d) -> NoDup (map fst (group_step key f d x)).
Proof.
  intros Hd. unfold group_step, append_item.
  destruct (Py.dict_mem d (key x)) eqn:Hm.
  - destruct (dict_mem_true _ _ Hm) as [l ->]. by apply dict_set_NoDup.
  - rewrite dict_get_set_eq. by apply dict_set_NoDup, dict_set_NoDup.
Qed.

(** What a grouping loop leaves under each key. *)
Lemma group_fold_get l d k :
  Py.dict_get (fold_left (group_step key f) l d) k
  = match Py.dict_get d k with
    | Some l0 =>
        Some (l0 ++ map f (List.filter (fun x => String.eqb (key x) k) l))
    | None => grouped key f l k
    end.
Proof.
  revert d. induction l as [|x l IH]; intros d.
  - unfold grouped. simpl. destruct (Py.dict_get d k); [|done].
    by rewrite app_nil_r.
  - cbn [fold_left]. rewrite IH, group_step_get. unfold grouped.
    cbn [List.filter].
    destruct (String.eqb (key x) k); [|done].
    destruct (Py.dict_get d k); simpl; by rewrite <- ?app_assoc.
Qed.

Lemma group_fold_NoDup l d :
  NoDup (map fst d) -> NoDup (map fst (fold_left (group_step key f) l d)).
Proof.
  revert d. induction l as [|x l IH]; intros d Hd; simpl; [done|].
  by apply IH, group_step_NoDup.
Qed.

(** Nothing is lost and nothing is listed twice. *)
Lemma line_items_set_append (d : list (string * list Item.t)) k l item :
  Py.dict_get d k = Some l ->
  line_items (Py.dict_set d k (l ++ [item])) ≡ₚ line_items d ++ [item].
Proof.
  unfold line_items.
  induction d as [|[k' l'] d IH]; simpl; [done|].
  destruct (String.eqb k' k) eqn:E; simpl.
  - intros [= ->]. rewrite <- !app_assoc. apply Permutation_app_head.
    apply Permutation_app_comm.
  - intros Hget. rewrite (IH Hget). by rewrite app_assoc.
Qed.

Lemma line_items_set_new (d : list (string * list Item.t)) k :
  Py.dict_get d k = None ->
  line_items (Py.dict_set d k []) = line_items d.
Proof.
  unfold line_items.
  induction d as [|[k' l'] d IH]; simpl; [done|].
  destruct (String.eqb k' k) eqn:E; simpl; [done|].
  intros Hget. by rewrite (IH Hget).
Qed.

Lemma group_step_items d x :
  line_items (group_step key f d x) ≡ₚ line_items d ++ [f x].
Proof.
  unfold group_step, append_item.
  destruct (Py.dict_mem d (key x)) eqn:Hm.
  - destruct (dict_mem_true _ _ Hm) as [l Hl]. rewrite Hl.
    by apply line_items_set_append.
  - rewrite dict_get_set_eq.
    rewrite line_items_set_append by apply dict_get_set_eq.
    by rewrite line_items_set_new by by apply dict_mem_false.
Qed.

Lemma group_fold_items l d :
  line_items (fold_left (group_step key f) l d) ≡ₚ line_items d ++ map f l.
Proof.
  revert d. induction l as [|x l IH]; intros d; simpl.
  - by rewrite app_nil_r.
  - rewrite IH, group_step_items, <- app_assoc. done.
Qed.

(** A grouping step keeps the first key of a dictionary and gives the
    empty dictionary its first key. *)
Lemma dict_set_first {V} (d : list (string * V)) k v :
  d <> [] -> head (map fst (Py.dict_set d k v)) = head (map fst d).
Proof.
  destruct d as [|[k0 v0] d]; [done|]. intros _. simpl.
  by destruct (String.eqb k0 k).
Qed.

Lemma dict_set_nonempty {V} (d : list (string * V)) k v :
  Py.dict_set d k v <> [].
Proof.
  destruct d as [|[k0 v0] d]; [done|]. simpl. by destruct (String.eqb k0 k).
Qed.

Lemma group_step_first d x :
  head (map fst (group_step key f d x))
  = match d with
    | [] => Some (key x)
    | _ => head (map fst d)
    end.
Proof.
  unfold group_step, append_item.
  destruct (Py.dict_mem d (key x)) eqn:Hm.
  - destruct (dict_mem_true _ _ Hm) as [l Hl]. rewrite Hl.
    destruct d as [|e d]; [done|]. by apply dict_set_first.
  - rewrite dict_get_set_eq.
    rewrite dict_set_first by apply dict_set_nonempty.
    destruct d as [|e d]; [done|]. by apply dict_set_first.
Qed.

End GroupingFacts.

Section SectionsAndStores.
Import GroceryOptimizerService GrocerySpec.
Variable db : PriceDatabase.t.

Lemma group_by_section_fold items :
  _group_by_section items
  = fold_left (group_step Item.section id) items [].
Proof. reflexivity. Qed.

Lemma fold_left_totals {B} (g : B -> Q) (l : list B) (t : Q) :
  fold_left (fun t x => t + g x) l t == t + Py.sum (map g l).
Proof.
  revert t. induction l as [|x l IH]; intros t; simpl.
  - rewrite sum_nil. ring.
  - rewrite IH, sum_cons. ring.
Qed.

(** Multi-store mode is a grouping loop: every basket entry is listed
    under its bucket as its cheapest item. *)
Lemma optimize_multi_store_fold grocery_list :
  let key (e : string * Q) := bucket_of db (first_bucket db grocery_list) e.1 in
  let item (e : string * Q) := cheapest_item db e.1 e.2 in
  _optimize_multi_store db grocery_list
  = (fold_left (group_step key item) grocery_list [],
     fold_left (fun t e => t + Item.total_price (item e)) grocery_list 0).
Proof.
  intros key item. unfold _optimize_multi_store.
  match goal with |- fold_left ?g _ _ = _ => set (step := g) end.
  set (fk := first_bucket db grocery_list) in *.
  enough (forall l d0 t0,
    (d0 <> [] -> head (map fst d0) = Some fk) ->
    (d0 = [] ->
     match l with
     | [] => True
     | e :: _ => bucket_of db "default" e.1 = fk
     end) ->
    fold_left step l (d0, t0)
    = (fold_left (group_step key item) l d0,
       fold_left (fun t e => t + Item.total_price (item e)) l t0)) as H.
  { apply H; [done|]. intros _. unfold fk, first_bucket.
    by destruct grocery_list as [|[n q] l]. }
  induction l as [|[n q] l IH]; intros d0 t0 Hhead Hempty; [done|].
  cbn [fold_left].
  assert (step (d0, t0) (n, q)
          = (group_step key item d0 (n, q),
             t0 + Item.total_price (item (n, q)))) as ->.
  { unfold step, group_step, key, item, bucket_of, cheapest_item. cbn [fst snd].
    destruct (_find_lowest_price_for_ingredient db (ingredient_of n)) as [p|]
      eqn:Hp; [done|].
    destruct d0 as [|[k0 l0] d0].
    - specialize (Hempty eq_refl). cbn [fst] in Hempty.
      unfold bucket_of in Hempty. rewrite Hp in Hempty. by rewrite <- Hempty.
    - specialize (Hhead ltac:(done)). injection Hhead as ->.
      unfold Py.dict_mem. by rewrite dict_get_head. }
  apply IH.
  - intros _. rewrite group_step_first.
    destruct d0 as [|e0 d0]; [|by apply Hhead].
    specialize (Hempty eq_refl). cbn [fst] in Hempty.
    unfold key, bucket_of in *. cbn [fst].
    destruct (_find_lowest_price_for_ingredient db (ingredient_of n));
      congruence.
  - intros Hnil. exfalso.
    pose proof (group_step_first key item d0 (n, q)) as Hf.
    rewrite Hnil in Hf. destruct d0 as [|e0 d0]; [done|].
    specialize (Hhead ltac:(done)). by rewrite Hhead in Hf.
Qed.

End SectionsAndStores.

(** X14.  [_group_by_section] partitions the line items by section: under
    each section it lists the items of that section in their original
    order, a section without items has no entry, no section appears twice,
    and all groups together hold the items handed in, each once.  The
    single-store plan groups the items of its one store in this way. *)
Theorem group_by_section_partitions_the_items (items : list Item.t) :
  let groups := GroceryOptimizerService._group_by_section items in
  (forall section,
     Py.dict_get groups section
     = match List.filter (fun i => String.eqb (Item.section i) section) items with
       | [] => None
       | found => Some found
       end)
  /\ NoDup (map fst groups)
  /\ line_items groups ≡ₚ items
  /\ forall db grocery_list prefs,
       let plan :=
         GroceryOptimizerService.optimize_grocery_list db grocery_list prefs
           true in
       GroceryPlan.items_by_section plan
       = GroceryOptimizerService._group_by_section
           (line_items (GroceryPlan.items_by_store plan)).
Proof.
  intros groups. subst groups. rewrite group_by_section_fold.
  split; [|split; [|split]].
  - intros section. rewrite group_fold_get. simpl.
    unfold GrocerySpec.grouped.
    destruct (List.filter _ items); [done|]. by rewrite map_id.
  - apply group_fold_NoDup. constructor.
  - rewrite group_fold_items. simpl. by rewrite map_id.
  - intros db grocery_list prefs.
    unfold GroceryOptimizerService.optimize_grocery_list.
    destruct (GroceryOptimizerService._calculate_store_items _ _ _)
      as [store_items total].
    unfold line_items. simpl. by rewrite app_nil_r.
Qed.

(** X15.  Multi-store mode lists every basket entry exactly once, priced at
    the lowest price the catalogue has for its ingredient (0.10 when it has
    none), under the store of that price; an entry without price goes to
    the first store of the dictionary, which is ["default"] only when the
    first basket entry has no price.  Within a store the items keep basket
    order, no store appears twice, and the total is the sum of the cheapest
    line totals. *)
Theorem multi_store_lists_each_entry_at_its_cheapest_store
    (db : PriceDatabase.t) (grocery_list : GroceryOptimizerService.GroceryList) :
  let '(items_by_store, total_cost) :=
    GroceryOptimizerService._optimize_multi_store db grocery_list in
  let bucket (e : string * Q) :=
    GrocerySpec.bucket_of db (GrocerySpec.first_bucket db grocery_list) e.1 in
  let item (e : string * Q) := GrocerySpec.cheapest_item db e.1 e.2 in
  (forall store_id,
     Py.dict_get items_by_store store_id
     = match List.filter (fun e => String.eqb (bucket e) store_id) grocery_list with
       | [] => None
       | entries => Some (map item entries)
       end)
  /\ NoDup (map fst items_by_store)
  /\ line_items items_by_store ≡ₚ map item grocery_list
  /\ total_cost == line_total (map item grocery_list).
Proof.
  rewrite optimize_multi_store_fold. cbv zeta.
  split; [|split; [|split]].
  - intros store_id. by rewrite group_fold_get.
  - apply group_fold_NoDup. constructor.
  - by rewrite group_fold_items.
  - rewrite fold_left_totals. unfold line_total. rewrite map_map. ring.
Qed.

(** ** Single-store against multi-store totals *)

Section ModesFacts.
Import GroceryOptimizerService GrocerySpec.
Variable db : PriceDatabase.t.

Lemma sum_map_le {B} (g h : B -> Q) (l : list B) :
  (forall x, x ∈ l -> g x <= h x) ->
  Py.sum (map g l) <= Py.sum (map h l).
Proof.
  induction l as [|x l IH]; intros Hle; simpl.
  - apply Qle_refl.
  - rewrite !sum_cons. apply Qplus_le_compat.
    + apply Hle, list_elem_of_here.
    + apply IH. intros y Hy. by apply Hle, list_elem_of_further.
Qed.

(** The lowest price of the catalogue is at most the price of the store. *)
Lemma cheapest_item_le_store_item store_id item_name quantity :
  0 <= quantity ->
  stocks db store_id item_name = true ->
  Item.total_price (cheapest_item db item_name quantity)
  <= Item.total_price (store_item db store_id item_name quantity).
Proof.
  intros Hq. unfold stocks, cheapest_item, store_item. cbv zeta.
  destruct (_find_lowest_price_for_ingredient_in_store db
              (ingredient_of item_name) store_id) as [p|] eqn:Hp; [|done].
  intros _. unfold _find_lowest_price_for_ingredient_in_store in Hp.
  apply find_some in Hp as [Hin Hb].
  apply andb_true_iff in Hb as [Hsame _].
  pose proof (find_lowest_price_spec db (ingredient_of item_name)) as Hlow.
  destruct (_find_lowest_price_for_ingredient db (ingredient_of item_name))
    as [e|].
  - simpl. apply Qmult_le_compat_r; [|done].
    apply (first_cheapest_least _ _ _ _ _ Hlow); [by apply list_elem_of_In|done].
  - apply list_elem_of_In in Hin. rewrite (Hlow p Hin) in Hsame. done.
Qed.

Lemma supplies_all_stocks grocery_list store_id item_name quantity :
  supplies_all db grocery_list store_id = true ->
  (item_name, quantity) ∈ grocery_list ->
  stocks db store_id item_name = true.
Proof.
  unfold supplies_all. rewrite forallb_forall.
  intros H Hin. by apply (H (item_name, quantity)), list_elem_of_In.
Qed.

Lemma multi_store_total_le_store grocery_list store_id :
  (forall item_name quantity,
     (item_name, quantity) ∈ grocery_list -> 0 <= quantity) ->
  supplies_all db grocery_list store_id = true ->
  (_optimize_multi_store db grocery_list).2
  <= store_cost db grocery_list store_id.
Proof.
  intros Hq Hall. rewrite optimize_multi_store_fold. cbv zeta. cbn [snd].
  rewrite fold_left_totals, store_cost_lines. unfold line_total.
  rewrite map_map, Qplus_0_l.
  apply sum_map_le. intros [n q] Hin. cbn [fst snd].
  apply cheapest_item_le_store_item; [by eapply Hq|].
  by eapply supplies_all_stocks.
Qed.

Lemma single_store_plan_total grocery_list prefs :
  GroceryPlan.total_cost (optimize_grocery_list db grocery_list prefs true)
  = store_cost db grocery_list
      (Store.id (_find_best_single_store db grocery_list)).
Proof.
  unfold optimize_grocery_list, store_cost.
  by destruct (_calculate_store_items db grocery_list _).
Qed.

Lemma multi_store_plan_total grocery_list prefs :
  GroceryPlan.total_cost (optimize_grocery_list db grocery_list prefs false)
  = (_optimize_multi_store db grocery_list).2.
Proof.
  unfold optimize_grocery_list.
  by destruct (_optimize_multi_store db grocery_list).
Qed.

Lemma best_store_supplies grocery_list s :
  s ∈ PriceDatabase.stores db ->
  supplies_all db grocery_list (Store.id s) = true ->
  supplies_all db grocery_list
    (Store.id (_find_best_single_store db grocery_list)) = true.
Proof.
  intros Hs Hall.
  pose proof (find_best_single_store_spec db grocery_list) as H.
  destruct (PriceDatabase.stores db) as [|first rest] eqn:Hstores.
  - by apply elem_of_nil in Hs.
  - assert (existsb (fun s => supplies_all db grocery_list (Store.id s))
              (first :: rest) = true) as Hex.
    { apply existsb_exists. exists s. by rewrite <- list_elem_of_In. }
    rewrite Hex in H. by destruct H as (pre & post & _ & He & _).
Qed.

End ModesFacts.

(** X16.  When some store of the catalogue has a price for every basket
    entry and no quantity is negative, shopping at several stores is never
    dearer than the single-store plan: the multi-store total is at most the
    single-store total, and at most the total at any store that supplies
    every entry. *)
Theorem multi_store_never_dearer (db : PriceDatabase.t)
    (grocery_list : GroceryOptimizerService.GroceryList)
    (prefs : UserPreferences.t) (s : Store.t) :
  (forall item_name quantity,
     (item_name, quantity) ∈ grocery_list -> 0 <= quantity) ->
  s ∈ PriceDatabase.stores db ->
  GrocerySpec.supplies_all db grocery_list (Store.id s) = true ->
  let multi :=
    GroceryOptimizerService.optimize_grocery_list db grocery_list prefs false in
  let single :=
    GroceryOptimizerService.optimize_grocery_list db grocery_list prefs true in
  GroceryPlan.total_cost multi <= GroceryPlan.total_cost single
  /\ GroceryPlan.total_cost single
     <= GrocerySpec.store_cost db grocery_list (Store.id s)
  /\ GroceryPlan.total_cost multi
     <= GrocerySpec.store_cost db grocery_list (Store.id s).
Proof.
  intros Hq Hs Hall multi single. subst multi single.
  rewrite single_store_plan_total, multi_store_plan_total.
  pose proof (best_store_supplies db grocery_list s Hs Hall) as Hbest.
  split; [by apply multi_store_total_le_store|].
  split; [|by apply multi_store_total_le_store].
  pose proof (find_best_single_store_spec db grocery_list) as H.
  destruct (PriceDatabase.stores db) as [|first rest] eqn:Hstores.
  - by apply elem_of_nil in Hs.
  - assert (existsb
              (fun s => GrocerySpec.supplies_all db grocery_list (Store.id s))
              (first :: rest) = true) as Hex.
    { apply existsb_exists. exists s. by rewrite <- list_elem_of_In. }
    rewrite Hex in H.
    by apply (first_cheapest_least _ _ _ _ _ H).
Qed.

(** The theorem at the default catalogue for chicken and rice: 33 + 9 at
    store_1 in both modes. *)
Lemma multi_store_never_dearer_witness :
  let db := GroceryOptimizerService.default_prices in
  let basket := [("Chicken Breast (g)"%string, 300); ("Rice (g)"%string, 500)] in
  let prefs := Samples.preferences 100 2 in
  let multi := GroceryOptimizerService.optimize_grocery_list db basket prefs false in
  let single := GroceryOptimizerService.optimize_grocery_list db basket prefs true in
  GroceryPlan.total_cost multi <= GroceryPlan.total_cost single
  /\ GroceryPlan.total_cost single
     <= GrocerySpec.store_cost db basket "store_1"
  /\ GroceryPlan.total_cost multi
     <= GrocerySpec.store_cost db basket "store_1".
Proof.
  apply (multi_store_never_dearer GroceryOptimizerService.default_prices
           [("Chicken Breast (g)"%string, 300); ("Rice (g)"%string, 500)]
           (Samples.preferences 100 2)
           (Store.mk "store_1" "FreshMart" "Downtown")).
  - intros n q Hin.
    repeat (apply elem_of_cons in Hin as [[= -> ->]|Hin]; [by vm_compute|]).
    by apply elem_of_nil in Hin.
  - apply list_elem_of_here.
  - reflexivity.
Defined.

(** Without a store that supplies every entry the single-store plan can be
    the cheaper one: an entry the selected store does not sell is charged
    the default 0.10 there, whatever it costs elsewhere. *)
Example single_store_cheaper_through_default_price :
  let db :=
    PriceDatabase.mk
      [ Store.mk "store_1" "FreshMart" "Downtown";
        Store.mk "store_2" "ValueGrocer" "Uptown" ]
      [ PriceEntry.mk "Saffron" "store_2" "g" 5 "spices" ] in
  let basket := [("Saffron (g)"%string, 2); ("Truffle (g)"%string, 1)] in
  let prefs := Samples.preferences 100 2 in
  let single := GroceryOptimizerService.optimize_grocery_list db basket prefs true in
  let multi := GroceryOptimizerService.optimize_grocery_list db basket prefs false in
  GroceryPlan.selected_store single = Some (Store.mk "store_1" "FreshMart" "Downtown")
  /\ GroceryPlan.total_cost single == 0.3
  /\ GroceryPlan.total_cost multi == 10.1
  /\ ~ GroceryPlan.total_cost multi <= GroceryPlan.total_cost single.
Proof.
  cbv zeta. split; [reflexivity|]. split; [by vm_compute|].
  split; [by vm_compute|]. intros H. by vm_compute in H.
Qed.

(** X17.  With non-negative prices the plan never holds a substitution: on
    the ascending list the second price cannot be below nine tenths of the
    first, in either mode and for every basket. *)
Theorem no_substitution_with_nonnegative_prices (db : PriceDatabase.t)
    (grocery_list : GroceryOptimizerService.GroceryList)
    (prefs : UserPreferences.t) (single_store_mode : bool) :
  (forall e, e ∈ PriceDatabase.prices db -> 0 <= PriceEntry.price_per_unit e) ->
  GroceryPlan.substitutions
    (GroceryOptimizerService.optimize_grocery_list db grocery_list prefs
       single_store_mode)
  = [].
Proof.
  intros Hnn. rewrite plan_substitutions.
  by apply no_substitution_for_nonnegative_prices.
Qed.

(** The theorem at the default catalogue, for chicken and rice. *)
Lemma no_substitution_with_nonnegative_prices_witness :
  GroceryPlan.substitutions
    (GroceryOptimizerService.optimize_grocery_list
       GroceryOptimizerService.default_prices
       [("Chicken Breast (g)"%string, 300); ("Rice (g)"%string, 500)]
       (Samples.preferences 100 2) false)
  = [].
Proof.
  apply (no_substitution_with_nonnegative_prices
           GroceryOptimizerService.default_prices
           [("Chicken Breast (g)"%string, 300); ("Rice (g)"%string, 500)]
           (Samples.preferences 100 2) false).
  intros e He. simpl in He.
  repeat (apply elem_of_cons in He as [->|He]; [by vm_compute|]).
  by apply elem_of_nil in He.
Defined.

(** ** The generated week *)

Section WeekFacts.
Import MealPlannerService SchedulerSpec WeekSpec.

Lemma schedule_filled optimized_plan prefs :
  filled_prefix (expand optimized_plan) 21 (schedule optimized_plan prefs).
Proof.
  rewrite schedule_slots.
  apply (filled_prefix_fold prefs (expand optimized_plan) 21 0); [lia|].
  exists []. by repeat split.
Qed.

Lemma placed_filled (pl : list Recipe.t) n :
  placed ((Some <$> pl) ++ replicate n None) = pl.
Proof.
  unfold placed. by rewrite omap_app, placed_Some, placed_None, app_nil_r.
Qed.

(** The recipes of the returned meals are the placed ones, and they are
    occurrences of the expanded selection. *)
Lemma created_meals_placed today_weekday optimized_plan prefs :
  exists remaining,
    meals_recipes (_create_daily_meals today_weekday optimized_plan prefs)
      ++ remaining ≡ₚ expand optimized_plan
    /\ length
         (meals_recipes (_create_daily_meals today_weekday optimized_plan prefs))
       = (21 `min` length (expand optimized_plan))%nat.
Proof.
  destruct (schedule_filled optimized_plan prefs) as (pl & Ha & Hlen & Hperm).
  exists (recipe_assignments (schedule optimized_plan prefs)).
  unfold _create_daily_meals. rewrite daily_meals_recipes.
  - by rewrite Ha, placed_filled.
  - rewrite Ha, length_app, length_fmap, length_replicate. lia.
Qed.

Lemma expand_fold (l : list (Recipe.t * Z)) acc :
  fold_left
    (fun recipe_assignments '(recipe, servings) =>
       recipe_assignments ++ replicate (Z.to_nat servings) recipe)
    l acc
  = acc ++ concat (map (fun e => replicate (Z.to_nat e.2) e.1) l).
Proof.
  revert acc. induction l as [|[r s] l IH]; intros acc; simpl.
  - by rewrite app_nil_r.
  - by rewrite IH, app_assoc.
Qed.

Lemma expand_concat optimized_plan :
  expand optimized_plan
  = concat (map (fun e => replicate (Z.to_nat e.2) e.1) optimized_plan).
Proof. unfold expand. by rewrite expand_fold. Qed.

Lemma expand_elem optimized_plan r :
  r ∈ expand optimized_plan -> r ∈ map fst optimized_plan.
Proof.
  rewrite expand_concat.
  induction optimized_plan as [|[r' s] l IH]; simpl; [done|].
  intros [Hr|Hr]%elem_of_app.
  - apply elem_of_replicate in Hr as [-> _]. apply list_elem_of_here.
  - by apply list_elem_of_further, IH.
Qed.

Lemma filter_length_Permutation {B} (f : B -> bool) (l l' : list B) :
  l ≡ₚ l' -> length (List.filter f l) = length (List.filter f l').
Proof.
  induction 1 as [|x l l' _ IH|x y l|l l' l'' _ IH1 _ IH2]; simpl.
  - done.
  - destruct (f x); simpl; by rewrite IH.
  - by destruct (f x), (f y).
  - by rewrite IH1.
Qed.

Lemma filter_length_replicate {B} (f : B -> bool) n (x : B) :
  length (List.filter f (replicate n x)) = if f x then n else 0%nat.
Proof.
  induction n as [|n IH]; simpl; [by destruct (f x)|].
  destruct (f x); simpl; by rewrite ?IH.
Qed.

Lemma expand_count (f : Recipe.t -> bool) optimized_plan :
  length (List.filter f (expand optimized_plan))
  = sum_list
      (map (fun e : Recipe.t * Z => if f e.1 then Z.to_nat e.2 else 0%nat)
         optimized_plan).
Proof.
  rewrite expand_concat.
  induction optimized_plan as [|[r s] l IH]; simpl; [done|].
  by rewrite List.filter_app, length_app, filter_length_replicate, IH.
Qed.

(** With distinct recipe ids, the servings under one id come from at most
    one entry of the selection. *)
Lemma unique_id_servings (selection : list (Recipe.t * Z)) recipe_id cap :
  NoDup (map Recipe.id (map fst selection)) ->
  (forall r s, (r, s) ∈ selection -> (Z.to_nat s <= cap)%nat) ->
  (sum_list
     (map (fun e : Recipe.t * Z =>
             if String.eqb (Recipe.id e.1) recipe_id then Z.to_nat e.2 else 0%nat)
        selection)
   <= cap)%nat.
Proof.
  induction selection as [|[r s] l IH]; simpl; [lia|].
  intros [Hr Hnd]%NoDup_cons Hcap.
  destruct (String.eqb (Recipe.id r) recipe_id) eqn:E.
  - apply String.eqb_eq in E. subst recipe_id.
    assert (sum_list
              (map (fun e : Recipe.t * Z =>
                      if String.eqb (Recipe.id e.1) (Recipe.id r)
                      then Z.to_nat e.2 else 0%nat) l) = 0%nat) as ->.
    { clear -Hr. induction l as [|[r' s'] l IH]; simpl; [done|].
      simpl in Hr. apply not_elem_of_cons in Hr as [Hne Hr].
      destruct (String.eqb (Recipe.id r') (Recipe.id r)) eqn:E.
      - apply String.eqb_eq in E. congruence.
      - by apply IH. }
    specialize (Hcap r s (list_elem_of_here _ _)). lia.
  - apply IH; [done|]. intros r' s' Hin. apply (Hcap r').
    by apply list_elem_of_further.
Qed.

Lemma total_servings_Z (selection : list (Recipe.t * Z)) :
  (forall r s, (r, s) ∈ selection -> (0 <= s)%Z) ->
  Z.of_nat (total_servings selection) = SelectionSpec.servings_total selection.
Proof.
  unfold total_servings.
  induction selection as [|[r s] l IH]; intros Hnn; simpl; [done|].
  rewrite Nat2Z.inj_add, IH.
  - rewrite Z2Nat.id; [done|]. apply (Hnn r), list_elem_of_here.
  - intros r' s' Hin. apply (Hnn r'). by apply list_elem_of_further.
Qed.

(** Twenty-one placed recipes give seven days of three meals. *)
Lemma to_daily_meals_full today_weekday (pl : list Recipe.t) i day :
  length pl = 21%nat ->
  days !! i = Some day ->
  exists r1 r2 r3,
    to_daily_meals today_weekday ((Some <$> pl) ++ replicate (21 - length pl) None)
      !! i
    = Some
        (DailyMeals.mk (Z.of_nat i + (7 - today_weekday) mod 7)
           [ Meal.mk day "breakfast" r1; Meal.mk day "lunch" r2;
             Meal.mk day "dinner" r3 ]).
Proof.
  intros Hlen Hday. rewrite Hlen, Nat.sub_diag. cbn [replicate].
  rewrite app_nil_r.
  do 21 (destruct pl as [|? pl]; [done|]). destruct pl; [|done].
  unfold days in Hday.
  do 7 (destruct i as [|i];
        [injection Hday as <-; do 3 eexists; reflexivity|]).
  done.
Qed.

Lemma to_daily_meals_dates today_weekday (a : list (option Recipe.t)) :
  map DailyMeals.date (to_daily_meals today_weekday a)
  = map (fun i : nat => (Z.of_nat i + (7 - today_weekday) mod 7)%Z) (seq 0 7).
Proof. reflexivity. Qed.

End WeekFacts.

Section GeneratedWeek.
Import OptimizationService MealPlannerService SchedulerSpec SelectionSpec WeekSpec.
Context {backend : pywraplp.Solver} {exact : pywraplp.ExactSolver backend}.

(** A non-empty selection returned by the solver holds at least 21
    occurrences, all of recipes of the pool. *)
Lemma returned_selection recipes prefs evs selection :
  optimize_meal_plan recipes prefs 7 = (evs, Returned selection) ->
  selection <> [] ->
  (21 <= length (expand selection))%nat
  /\ sublist (map fst selection) recipes
  /\ forall r s,
       (r, s) ∈ selection ->
       (0 < s <= 10 `min` UserPreferences.max_repeats_per_week prefs)%Z.
Proof.
  intros Hrun Hne.
  destruct (optimize_meal_plan_selection recipes prefs evs selection Hrun)
    as [_ Hsel].
  destruct (Hsel Hne) as [E ->]. apply pywraplp.Solve_sound in E.
  destruct (feasible_selection recipes prefs _ E) as (_ & Hs & Htot & _).
  split; [|split; [apply collect_sublist | done]].
  rewrite expand_length. apply Nat2Z.inj_le. rewrite total_servings_Z; [done|].
  intros r s Hin. specialize (Hs r s Hin). lia.
Qed.

End GeneratedWeek.

(** X18.  A selection the solver returns fills the week: the daily meals
    built from it are seven days, Monday to Sunday, each with exactly three
    meals (breakfast, lunch and dinner, in this order) labelled with the
    day, and every meal is cooked from a recipe of the candidate pool.  The
    solver is taken to be exact. *)
Theorem returned_selection_fills_the_week {backend : pywraplp.Solver}
    {exact : pywraplp.ExactSolver backend} (recipes : list Recipe.t)
    (prefs : UserPreferences.t) (evs : list Event)
    (selection : list (Recipe.t * Z)) (today_weekday : Z) :
  OptimizationService.optimize_meal_plan recipes prefs 7
  = (evs, Returned selection) ->
  selection <> [] ->
  let daily_meals :=
    MealPlannerService._create_daily_meals today_weekday selection prefs in
  length daily_meals = 7%nat
  /\ (forall i day,
        MealPlannerService.days !! i = Some day ->
        exists r1 r2 r3,
          daily_meals !! i
          = Some
              (DailyMeals.mk (Z.of_nat i + (7 - today_weekday) mod 7)
                 [ Meal.mk day "breakfast" r1; Meal.mk day "lunch" r2;
                   Meal.mk day "dinner" r3 ]))
  /\ forall r, r ∈ SchedulerSpec.meals_recipes daily_meals -> r ∈ recipes.
Proof.
  intros Hrun Hne daily_meals.
  destruct (returned_selection recipes prefs evs selection Hrun Hne)
    as (Hlen & Hsub & _).
  split; [done|]. split.
  - intros i day Hday. subst daily_meals.
    unfold MealPlannerService._create_daily_meals.
    destruct (schedule_filled selection prefs) as (pl & -> & Hpl & _).
    apply to_daily_meals_full; [lia | done].
  - intros r Hr. subst daily_meals.
    destruct (created_meals_placed today_weekday selection prefs)
      as (remaining & Hperm & _).
    assert (r ∈ MealPlannerService.expand selection) as Hin.
    { rewrite <- Hperm. apply elem_of_app. by left. }
    apply expand_elem in Hin.
    eapply sublist_submseteq, elem_of_submseteq in Hsub; [exact Hsub|done].
Qed.

(** The theorem for the sample pool with a budget of 200 and at most 10
    repeats, solved exhaustively, on a Monday. *)
Lemma returned_selection_fills_the_week_witness :
  let daily_meals :=
    MealPlannerService._create_daily_meals 0 WeekSpec.sample_selection
      (Samples.preferences 200 10) in
  length daily_meals = 7%nat
  /\ (forall i day,
        MealPlannerService.days !! i = Some day ->
        exists r1 r2 r3,
          daily_meals !! i
          = Some
              (DailyMeals.mk (Z.of_nat i + (7 - 0) mod 7)
                 [ Meal.mk day "breakfast" r1; Meal.mk day "lunch" r2;
                   Meal.mk day "dinner" r3 ]))
  /\ forall r, r ∈ SchedulerSpec.meals_recipes daily_meals -> r ∈ Samples.pool.
Proof.
  apply (returned_selection_fills_the_week (backend := ReferenceSolver.exhaustive)
           Samples.pool (Samples.preferences 200 10)
           (events
              (OptimizationService.optimize_meal_plan
                 (backend := ReferenceSolver.exhaustive) Samples.pool
                 (Samples.preferences 200 10) 7))
           WeekSpec.sample_selection 0).
  - vm_compute. reflexivity.
  - discriminate.
Defined.

(** X19.  The week respects the variety cap.  When the candidate recipes
    have distinct ids, no recipe is cooked more than
    min(10, max_repeats_per_week) times in the daily meals built from a
    selection the solver returns.  The solver is taken to be exact. *)
Theorem week_respects_variety_cap {backend : pywraplp.Solver}
    {exact : pywraplp.ExactSolver backend} (recipes : list Recipe.t)
    (prefs : UserPreferences.t) (evs : list Event)
    (selection : list (Recipe.t * Z)) (today_weekday : Z)
    (recipe_id : string) :
  NoDup (map Recipe.id recipes) ->
  OptimizationService.optimize_meal_plan recipes prefs 7
  = (evs, Returned selection) ->
  selection <> [] ->
  (Z.of_nat
     (WeekSpec.times_served recipe_id
        (SchedulerSpec.meals_recipes
           (MealPlannerService._create_daily_meals today_weekday selection
              prefs)))
   <= 10 `min` UserPreferences.max_repeats_per_week prefs)%Z.
Proof.
  intros Hnd Hrun Hne.
  destruct (returned_selection recipes prefs evs selection Hrun Hne)
    as (_ & Hsub & Hs).
  set (cap := (10 `min` UserPreferences.max_repeats_per_week prefs)%Z) in *.
  assert (1 <= cap)%Z as Hcap.
  { clear -Hne Hs. destruct selection as [|[r s] l]; [done|].
    specialize (Hs r s (list_elem_of_here _ _)). lia. }
  destruct (created_meals_placed today_weekday selection prefs)
    as (remaining & Hperm & _).
  unfold WeekSpec.times_served.
  set (f := fun r : Recipe.t => String.eqb (Recipe.id r) recipe_id).
  assert (length (List.filter f (MealPlannerService.expand selection))
          <= Z.to_nat cap)%nat as Hcount.
  { rewrite expand_count. apply unique_id_servings.
    - eapply sublist_NoDup; [exact Hnd|].
      change (map Recipe.id ?l) with (Recipe.id <$> l).
      by apply fmap_sublist.
    - intros r s Hin. specialize (Hs r s Hin). lia. }
  rewrite <- (filter_length_Permutation f _ _ Hperm) in Hcount.
  rewrite List.filter_app, length_app in Hcount. lia.
Qed.

(** The theorem for the sample pool with a budget of 200 and at most 10
    repeats, solved exhaustively: the stir fry is cooked at most 10
    times. *)
Lemma week_respects_variety_cap_witness :
  (Z.of_nat
     (WeekSpec.times_served "1"
        (SchedulerSpec.meals_recipes
           (MealPlannerService._create_daily_meals 0 WeekSpec.sample_selection
              (Samples.preferences 200 10))))
   <= 10 `min` 10)%Z.
Proof.
  apply (week_respects_variety_cap (backend := ReferenceSolver.exhaustive)
           Samples.pool (Samples.preferences 200 10)
           (events
              (OptimizationService.optimize_meal_plan
                 (backend := ReferenceSolver.exhaustive) Samples.pool
                 (Samples.preferences 200 10) 7))
           WeekSpec.sample_selection 0 "1").
  - apply (bool_decide_unpack _). by vm_compute.
  - vm_compute. reflexivity.
  - discriminate.
Defined.

(** ** The end of a run of the planner *)

Section PlanFacts.
Import OptimizationService MealPlannerService SelectionSpec WeekSpec.
Context {backend : pywraplp.Solver}.
Variable recipes_table : list Recipe.t.
Variable price_database : PriceDatabase.t.

(** Every way [generate_meal_plan] ends. *)
Lemma generate_meal_plan_cases today_weekday prefs :
  let filtered :=
    RecipeService.filter_recipes recipes_table
      (UserPreferences.dietary_restrictions prefs)
      (UserPreferences.allergies prefs)
      (UserPreferences.max_cooking_time_min prefs)
      (UserPreferences.preferred_cuisines prefs) in
  let m := build_model filtered prefs 7 in
  generate_meal_plan recipes_table price_database today_weekday prefs
  = match filtered with
    | [] =>
        ([], Raised (ValueError "No recipes match your preferences and constraints"))
    | _ =>
        if targeted prefs then ([], Raised pywraplp.bad_operand)
        else if pywraplp.solved (pywraplp.Solve m).1 then
          ([Solved m],
           match collect filtered 0 (pywraplp.Solve m).2 with
           | [] =>
               Raised
                 (ValueError "Could not generate a meal plan within your constraints")
           | _ =>
               Raised
                 (ValidationError "1 validation error for MealPlan: grocery_list")
           end)
        else
          ([Solved m;
            Printed "Could not find solution with current constraints. Consider relaxing some requirements."],
           Raised
             (ValueError "Could not generate a meal plan within your constraints"))
    end.
Proof.
  intros filtered m. unfold generate_meal_plan. fold filtered.
  destruct filtered as [|r0 rest] eqn:Hf; [done|].
  rewrite optimize_meal_plan_cases by done. cbv zeta. fold m.
  unfold deviation_of_expression.
  destruct (targeted prefs); [done|].
  destruct (pywraplp.solved (pywraplp.Solve m).1); [|done].
  unfold mbind, Run_bind, bind.
  destruct (collect (r0 :: rest) 0 (pywraplp.Solve m).2) as [|e sel]; done.
Qed.

End PlanFacts.

(** X20.  The dates of a week, in days counted from today, for a run on
    weekday w (Monday is 0).  The week start computed by
    [generate_meal_plan] is the next Monday strictly after today, between 1
    and 7 days ahead.  The daily meals built by [_create_daily_meals] are
    dated on seven consecutive days; these start on that Monday unless
    today is a Monday, in which case they start today, a week before it. *)
Theorem week_start_and_daily_dates (today_weekday : Z)
    (optimized_plan : list (Recipe.t * Z)) (prefs : UserPreferences.t) :
  (0 <= today_weekday <= 6)%Z ->
  let first_day := (if (today_weekday =? 0)%Z then 0 else 7 - today_weekday)%Z in
  let week_start_date := MealPlannerService.week_start_date today_weekday in
  (1 <= week_start_date <= 7)%Z
  /\ ((today_weekday + week_start_date) mod 7 = 0)%Z
  /\ map DailyMeals.date
       (MealPlannerService._create_daily_meals today_weekday optimized_plan
          prefs)
     = map (fun i : nat => (first_day + Z.of_nat i)%Z) (seq 0 7)
  /\ week_start_date
     = (if (today_weekday =? 0)%Z then first_day + 7 else first_day)%Z.
Proof.
  intros Hw first_day week_start_date.
  subst first_day week_start_date.
  unfold MealPlannerService._create_daily_meals.
  rewrite to_daily_meals_dates.
  assert (today_weekday = 0 \/ today_weekday = 1 \/ today_weekday = 2
          \/ today_weekday = 3 \/ today_weekday = 4 \/ today_weekday = 5
          \/ today_weekday = 6)%Z as Hcases by lia.
  destruct Hcases as [->|[->|[->|[->|[->|[->| ->]]]]]];
    (split; [by vm_compute|]); (split; [reflexivity|]);
    (split; reflexivity).
Qed.

(** The theorem for the sample selection on a Monday: the week starts in 7
    days, the daily meals are dated from today. *)
Lemma week_start_and_daily_dates_witness :
  (1 <= MealPlannerService.week_start_date 0 <= 7)%Z
  /\ ((0 + MealPlannerService.week_start_date 0) mod 7 = 0)%Z
  /\ map DailyMeals.date
       (MealPlannerService._create_daily_meals 0 WeekSpec.sample_selection
          (Samples.preferences 200 10))
     = map (fun i : nat => (0 + Z.of_nat i)%Z) (seq 0 7)
  /\ MealPlannerService.week_start_date 0 = (0 + 7)%Z.
Proof.
  apply (week_start_and_daily_dates 0 WeekSpec.sample_selection
           (Samples.preferences 200 10)).
  lia.
Defined.

(** X21.  The nutritional summary computed for a selection holds, under the
    four keys total_protein_g, total_carbs_g, total_fat_g and
    total_calories, in this order, the sums over the selection of servings
    times the recipe's protein, carbohydrates, fat and calories (floats
    taken as exact numbers). *)
Theorem nutritional_summary_adds_up_the_selection
    (optimized_plan : list (Recipe.t * Z)) :
  exists p c f k,
    MealPlannerService._calculate_nutritional_summary optimized_plan
    = [ ("total_protein_g"%string, p); ("total_carbs_g"%string, c);
        ("total_fat_g"%string, f); ("total_calories"%string, k) ]
    /\ p == SelectionSpec.weighted_total Recipe.total_protein_g optimized_plan
    /\ c == SelectionSpec.weighted_total Recipe.total_carbs_g optimized_plan
    /\ f == SelectionSpec.weighted_total Recipe.total_fat_g optimized_plan
    /\ k == SelectionSpec.weighted_total Recipe.total_calories optimized_plan.
Proof.
  unfold MealPlannerService._calculate_nutritional_summary.
  match goal with |- context [fold_left ?g _ _] => set (step := g) end.
  enough (forall l p0 c0 f0 k0,
    exists p c f k,
      fold_left step l (p0, c0, f0, k0) = (p, c, f, k)
      /\ p == p0 + SelectionSpec.weighted_total Recipe.total_protein_g l
      /\ c == c0 + SelectionSpec.weighted_total Recipe.total_carbs_g l
      /\ f == f0 + SelectionSpec.weighted_total Recipe.total_fat_g l
      /\ k == k0 + SelectionSpec.weighted_total Recipe.total_calories l) as H.
  { destruct (H optimized_plan 0 0 0 0)
      as (p & c & f & k & -> & Hp & Hc & Hf & Hk).
    exists p, c, f, k. split; [done|].
    rewrite Hp, Hc, Hf, Hk. split; [ring|]. split; [ring|].
    split; ring. }
  induction l as [|[r s] l IH]; intros p0 c0 f0 k0.
  - exists p0, c0, f0, k0. split; [done|]. simpl.
    split; [ring|]. split; [ring|]. split; ring.
  - cbn [fold_left]. unfold step at 2.
    destruct (IH (p0 + Recipe.total_protein_g r * inject_Z s)
                 (c0 + Recipe.total_carbs_g r * inject_Z s)
                 (f0 + Recipe.total_fat_g r * inject_Z s)
                 (k0 + Recipe.total_calories r * inject_Z s))
      as (p & c & f & k & -> & Hp & Hc & Hf & Hk).
    exists p, c, f, k. split; [done|].
    rewrite Hp, Hc, Hf, Hk. simpl.
    split; [ring|]. split; [ring|]. split; ring.
Qed.

(** X22.  The ways [generate_meal_plan] ends; none of them hands back a
    plan.  When no recipe passes the filter it raises ["No recipes match
    your preferences and constraints"] without calling the solver.  When
    the preferences set a nutrition target it raises [TypeError], again
    without calling the solver.  Otherwise the solver is called exactly
    once: the run ends in ["Could not generate a meal plan within your
    constraints"] exactly when the integer program has no solution, and
    when it has one the week is scheduled and priced and the [MealPlan]
    constructor raises [ValidationError] on the grocery list it is handed.
    The solver is taken to be exact. *)
Theorem generate_meal_plan_outcomes {backend : pywraplp.Solver}
    {exact : pywraplp.ExactSolver backend} (recipes_table : list Recipe.t)
    (price_database : PriceDatabase.t) (today_weekday : Z)
    (prefs : UserPreferences.t) :
  let filtered :=
    RecipeService.filter_recipes recipes_table
      (UserPreferences.dietary_restrictions prefs)
      (UserPreferences.allergies prefs)
      (UserPreferences.max_cooking_time_min prefs)
      (UserPreferences.preferred_cuisines prefs) in
  let run :=
    MealPlannerService.generate_meal_plan recipes_table price_database
      today_weekday prefs in
  (filtered = [] ->
   run = ([], Raised (ValueError "No recipes match your preferences and constraints")))
  /\ (filtered <> [] -> SelectionSpec.targeted prefs = true ->
      events run = [] /\ exists msg, outcome run = Raised (TypeError msg))
  /\ (filtered <> [] -> SelectionSpec.targeted prefs = false ->
      OptimizationService.solve_count (events run) = 1%nat
      /\ (SelectionSpec.infeasible_program filtered prefs <->
          outcome run
          = Raised
              (ValueError "Could not generate a meal plan within your constraints"))
      /\ ((exists solution,
             pywraplp.feasible
               (OptimizationService.build_model filtered prefs 7) solution) <->
          exists msg, outcome run = Raised (ValidationError msg)))
  /\ (forall plan, outcome run <> Returned plan).
Proof.
  intros filtered run. subst run.
  rewrite generate_meal_plan_cases. cbv zeta. fold filtered.
  destruct filtered as [|r0 rest] eqn:Hf.
  { split; [done|]. split; [done|]. split; [done|]. done. }
  split; [done|].
  destruct (SelectionSpec.targeted prefs) eqn:Ht.
  { split; [|split; [done|done]]. intros _ _. split; [done|].
    eexists. reflexivity. }
  split; [done|].
  destruct (pywraplp.solved _) eqn:E.
  - pose proof (solved_selection_nonempty (r0 :: rest) prefs E) as Hsel.
    pose proof (pywraplp.Solve_sound _ E) as Hfeas.
    destruct (OptimizationService.collect (r0 :: rest) 0 _) as [|e sel];
      [done|].
    split; [|done]. intros _ _. split; [done|]. split.
    + split; [|done]. intros Hinf. by destruct (Hinf _ Hfeas).
    + split; [|by eexists]. intros _. eexists. reflexivity.
  - split; [|done]. intros _ _. split; [done|]. split.
    + split; [done|]. intros _ solution Hfeas.
      apply pywraplp.Solve_complete in Hfeas. congruence.
    + split; [|by intros [msg ?]].
      intros [solution Hfeas].
      apply pywraplp.Solve_complete in Hfeas. congruence.
Qed.

(** The theorem for the sample pool with a budget of 200, no nutrition
    target and at most 10 repeats, solved exhaustively: the program has a
    solution, and the run ends in the constructor's [ValidationError]. *)
Lemma generate_meal_plan_outcomes_witness :
  exists msg,
    outcome
      (MealPlannerService.generate_meal_plan
         (backend := ReferenceSolver.exhaustive) Samples.pool
         GroceryOptimizerService.default_prices 0 (Samples.preferences 200 10))
    = Raised (ValidationError msg).
Proof.
  destruct (generate_meal_plan_outcomes (backend := ReferenceSolver.exhaustive)
              Samples.pool GroceryOptimizerService.default_prices 0
              (Samples.preferences 200 10))
    as (_ & _ & Hsolved & _).
  destruct Hsolved as (_ & _ & Hplan); [discriminate | reflexivity |].
  apply Hplan.
  exists (ReferenceSolver.exhaustive
            (OptimizationService.build_model Samples.pool
               (Samples.preferences 200 10) 7)).2.
  apply (pywraplp.Solve_sound (backend := ReferenceSolver.exhaustive)).
  vm_compute. reflexivity.
Defined.

(** ** The usage tracker *)

Section TrackerFacts.
Import MealPlannerService SchedulerSpec WeekSpec.

Lemma name_count_cons name ingredient ingredients :
  name_count name (ingredient :: ingredients)
  = ((if String.eqb (Ingredient.name ingredient) name then 1 else 0)
     + name_count name ingredients)%Z.
Proof.
  unfold name_count. simpl.
  destruct (String.eqb (Ingredient.name ingredient) name); simpl; lia.
Qed.

Lemma name_count_app name l1 l2 :
  name_count name (l1 ++ l2) = (name_count name l1 + name_count name l2)%Z.
Proof.
  unfold name_count. rewrite List.filter_app, length_app. lia.
Qed.

Lemma name_count_nonneg name ingredients : (0 <= name_count name ingredients)%Z.
Proof. unfold name_count. lia. Qed.

Lemma usage_snoc name placed recipe :
  usage name (placed ++ [recipe])
  = (usage name placed + name_count name (Recipe.ingredients recipe))%Z.
Proof.
  unfold usage. rewrite map_app, concat_app, name_count_app. simpl.
  by rewrite app_nil_r.
Qed.

(** What the update of the tracker for one placed recipe leaves under a
    name. *)
Lemma track_lookup ingredients (tracker : gmap string Z) name :
  track ingredients tracker !! name
  = match tracker !! name with
    | Some m => Some (m + name_count name ingredients)%Z
    | None => counter (name_count name ingredients)
    end.
Proof.
  revert tracker. induction ingredients as [|ing l IH]; intros tracker.
  - simpl. unfold name_count. simpl.
    destruct (tracker !! name); [f_equal; lia | done].
  - cbn [track fold_left]. fold (track l). rewrite IH, name_count_cons.
    pose proof (name_count_nonneg name l) as Hnn.
    destruct (String.eqb (Ingredient.name ing) name) eqn:E.
    + apply String.eqb_eq in E. rewrite E.
      destruct (tracker !! name) as [m|] eqn:Hm.
      * rewrite lookup_insert_eq. f_equal. lia.
      * rewrite lookup_insert_eq. unfold counter.
        destruct (1 + name_count name l =? 0)%Z eqn:Hz; [lia|done].
    + apply String.eqb_neq in E.
      destruct (tracker !! Ingredient.name ing);
        rewrite lookup_insert_ne by done; by destruct (tracker !! name).
Qed.

Lemma tracked_step prefs pool0 k st :
  (k < 21)%nat ->
  filled_prefix pool0 k st -> tracked st ->
  tracked (assign_slot prefs st k).
Proof.
  intros Hk (pl & Ha & Hlen & Hperm) Htr.
  assert (length pl + length (recipe_assignments st) = length pool0)%nat
    as Hcount by by rewrite <- Hperm, length_app.
  destruct (recipe_assignments st) as [|r0 pool] eqn:Hpool.
  - by rewrite assign_slot_empty.
  - destruct (assign_slot_pick prefs st k) as (i & r & Hi & _ & ->);
      [by rewrite Hpool|].
    simpl in Hcount.
    assert (length pl = k) as Hpk by lia.
    intros name. cbn [ingredient_usage_tracker assigned_recipes].
    assert (placed (<[k:=Some r]> (assigned_recipes st)) = pl ++ [r]) as ->.
    { rewrite Ha.
      rewrite insert_app_r_alt by (rewrite length_fmap; lia).
      rewrite length_fmap, Hpk, Nat.sub_diag.
      replace (21 - k)%nat with (Datatypes.S (20 - k)) by lia. simpl.
      unfold placed. rewrite omap_app, placed_Some. simpl.
      by rewrite placed_None. }
    rewrite track_lookup, (Htr name), usage_snoc.
    rewrite Ha, placed_filled.
    pose proof (name_count_nonneg name (Recipe.ingredients r)) as Hn.
    assert (0 <= usage name pl)%Z as Hu by apply name_count_nonneg.
    unfold counter at 1.
    destruct (usage name pl =? 0)%Z eqn:Hz.
    + apply Z.eqb_eq in Hz. by rewrite Hz.
    + apply Z.eqb_neq in Hz. unfold counter.
      destruct (usage name pl + name_count name (Recipe.ingredients r) =? 0)%Z
        eqn:Hz'; [lia|done].
Qed.

Lemma tracked_fold prefs pool0 m k st :
  (k + m <= 21)%nat ->
  filled_prefix pool0 k st -> tracked st ->
  tracked (fold_left (assign_slot prefs) (seq k m) st).
Proof.
  revert k st. induction m as [|m IH]; intros k st Hkm Hinv Htr; simpl.
  - done.
  - apply IH; [lia| |].
    + apply filled_prefix_step; [lia | done].
    + eapply tracked_step; [|done..]. lia.
Qed.

(** The reuse count of a recipe, read on the placed recipes. *)
Lemma reused_entries_placed recipe st :
  tracked st ->
  reused_entries recipe (ingredient_usage_tracker st)
  = length
      (List.filter
         (fun ingredient =>
            (0 <? usage (Ingredient.name ingredient)
                    (placed (assigned_recipes st)))%Z)
         (Recipe.ingredients recipe)).
Proof.
  intros Htr. unfold reused_entries. f_equal. apply filter_ext. intros ing.
  rewrite (Htr (Ingredient.name ing)). unfold counter.
  pose proof (name_count_nonneg (Ingredient.name ing)
                (concat (map Recipe.ingredients (placed (assigned_recipes st)))))
    as Hnn.
  fold (usage (Ingredient.name ing) (placed (assigned_recipes st))) in Hnn.
  destruct (usage (Ingredient.name ing) (placed (assigned_recipes st)) =? 0)%Z
    eqn:Hz.
  - apply Z.eqb_eq in Hz. rewrite Hz.
    rewrite bool_decide_eq_false_2; [done|]. by intros [? ?].
  - apply Z.eqb_neq in Hz. rewrite bool_decide_eq_true_2 by eauto.
    symmetry. apply Z.ltb_lt. lia.
Qed.

End TrackerFacts.

(** X23.  The usage tracker counts what has been placed.  Before every
    slot of the scheduling loop the tracker holds, for each ingredient
    name, the number of ingredient entries of that name in the recipes
    placed so far, and no entry for a name that has not occurred.  The
    score of a candidate is therefore ten times the number of its
    ingredients that occur in a meal already placed. *)
Theorem usage_tracker_counts_placed_ingredients
    (optimized_plan : list (Recipe.t * Z)) (prefs : UserPreferences.t)
    (k : nat) :
  (k <= 21)%nat ->
  let st :=
    fold_left (MealPlannerService.assign_slot prefs) (seq 0 k)
      (SchedulerSpec.initial optimized_plan) in
  let placed :=
    SchedulerSpec.placed (MealPlannerService.assigned_recipes st) in
  (forall name,
     MealPlannerService.ingredient_usage_tracker st !! name
     = WeekSpec.counter (WeekSpec.usage name placed))
  /\ (forall recipe,
        MealPlannerService._score_recipe_for_assignment recipe
          (MealPlannerService.ingredient_usage_tracker st) prefs
        = (10
           * Z.of_nat
               (length
                  (List.filter
                     (fun ingredient =>
                        (0 <? WeekSpec.usage (Ingredient.name ingredient) placed)%Z)
                     (Recipe.ingredients recipe))))%Z)
  /\ (k = 21%nat -> st = MealPlannerService.schedule optimized_plan prefs).
Proof.
  intros Hk st placed.
  assert (WeekSpec.tracked st) as Htr.
  { apply (tracked_fold prefs (MealPlannerService.expand optimized_plan) k 0);
      [lia| |].
    - exists []. by repeat split.
    - intros name. done. }
  split; [exact Htr|]. split.
  - intros recipe. rewrite score_reuse. by rewrite (reused_entries_placed _ _ Htr).
  - intros ->. subst st. by rewrite schedule_slots.
Qed.

(** The theorem after the first three slots of a week of rice bowls and
    stir fries. *)
Lemma usage_tracker_counts_placed_ingredients_witness :
  let prefs := Samples.preferences 200 10 in
  let st :=
    fold_left (MealPlannerService.assign_slot prefs) (seq 0 3)
      (SchedulerSpec.initial
         [(Samples.rice_bowl, 2%Z); (Samples.vegetable_stir_fry, 2%Z)]) in
  let placed :=
    SchedulerSpec.placed (MealPlannerService.assigned_recipes st) in
  (forall name,
     MealPlannerService.ingredient_usage_tracker st !! name
     = WeekSpec.counter (WeekSpec.usage name placed))
  /\ (forall recipe,
        MealPlannerService._score_recipe_for_assignment recipe
          (MealPlannerService.ingredient_usage_tracker st) prefs
        = (10
           * Z.of_nat
               (length
                  (List.filter
                     (fun ingredient =>
                        (0 <? WeekSpec.usage (Ingredient.name ingredient) placed)%Z)
                     (Recipe.ingredients recipe))))%Z)
  /\ (3%nat = 21%nat ->
      st
      = MealPlannerService.schedule
          [(Samples.rice_bowl, 2%Z); (Samples.vegetable_stir_fry, 2%Z)] prefs).
Proof.
  apply (usage_tracker_counts_placed_ingredients
           [(Samples.rice_bowl, 2%Z); (Samples.vegetable_stir_fry, 2%Z)]
           (Samples.preferences 200 10) 3).
  lia.
Defined.

(** ** Looking a recipe up by its id *)

Section LookupFacts.
Import RecipeService.

Lemma get_recipe_by_id_Some table recipe_id recipe :
  get_recipe_by_id table recipe_id = Some recipe ->
  recipe ∈ table /\ Recipe.id recipe = recipe_id.
Proof.
  unfold get_recipe_by_id. intros [Hin Hid]%find_some.
  apply String.eqb_eq in Hid. split; [by apply list_elem_of_In | done].
Qed.

Lemma get_recipe_by_id_found table recipe :
  NoDup (map Recipe.id table) ->
  recipe ∈ table ->
  get_recipe_by_id table (Recipe.id recipe) = Some recipe.
Proof.
  unfold get_recipe_by_id.
  induction table as [|r table IH]; simpl.
  - by intros _ ?%elem_of_nil.
  - intros [Hr Hnd]%NoDup_cons [->|Hin]%elem_of_cons.
    + by rewrite String.eqb_refl.
    + destruct (String.eqb (Recipe.id r) (Recipe.id recipe)) eqn:E.
      * apply String.eqb_eq in E. exfalso. apply Hr. rewrite E.
        apply list_elem_of_In, in_map. by apply list_elem_of_In.
      * by apply IH.
Qed.

End LookupFacts.

(** X24.  [get_recipe_by_id] finds recipes by id: a recipe it returns
    belongs to the table and carries the id asked for; it returns nothing
    exactly when no recipe of the table carries the id; and in a table with
    distinct ids every recipe is found under its own id. *)
Theorem get_recipe_by_id_finds_recipes (table : list Recipe.t)
    (recipe_id : string) :
  (forall recipe,
     RecipeService.get_recipe_by_id table recipe_id = Some recipe ->
     recipe ∈ table /\ Recipe.id recipe = recipe_id)
  /\ (RecipeService.get_recipe_by_id table recipe_id = None <->
      forall recipe, recipe ∈ table -> Recipe.id recipe <> recipe_id)
  /\ (NoDup (map Recipe.id table) ->
      forall recipe,
        recipe ∈ table ->
        RecipeService.get_recipe_by_id table (Recipe.id recipe) = Some recipe).
Proof.
  split; [apply get_recipe_by_id_Some|]. split.
  - unfold RecipeService.get_recipe_by_id. split.
    + intros Hnone recipe Hin Hid. apply list_elem_of_In in Hin.
      pose proof (find_none _ _ Hnone recipe Hin) as Hf. simpl in Hf.
      apply String.eqb_neq in Hf. done.
    + intros Hall.
      destruct (List.find _ table) as [r|] eqn:Hf; [|done].
      apply find_some in Hf as [Hin Hid]. apply String.eqb_eq in Hid.
      apply list_elem_of_In in Hin. by destruct (Hall r Hin).
  - intros Hnd recipe Hin. by apply get_recipe_by_id_found.
Qed.
